(** * Update coordination core of the subway e-ink tracker

    A shallow embedding of the polling producers ([subway_service.py],
    [weather_service.py]), the redraw scheduler ([runner.py]) and the
    render sink ([display.py]), with the queries on the weather cache,
    the icon table ([utils.py]), the train filter of the layout
    ([layout.py]) and the geometry of the screen ([config.py]), followed
    by the properties of the specification that were checked against it
    and by further properties of the code.

    Python objects become records, methods become computations in a small
    state-and-exception monad over the object they are called on, and
    every interaction with the outside world (clock reads, network
    fetches, rendering) is answered by an oracle indexed by the number of
    interactions made so far. *)

From Stdlib Require Import ZArith List String Bool Floats Lia.
From Stdlib Require Import Sorting.Sorted Sorting.Permutation.
Import ListNotations.

Set Implicit Arguments.
Open Scope string_scope.
Open Scope list_scope.
Open Scope Z_scope.

(* ================================================================== *)
(** * Effects: state, exceptions, the log, sleeping, the outside world *)
(* ================================================================== *)

Inductive level := LDebug | LInfo | LWarning | LError.

Record log_record := LogRec { lvl : level; msg : string }.

(** The part of the process every component can touch, and [self], the
    object whose method is running. *)
Record World (C : Type) := mkWorld {
  ticks  : nat;               (* interactions with the outside so far *)
  logged : list log_record;   (* logger output, oldest first *)
  slept  : list Z;            (* arguments of time.sleep, oldest first *)
  self   : C
}.

Inductive outcome (A : Type) : Type :=
| Returned (a : A)
| Raised (e : string).
Arguments Raised {A} e.

Definition M (C A : Type) : Type := World C -> outcome A * World C.

Definition ret {C A} (a : A) : M C A := fun w => (Returned a, w).

Definition bind {C A B} (m : M C A) (k : A -> M C B) : M C B :=
  fun w => match m w with
           | (Returned a, w') => k a w'
           | (Raised e, w') => (Raised e, w')
           end.

Definition raise {C A} (e : string) : M C A := fun w => (Raised e, w).

(** [try: body except Exception as e: handler e] *)
Definition try_except {C A} (body : M C A) (handler : string -> M C A) : M C A :=
  fun w => match body w with
           | (Returned a, w') => (Returned a, w')
           | (Raised e, w') => handler e w'
           end.

Declare Scope monad_scope.
Delimit Scope monad_scope with monad.
Notation "x <- c1 ;; c2" := (bind c1 (fun x => c2))
  (at level 61, c1 at next level, right associativity) : monad_scope.
Notation "c1 ;; c2" := (bind c1 (fun _ => c2))
  (at level 61, right associativity) : monad_scope.
Open Scope monad_scope.

Definition get_self {C} : M C C := fun w => (Returned (self w), w).

Definition modify {C} (f : C -> C) : M C unit :=
  fun w => (Returned tt, mkWorld (ticks w) (logged w) (slept w) (f (self w))).

(** [logger.<level>(msg)]; a message is kept as its text, each
    interpolated value (and a formatted traceback) written [{}]. *)
Definition log {C} (l : level) (m : string) : M C unit :=
  fun w => (Returned tt,
            mkWorld (ticks w) (logged w ++ [LogRec l m]) (slept w) (self w)).

(** [time.sleep(secs)] *)
Definition sleep {C} (secs : Z) : M C unit :=
  fun w => (Returned tt,
            mkWorld (ticks w) (logged w) (slept w ++ [secs]) (self w)).

(** One interaction with the outside world: returns its index and
    advances the counter. *)
Definition tick {C} : M C nat :=
  fun w => (Returned (ticks w),
            mkWorld (S (ticks w)) (logged w) (slept w) (self w)).

(** An external call that may raise. *)
Definition external {C A} (oracle : nat -> option A) (err : string) : M C A :=
  n <- tick ;;
  match oracle n with
  | Some a => ret a
  | None => raise err
  end.

(** Run a method of a sub-object [D] held in a field of [C]. *)
Definition zoom {C D A} (get : C -> D) (set : D -> C -> C) (m : M D A) : M C A :=
  fun w =>
    let '(r, w') := m (mkWorld (ticks w) (logged w) (slept w) (get (self w))) in
    (r, mkWorld (ticks w') (logged w') (slept w') (set (self w') (self w))).

Fixpoint for_each {C A} (l : list A) (body : A -> M C unit) : M C unit :=
  match l with
  | [] => ret tt
  | x :: tl => body x ;; for_each tl body
  end.

Definition is_empty {A} (l : list A) : bool :=
  match l with [] => true | _ => false end.

(* ================================================================== *)
(** * Transit producer ([subway_service.py])                           *)
(* ================================================================== *)

Module Subway.

(** [@dataclass class TrainArrival] *)
Record TrainArrival := mkTrain {
  minutes_until_arrival : Z;
  arrival_time : string;
  train_id : string;
  route_id : string
}.

(** [TrainArrival.__eq__] between two arrivals: minutes and id only. *)
Definition TrainArrival_eq (a b : TrainArrival) : bool :=
  (minutes_until_arrival a =? minutes_until_arrival b)
  && String.eqb (train_id a) (train_id b).

(** What [nyct_gtfs] hands back. Datetimes are counted in microseconds. *)
Record StopTimeUpdate := mkStop { stop_id : string; arrival : option Z }.

Record Trip := mkTrip {
  trip_id : string;
  trip_route_id : string;
  stop_time_updates : list StopTimeUpdate
}.

Record SubwayService (callback : Type) := mkService {
  station_id : string;
  _subscribers : list callback;
  _should_run : bool;
  _current_trains : list TrainArrival;
  (* every call made to a subscriber, with its argument, oldest first *)
  invoked : list (callback * list TrainArrival)
}.

(** [round(n / d)] of Python 3 for [d > 0]: to nearest, ties to even;
    computed exactly. *)
Definition round_half_even (n d : Z) : Z :=
  let q := n / d in
  let r := n mod d in
  if 2 * r <? d then q
  else if d <? 2 * r then q + 1
  else if Z.even q then q else q + 1.

(** [sorted(l, key=...)]: stable. *)
Fixpoint insert_by (key : TrainArrival -> Z) (x : TrainArrival)
    (l : list TrainArrival) : list TrainArrival :=
  match l with
  | [] => [x]
  | y :: tl => if key x <=? key y then x :: l else y :: insert_by key x tl
  end.

Definition sorted_by (key : TrainArrival -> Z) (l : list TrainArrival) :=
  fold_right (insert_by key) [] l.

(** What the service reaches outside itself: its subscribers' code, the
    configuration, [nyct_gtfs] and the clock. *)
Class Outside (callback : Type) := {
  (** whether a subscriber raises on a given argument *)
  callback_raises : callback -> list TrainArrival -> bool;
  (** config.TRAIN_LINE_1, config.TRAIN_LINE_2 *)
  TRAIN_LINE_1 : string;
  TRAIN_LINE_2 : string;
  (** [NYCTFeed(line)] fetches over the network: the trips it holds, or
      [None] when it raises *)
  NYCTFeed : string -> nat -> option (list Trip);
  (** [feed.filter_trips(headed_for_stop_id=...)] *)
  filter_trips : list Trip -> string -> list Trip;
  (** [datetime.now()] and [strftime("%I:%M %p")] *)
  datetime_now : nat -> Z;
  strftime : Z -> string
}.

Section Service.

Context {callback : Type} {outside : Outside callback}.

Abbreviation Svc := (SubwayService callback).
Abbreviation P := (M Svc).

Definition set_current (t : list TrainArrival) (s : Svc) : Svc :=
  mkService (station_id s) (_subscribers s) (_should_run s) t (invoked s).

Definition add_subscriber (cb : callback) (s : Svc) : Svc :=
  mkService (station_id s) (_subscribers s ++ [cb]) (_should_run s)
            (_current_trains s) (invoked s).

Definition record_call (cb : callback) (t : list TrainArrival) (s : Svc) : Svc :=
  mkService (station_id s) (_subscribers s) (_should_run s)
            (_current_trains s) (invoked s ++ [(cb, t)]).

(** Calling a subscriber. *)
Definition call (cb : callback) (t : list TrainArrival) : P unit :=
  modify (record_call cb t) ;;
  if callback_raises cb t then raise "subscriber raised" else ret tt.

(** [SubwayService.subscribe] *)
Definition subscribe (cb : callback) : P unit :=
  modify (add_subscriber cb) ;;
  s <- get_self ;;
  if negb (is_empty (_current_trains s))
  then call cb (_current_trains s)
  else ret tt.

(** [SubwayService._should_notify] *)
Definition _should_notify (s : Svc) (new_trains : list TrainArrival) : bool :=
  if is_empty (_current_trains s) || is_empty new_trains then true
  else
    existsb
      (fun i =>
         match nth_error (_current_trains s) i, nth_error new_trains i with
         | None, _ => true                       (* i >= len(current) *)
         | Some c, Some n => negb (TrainArrival_eq n c)
         | Some _, None => false
         end)
      (seq 0 (Nat.min 2 (List.length new_trains))).

(** [SubwayService._notify_subscribers] *)
Definition _notify_subscribers (trains : list TrainArrival) : P unit :=
  s <- get_self ;;
  for_each (_subscribers s)
    (fun sub =>
       try_except (call sub trains)
         (fun _ => log LError "Error notifying subscriber: {}")).

(** [SubwayService._process_train] *)
Definition _process_train (train : Trip) : P (option TrainArrival) :=
  try_except
    (log LDebug "Processing train with ID: {}" ;;
     log LDebug "Train stop updates: {}" ;;
     s <- get_self ;;
     match find (fun stop => String.eqb (stop_id stop) (station_id s))
                (stop_time_updates train) with
     | None =>
         log LDebug "No target stop found for station {}" ;;
         ret None
     | Some target_stop =>
         match arrival target_stop with
         | None =>
             log LDebug "Target stop has no arrival time" ;;
             ret None
         | Some at_ =>
             n <- tick ;;
             let minutes :=
               Z.max 0 (round_half_even (at_ - datetime_now n) 60000000) in
             log LDebug "Calculated arrival: {} minutes from now at {}" ;;
             ret (Some (mkTrain minutes (strftime at_)
                                (trip_id train) (trip_route_id train)))
         end
     end)
    (fun _ =>
       log LError "Error processing train: {}" ;;
       ret None).

(** One line of [get_upcoming_trains]: build the feed, filter it. *)
Definition fetch_line (line : string) (none_msg : string) : P (list Trip) :=
  log LDebug "Creating feed for line {}" ;;
  feed <- external (NYCTFeed line) "NYCTFeed" ;;
  log LDebug "Raw feed data for {}: {}" ;;
  log LDebug "Available station IDs in {} feed: {}" ;;
  s <- get_self ;;
  let trains := filter_trips feed (station_id s) in
  log LInfo "Found {} trains for line {}" ;;
  (if is_empty trains
   then log LDebug none_msg ;;
        log LDebug "Feed timestamp: {}" ;;
        log LDebug "Total trips in feed: {}"
   else ret tt) ;;
  ret trains.

Fixpoint process_all (trains : list Trip) : P (list TrainArrival) :=
  match trains with
  | [] => ret []
  | train :: tl =>
      log LDebug "Processing train: {}" ;;
      a <- _process_train train ;;
      match a with
      | Some arr =>
          log LDebug "Processed train arrival: {} ({} min)" ;;
          rest <- process_all tl ;;
          ret (arr :: rest)
      | None =>
          log LWarning "Could not process train: {}" ;;
          process_all tl
      end
  end.

(** The [try] block of [get_upcoming_trains]: the fetch proper. *)
Definition fetch_arrivals : P (list TrainArrival) :=
  log LDebug "Fetching train data for station {}" ;;
  trains_f <- fetch_line TRAIN_LINE_1
                "No trains found for line F, checking feed status..." ;;
  trains_g <- fetch_line TRAIN_LINE_2
                "No trains found for line G, checking feed status..." ;;
  let trains := trains_f ++ trains_g in
  if is_empty trains
  then log LWarning "No trains found in feed" ;; ret []
  else
    arrivals <- process_all trains ;;
    let sorted_arrivals := sorted_by minutes_until_arrival arrivals in
    log LInfo "Returning {} processed train arrivals" ;;
    ret sorted_arrivals.

(** [SubwayService.get_upcoming_trains] *)
Definition get_upcoming_trains : P (list TrainArrival) :=
  try_except
    fetch_arrivals
    (fun _ =>
       log LError "Error getting subway data: {}" ;;
       ret []).

(** The body of the [while self._should_run] loop of
    [SubwayService._update_loop]. *)
Definition _update_loop_body (interval_seconds : Z) : P unit :=
  try_except
    (new_trains <- get_upcoming_trains ;;
     s <- get_self ;;
     (if _should_notify s new_trains
      then modify (set_current new_trains) ;;
           _notify_subscribers new_trains
      else ret tt) ;;
     sleep interval_seconds)
    (fun _ =>
       log LError "Error in update loop: {}" ;;
       sleep interval_seconds).

(** [SubwayService._update_loop], cut after [fuel] iterations. *)
Fixpoint _update_loop (fuel : nat) (interval_seconds : Z) : P unit :=
  match fuel with
  | O => ret tt
  | S fuel' =>
      s <- get_self ;;
      if _should_run s
      then _update_loop_body interval_seconds ;;
           _update_loop fuel' interval_seconds
      else ret tt
  end.

End Service.

End Subway.


(* ================================================================== *)
(** * Python values as the weather code handles them                   *)
(* ================================================================== *)

(** What [response.json()] yields and what the service builds from it.
    A number is kept as the double of its value (Python's [==] and dict
    lookup identify [3] and [3.0]); a dict is its items in insertion
    order, with distinct keys. *)
Unset Elimination Schemes.
Inductive json :=
| JNone
| JBool (b : bool)
| JNum (x : float)
| JStr (s : string)
| JList (l : list json)
| JDict (d : list (string * json)).
Set Elimination Schemes.

Fixpoint lookup (k : string) (d : list (string * json)) : option json :=
  match d with
  | [] => None
  | (k', v) :: tl => if String.eqb k k' then Some v else lookup k tl
  end.

Definition float_of_bool (b : bool) : float := if b then 1%float else 0%float.

(** Python's [a == b]. Two dicts are equal when they have as many items
    and every item of the first is found, equal, in the second. *)
Fixpoint json_eqb (a b : json) {struct a} : bool :=
  match a, b with
  | JNone, JNone => true
  | JBool x, JBool y => Bool.eqb x y
  | JNum x, JNum y => PrimFloat.eqb x y
  | JBool x, JNum y => PrimFloat.eqb (float_of_bool x) y
  | JNum x, JBool y => PrimFloat.eqb x (float_of_bool y)
  | JStr x, JStr y => String.eqb x y
  | JList l1, JList l2 =>
      (fix go (l1 l2 : list json) : bool :=
         match l1, l2 with
         | [], [] => true
         | x :: t1, y :: t2 => json_eqb x y && go t1 t2
         | _, _ => false
         end) l1 l2
  | JDict d1, JDict d2 =>
      Nat.eqb (List.length d1) (List.length d2)
      && (fix all (d : list (string * json)) : bool :=
            match d with
            | [] => true
            | (k, v) :: tl =>
                match lookup k d2 with
                | Some v' => json_eqb v v'
                | None => false
                end && all tl
            end) d1
  | _, _ => false
  end.

(** Python's truth value. *)
Definition truthy (j : json) : bool :=
  match j with
  | JNone => false
  | JBool b => b
  | JNum x => negb (PrimFloat.eqb x 0%float)
  | JStr s => negb (String.eqb s "")
  | JList l => negb (is_empty l)
  | JDict d => negb (is_empty d)
  end.

(** [l[i]] on a Python list, negative indices counted from the end. *)
Definition list_item {A} (l : list A) (i : Z) : option A :=
  if i <? 0
  then if Z.of_nat (List.length l) + i <? 0 then None
       else nth_error l (Z.to_nat (Z.of_nat (List.length l) + i))
  else nth_error l (Z.to_nat i).

(** [j[k]] with a string key: a [KeyError] on a dict without it, a
    [TypeError] on anything that is not a dict. *)
Definition getitem {C} (j : json) (k : string) : M C json :=
  match j with
  | JDict d => match lookup k d with
               | Some v => ret v
               | None => raise "KeyError"
               end
  | _ => raise "TypeError"
  end.

(** [j[i]] with an integer index on a list. *)
Definition getindex {C} (j : json) (i : Z) : M C json :=
  match j with
  | JList l => match list_item l i with
               | Some v => ret v
               | None => raise "IndexError"
               end
  | _ => raise "TypeError"
  end.

(** [len(j)] of a list. *)
Definition len {C} (j : json) : M C nat :=
  match j with
  | JList l => ret (List.length l)
  | _ => raise "TypeError"
  end.

(** [l.index(x)] on a list: the first position holding a value equal to
    [x]; [None] stands for its [ValueError]. *)
Fixpoint index_of (x : json) (l : list json) : option Z :=
  match l with
  | [] => None
  | y :: tl => if json_eqb y x then Some 0
               else option_map Z.succ (index_of x tl)
  end.

Fixpoint map_m {C A B} (f : A -> M C B) (l : list A) : M C (list B) :=
  match l with
  | [] => ret []
  | x :: tl => y <- f x ;; ys <- map_m f tl ;; ret (y :: ys)
  end.

(** [try: body except <exc>: handler], for one exception class. *)
Definition try_except_only {C A} (exc : string) (body : M C A) (handler : M C A)
  : M C A :=
  fun w => match body w with
           | (Returned a, w') => (Returned a, w')
           | (Raised e, w') =>
               if String.eqb e exc then handler w' else (Raised e, w')
           end.

(* ================================================================== *)
(** * Weather producer ([weather_service.py])                          *)
(* ================================================================== *)

Module Weather.

Record WeatherService (callback : Type) := mkService {
  _subscribers : list callback;
  _should_run : bool;
  _current_data : json;          (* [JNone] until something is stored *)
  (* every call made to a subscriber, with its argument, oldest first *)
  invoked : list (callback * json)
}.

(** The [conditions] table of [_get_condition_text]. *)
Definition conditions : list (float * string) :=
  [ (0, "Clear"); (1, "Mainly clear"); (2, "Partly cloudy"); (3, "Overcast");
    (45, "Foggy"); (48, "Rime fog"); (51, "Light drizzle");
    (53, "Moderate drizzle"); (55, "Dense drizzle"); (61, "Light rain");
    (63, "Moderate rain"); (65, "Heavy rain"); (71, "Light snow");
    (73, "Moderate snow"); (75, "Heavy snow"); (77, "Snow grains");
    (80, "Light rain showers"); (81, "Moderate rain showers");
    (82, "Violent rain showers"); (85, "Light snow showers");
    (86, "Heavy snow showers"); (95, "Thunderstorm");
    (96, "Thunderstorm with hail"); (99, "Thunderstorm with heavy hail") ]%float.

(** The [code_map] table of [_map_condition_code]. *)
Definition code_map : list (float * float) :=
  [ (0, 1000); (1, 1003); (2, 1003); (3, 1006); (45, 1135); (48, 1147);
    (51, 1150); (53, 1153); (55, 1153); (61, 1180); (63, 1183); (65, 1186);
    (71, 1210); (73, 1213); (75, 1216); (77, 1255); (80, 1240); (81, 1243);
    (82, 1246); (85, 1255); (86, 1258); (95, 1273); (96, 1276);
    (99, 1279) ]%float.

Fixpoint table_get {V} (t : list (float * V)) (k : float) (default : V) : V :=
  match t with
  | [] => default
  | (k', v) :: tl => if PrimFloat.eqb k k' then v else table_get tl k default
  end.

(** [table.get(key, default)] with an arbitrary value as the key: numbers
    and booleans can hit an entry, lists and dicts are unhashable. *)
Definition dict_get {C V} (t : list (float * V)) (key : json) (default : V) : M C V :=
  match key with
  | JNum x => ret (table_get t x default)
  | JBool b => ret (table_get t (float_of_bool b) default)
  | JNone | JStr _ => ret default
  | JList _ | JDict _ => raise "TypeError"
  end.

(** What the service reaches outside itself. *)
Class Outside (callback : Type) := {
  (** whether a subscriber raises on a given argument *)
  callback_raises : callback -> json -> bool;
  (** [requests.get(url, params)], [raise_for_status()] and [.json()]:
      the decoded body, or [None] when one of them raises *)
  http_get_json : nat -> option json;
  (** [datetime.now(ny_tz).strftime('%Y-%m-%dT%H:00')] *)
  current_hour : nat -> string;
  (** [WeatherService._get_commute_forecasts]: date, time-zone and
      averaging work over the response, left to the user of this model;
      [None] when it raises *)
  _get_commute_forecasts : json -> nat -> option json
}.

Section Service.

Context {callback : Type} {outside : Outside callback}.

Abbreviation Svc := (WeatherService callback).
Abbreviation P := (M Svc).

Definition set_current (d : json) (s : Svc) : Svc :=
  mkService (_subscribers s) (_should_run s) d (invoked s).

Definition add_subscriber (cb : callback) (s : Svc) : Svc :=
  mkService (_subscribers s ++ [cb]) (_should_run s) (_current_data s) (invoked s).

Definition record_call (cb : callback) (d : json) (s : Svc) : Svc :=
  mkService (_subscribers s) (_should_run s) (_current_data s)
            (invoked s ++ [(cb, d)]).

Definition call (cb : callback) (d : json) : P unit :=
  modify (record_call cb d) ;;
  if callback_raises cb d then raise "subscriber raised" else ret tt.

(** [WeatherService.subscribe] *)
Definition subscribe (cb : callback) : P unit :=
  modify (add_subscriber cb) ;;
  s <- get_self ;;
  if truthy (_current_data s)
  then call cb (_current_data s)
  else ret tt.

(** [WeatherService._notify_subscribers] *)
Definition _notify_subscribers (weather_data : json) : P unit :=
  s <- get_self ;;
  for_each (_subscribers s)
    (fun sub =>
       try_except (call sub weather_data)
         (fun _ => log LError "Error notifying weather subscriber: {}")).

(** [WeatherService._get_condition_text] *)
Definition _get_condition_text (wmo_code : json) : P json :=
  t <- dict_get conditions wmo_code "Clear" ;; ret (JStr t).

(** [WeatherService._map_condition_code] *)
Definition _map_condition_code (wmo_code : json) : P json :=
  c <- dict_get code_map wmo_code 1000%float ;; ret (JNum c).

(** [data[group][field][i]] *)
Definition at_ (data : json) (group field : string) (i : Z) : P json :=
  g <- getitem data group ;;
  f <- getitem g field ;;
  getindex f i.

(** The [{'text': ..., 'code': ...}] dict both helpers below build. *)
Definition condition_of (data : json) (group : string) (i : Z) : P json :=
  c1 <- at_ data group "weathercode" i ;;
  text <- _get_condition_text c1 ;;
  c2 <- at_ data group "weathercode" i ;;
  code <- _map_condition_code c2 ;;
  ret (JDict [("text", text); ("code", code)]).

(** [WeatherService._get_current_conditions] *)
Definition _get_current_conditions (data : json) : P json :=
  try_except
    (n <- tick ;;
     let current_time := current_hour n in
     log LDebug "Looking for current time: {}" ;;
     log LDebug "Available times: {}" ;;
     current_idx <-
       try_except_only "ValueError"
         (h <- getitem data "hourly" ;;
          t <- getitem h "time" ;;
          match t with
          | JList l =>
              match index_of (JStr current_time) l with
              | Some i => log LDebug "Found current time at index: {}" ;; ret i
              | None => raise "ValueError"
              end
          | _ => raise "AttributeError"
          end)
         (log LWarning "Could not find exact time {} in hourly data, using first available hour" ;;
          ret 0) ;;
     log LDebug "Temperature data type: {}" ;;
     log LDebug "Temperature data length: {}" ;;
     log LDebug "Current index: {}" ;;
     temp_f <- at_ data "hourly" "temperature_2m" current_idx ;;
     condition <- condition_of data "hourly" current_idx ;;
     wind_mph <- at_ data "hourly" "windspeed_10m" current_idx ;;
     precip_chance <- at_ data "hourly" "precipitation_probability" current_idx ;;
     is_day <- at_ data "hourly" "is_day" current_idx ;;
     let conditions :=
       JDict [("temp_f", temp_f); ("condition", condition);
              ("wind_mph", wind_mph); ("precip_chance", precip_chance);
              ("is_day", is_day)] in
     log LDebug "Generated current conditions: {}" ;;
     ret conditions)
    (fun e =>
       log LError "Error in _get_current_conditions: {}" ;;
       log LError "Data structure received:" ;;
       log LError "Full traceback:" ;;
       raise e).

(** [WeatherService._get_hourly_data_for_day] *)
Definition _get_hourly_data_for_day (data : json) (day_index : Z) : P json :=
  let start_idx := day_index * 24 in
  hourly_data <-
    map_m
      (fun k =>
         let i := start_idx + Z.of_nat k in
         time <- at_ data "hourly" "time" i ;;
         temp_f <- at_ data "hourly" "temperature_2m" i ;;
         chance_of_rain <- at_ data "hourly" "precipitation_probability" i ;;
         wind_mph <- at_ data "hourly" "windspeed_10m" i ;;
         condition <- condition_of data "hourly" i ;;
         is_day <- at_ data "hourly" "is_day" i ;;
         ret (JDict [("time", time); ("temp_f", temp_f);
                     ("chance_of_rain", chance_of_rain);
                     ("wind_mph", wind_mph); ("condition", condition);
                     ("is_day", is_day)]))
      (seq 0 24) ;;
  ret (JList hourly_data).

(** [WeatherService._get_forecast_days] *)
Definition _get_forecast_days (data : json) : P json :=
  daily <- getitem data "daily" ;;
  times <- getitem daily "time" ;;
  n <- len times ;;
  forecasts <-
    map_m
      (fun k =>
         let i := Z.of_nat k in
         date <- at_ data "daily" "time" i ;;
         maxtemp_f <- at_ data "daily" "temperature_2m_max" i ;;
         mintemp_f <- at_ data "daily" "temperature_2m_min" i ;;
         rain <- at_ data "daily" "precipitation_probability_max" i ;;
         condition <- condition_of data "daily" i ;;
         hour <- _get_hourly_data_for_day data i ;;
         ret (JDict [("date", date);
                     ("day", JDict [("maxtemp_f", maxtemp_f);
                                    ("mintemp_f", mintemp_f);
                                    ("daily_chance_of_rain", rain);
                                    ("condition", condition)]);
                     ("hour", hour)]))
      (seq 0 n) ;;
  ret (JList forecasts).

(** [WeatherService.get_weather] *)
Definition get_weather : P json :=
  try_except
    (log LInfo "Fetching weather for coordinates: {}, {}" ;;
     log LDebug "Making API request to: {}" ;;
     log LDebug "With parameters: {}" ;;
     data <- external http_get_json "RequestException" ;;
     current <- _get_current_conditions data ;;
     forecastday <- _get_forecast_days data ;;
     hourly <- getitem data "hourly" ;;
     commute_forecasts <-
       external (_get_commute_forecasts data) "commute forecast error" ;;
     let weather_data :=
       JDict [("current", current);
              ("forecast", JDict [("forecastday", forecastday)]);
              ("hourly", hourly);
              ("commute_forecasts", commute_forecasts)] in
     (* Store the full response for later use *)
     modify (set_current data) ;;
     ret weather_data)
    (fun e =>
       log LError "Error fetching weather: {}" ;;
       log LError "Full traceback:" ;;
       raise e).

(** The body of the [while self._should_run] loop of
    [WeatherService._update_loop]. *)
Definition _update_loop_body (interval_seconds : Z) : P unit :=
  try_except
    (weather_data <- get_weather ;;
     s <- get_self ;;
     (if negb (json_eqb weather_data (_current_data s))
      then modify (set_current weather_data) ;;
           _notify_subscribers weather_data
      else ret tt) ;;
     sleep interval_seconds)
    (fun _ =>
       log LError "Error in weather update loop: {}" ;;
       sleep interval_seconds).

(** [WeatherService._update_loop], cut after [fuel] iterations. *)
Fixpoint _update_loop (fuel : nat) (interval_seconds : Z) : P unit :=
  match fuel with
  | O => ret tt
  | S fuel' =>
      s <- get_self ;;
      if _should_run s
      then _update_loop_body interval_seconds ;;
           _update_loop fuel' interval_seconds
      else ret tt
  end.

End Service.

End Weather.


(* ================================================================== *)
(** * Render sink ([display.py])                                       *)
(* ================================================================== *)

Module Sink.

Import Subway.

(** A mode-[L] bitmap: rows of 8-bit pixels, top row first. *)
Definition Image := list (list Z).

(** [(left, upper, right, lower)], right and lower excluded. *)
Definition Box := (Z * Z * Z * Z)%type.

Fixpoint map2 {A B X} (f : A -> B -> X) (l1 : list A) (l2 : list B) : list X :=
  match l1, l2 with
  | a :: t1, b :: t2 => f a b :: map2 f t1 t2
  | _, _ => []
  end.

(** [ImageChops.difference]: the absolute difference, pixel by pixel. *)
Definition difference (img1 img2 : Image) : Image :=
  map2 (map2 (fun p q => Z.abs (p - q))) img1 img2.

(** The positions, counted from [i], of the elements [keep] accepts. *)
Fixpoint positions {A} (keep : A -> bool) (i : Z) (l : list A) : list Z :=
  match l with
  | [] => []
  | a :: tl => (if keep a then [i] else []) ++ positions keep (Z.succ i) tl
  end.

Definition nonzero (p : Z) : bool := negb (p =? 0).

Definition minimum (x : Z) (l : list Z) : Z := fold_left Z.min l x.
Definition maximum (x : Z) (l : list Z) : Z := fold_left Z.max l x.

(** [Image.getbbox]: the smallest box holding every non-zero pixel, or
    [None] when there is none. *)
Definition getbbox (img : Image) : option Box :=
  let ys := positions (existsb nonzero) 0 img in
  let xs := flat_map (positions nonzero 0) img in
  match xs, ys with
  | x :: xs', y :: ys' =>
      Some (minimum x xs', minimum y ys',
            maximum x xs' + 1, maximum y ys' + 1)
  | _, _ => None
  end.

(** [img.rotate(180)] *)
Definition rotate180 (img : Image) : Image := rev (map (@rev Z) img).

(** The pixel of [img] at column [x], row [y]; outside the image a crop
    reads 0. *)
Definition pixel (img : Image) (x y : Z) : Z :=
  if (x <? 0) || (y <? 0) then 0
  else nth (Z.to_nat x) (nth (Z.to_nat y) img []) 0.

Definition inside (b : Box) (x y : Z) : bool :=
  let '(l, u, r, d) := b in (l <=? x) && (x <? r) && (u <=? y) && (y <? d).

(** Rewrite every pixel of [buf] from its coordinates and old value. *)
Definition repaint (f : Z -> Z -> Z -> Z) (buf : Image) : Image :=
  map2 (fun y row => map2 (fun x p => f x y p)
                          (map Z.of_nat (seq 0 (List.length row))) row)
       (map Z.of_nat (seq 0 (List.length buf))) buf.

(** [frame_buf.paste(img.crop(box), box)] *)
Definition paste_box (img : Image) (b : Box) (buf : Image) : Image :=
  repaint (fun x y p => if inside b x y then pixel img x y else p) buf.

(** [frame_buf.paste(img)]: the whole of [img], from the top left corner. *)
Definition paste (img : Image) (buf : Image) : Image :=
  repaint (fun x y p =>
             if (Z.to_nat y <? List.length img)%nat
                && (Z.to_nat x <? List.length (nth (Z.to_nat y) img []))%nat
             then pixel img x y else p) buf.

(** [frame_buf.paste(colour, box=...)] *)
Definition paste_colour (colour : Z) (b : Box) (buf : Image) : Image :=
  repaint (fun x y p => if inside b x y then colour else p) buf.

Inductive DisplayModes := GC16 | GLR16.

(** What the IT8951 driver was asked to do. *)
Inductive driver_call :=
| draw_full (mode : DisplayModes)
| draw_partial (mode : DisplayModes)
| wait_display_ready.

Record EInkDisplay := mkEInk {
  frame_buf : Image;                (* self.display.frame_buf *)
  previous_image : option Image;
  driver : list driver_call         (* calls made so far, oldest first *)
}.

Record DebugDisplay := mkDebug {
  current_display_png : option Image     (* the file last saved *)
}.

Inductive Backend :=
| Debug_ (d : DebugDisplay)
| EInk (e : EInkDisplay).

Record Display := mkDisplay {
  display : option Backend;                  (* None until initialize() *)
  next_frame : option (Image * bool * bool)
}.

(** config.display.WIDTH, config.display.HEIGHT *)
Definition WIDTH : Z := 825.
Definition HEIGHT : Z := 1200.

(** What the sink reaches outside itself. *)
Class Outside := {
  (** whether the panel accepts the draw issued at a given interaction *)
  panel_ready : nat -> bool;
  (** whether [img.save(path)] succeeds at a given interaction *)
  disk_ready : nat -> bool;
  (** the renderer, [layout.getImage]; [None] when it raises *)
  getImage : json -> list TrainArrival -> nat -> option Image
}.

Section Hardware.

Context {outside : Outside}.

Definition set_frame_buf (b : Image) (e : EInkDisplay) : EInkDisplay :=
  mkEInk b (previous_image e) (driver e).

Definition set_previous_image (img : Image) (e : EInkDisplay) : EInkDisplay :=
  mkEInk (frame_buf e) (Some img) (driver e).

Definition record_driver (c : driver_call) (e : EInkDisplay) : EInkDisplay :=
  mkEInk (frame_buf e) (previous_image e) (driver e ++ [c]).

(** A draw call on the panel: recorded, and it may raise. *)
Definition draw (c : driver_call) : M EInkDisplay unit :=
  modify (record_driver c) ;;
  n <- tick ;;
  if panel_ready n then ret tt else raise "IT8951 error".

(** [EInkDisplay._clear_display] *)
Definition _clear_display : M EInkDisplay unit :=
  try_except
    (log LInfo "Clearing display" ;;
     e <- get_self ;;
     modify (set_frame_buf (paste_colour 255 (0, 0, WIDTH, HEIGHT) (frame_buf e))) ;;
     draw (draw_full GC16) ;;
     log LInfo "Display cleared")
    (fun e =>
       log LError "Error clearing display: {}" ;;
       raise e).

(** [EInkDisplay._update_display] *)
Definition _update_display (img : Image) (clear : bool) : M EInkDisplay unit :=
  try_except
    ((if clear then _clear_display else ret tt) ;;
     log LInfo "Sending image to display" ;;
     e <- get_self ;;
     modify (set_frame_buf (paste img (frame_buf e))) ;;
     draw (draw_full GLR16) ;;
     log LInfo "Display update complete")
    (fun e =>
       modify (record_driver wait_display_ready) ;;
       log LError "Error updating display: {}" ;;
       raise e).

(** [EInkDisplay._update_partial_display] *)
Definition _update_partial_display (img : Image) (box : Box) : M EInkDisplay unit :=
  try_except
    (log LInfo "Sending partial image to display" ;;
     e <- get_self ;;
     modify (set_frame_buf (paste_box img box (frame_buf e))) ;;
     draw (draw_partial GLR16) ;;
     log LInfo "Partial display update complete")
    (fun e =>
       modify (record_driver wait_display_ready) ;;
       log LError "Error updating partial display: {}" ;;
       raise e).

(** [EInkDisplay._get_diff_box] *)
Definition _get_diff_box (img1 img2 : Image) : option Box :=
  getbbox (difference img1 img2).

(** The test on the size of the changed region in [EInkDisplay.update]. *)
Definition too_large (b : Box) : bool :=
  let '(l, u, r, d) := b in (50 <? r - l) || (50 <? d - u).

(** [EInkDisplay.update] *)
Definition eink_update (img : Image) (partial clear : bool) : M EInkDisplay unit :=
  try_except
    (e <- get_self ;;
     let diff_box :=
       match previous_image e with
       | Some prev => _get_diff_box prev img
       | None => None
       end in
     diff_box <-
       match diff_box with
       | Some b =>
           if too_large b
           then log LInfo "Large diff detected, doing full update" ;; ret None
           else ret (Some b)
       | None => ret None
       end ;;
     match partial, diff_box with
     | true, Some b => _update_partial_display img b
     | _, _ => _update_display img clear
     end ;;
     modify (set_previous_image img))
    (fun e =>
       log LError "Error updating display: {}" ;;
       log LError "{}" ;;
       raise e).

(** [DebugDisplay._update_display] *)
Definition debug_update_display (img : Image) : M DebugDisplay unit :=
  try_except
    (let img := rotate180 img in
     n <- tick ;;
     if disk_ready n
     then modify (fun _ => mkDebug (Some img)) ;;
          log LInfo "Saved display image to {}"
     else raise "OSError")
    (fun e =>
       log LError "Error updating debug display: {}" ;;
       raise e).

(** [DebugDisplay.update] *)
Definition debug_update (img : Image) (partial clear : bool) : M DebugDisplay unit :=
  try_except
    (debug_update_display img)
    (fun e =>
       log LError "Error updating debug display: {}" ;;
       raise e).

Definition set_next_frame (f : option (Image * bool * bool)) (d : Display) : Display :=
  mkDisplay (display d) f.

Definition set_backend (b : Backend) (d : Display) : Display :=
  mkDisplay (Some b) (next_frame d).

(** [self.display.update(img, partial, clear)], on whichever display
    [initialize] chose; before that [self.display] is [None]. *)
Definition backend_update (img : Image) (partial clear : bool) : M Display unit :=
  d <- get_self ;;
  match display d with
  | None => raise "AttributeError"
  | Some (Debug_ dbg) =>
      zoom (fun _ => dbg) (fun dbg' d' => set_backend (Debug_ dbg') d')
           (debug_update img partial clear)
  | Some (EInk e) =>
      zoom (fun _ => e) (fun e' d' => set_backend (EInk e') d')
           (eink_update img partial clear)
  end.

(** The body of the [while True] loop of [Display._process_queue]. *)
Definition _process_queue_body : M Display unit :=
  try_except
    (d <- get_self ;;
     match next_frame d with
     | Some (img, partial, clear) =>
         backend_update img partial clear ;;
         modify (set_next_frame None)
     | None => ret tt
     end ;;
     sleep 1)
    (fun _ =>
       log LError "Error processing update queue: {}" ;;
       log LError "{}").

(** [Display._process_queue], cut after [fuel] iterations. *)
Fixpoint _process_queue (fuel : nat) : M Display unit :=
  match fuel with
  | O => ret tt
  | S fuel' => _process_queue_body ;; _process_queue fuel'
  end.

(** [Display.update] *)
Definition update (weather_data : json) (train_data : list TrainArrival)
    (partial clear : bool) : M Display unit :=
  try_except
    (log LInfo "Generating display image..." ;;
     img <- external (getImage weather_data train_data) "render error" ;;
     modify (set_next_frame (Some (img, partial, clear))))
    (fun e =>
       log LError "Error queuing display update: {}" ;;
       log LError "{}" ;;
       raise e).

End Hardware.

End Sink.


(* ================================================================== *)
(** * Redraw scheduler ([runner.py])                                   *)
(* ================================================================== *)

Module Sched.

Import Subway.

(** [@dataclass class DisplayState]; timestamps are the doubles
    [time.time()] returns. *)
Record DisplayState := mkState {
  weather_data : json;                         (* [JNone] while unset *)
  train_data : option (list TrainArrival);     (* [None] while unset *)
  last_display_update : float;
  last_weather_change : float;
  last_display_clear : float
}.

Definition TopTwo := (option TrainArrival * option TrainArrival)%type.

Record Runner := mkRunner {
  display : Sink.Display;
  state : DisplayState;
  min_interval : float;
  _previous_top_trains : TopTwo
}.

(** [DisplayState()] and [Runner.__init__] *)
Definition DisplayState_init : DisplayState :=
  mkState JNone None 0%float 0%float 0%float.

Definition Runner_init : Runner :=
  mkRunner (Sink.mkDisplay None None) DisplayState_init 1%float (None, None).

Definition is_some {A} (o : option A) : bool :=
  match o with Some _ => true | None => false end.

(** [Runner._get_top_two_trains] *)
Definition _get_top_two_trains (trains : list TrainArrival) : TopTwo :=
  (nth_error trains 0, nth_error trains 1).

(** One round of the [for prev, curr in zip(...)] loop of
    [_has_significant_change]: whether it returns [True]. *)
Definition position_changed (prev curr : option TrainArrival) : bool :=
  match prev, curr with
  | Some p, Some c =>
      negb (String.eqb (train_id p) (train_id c))
      || negb (minutes_until_arrival p =? minutes_until_arrival c)
  | None, None => false          (* prev != curr is False *)
  | _, _ => true                 (* one is None and the other isn't *)
  end.

(** [Runner._has_significant_change], with [self._previous_top_trains]
    as its first argument. *)
Definition _has_significant_change (previous current : TopTwo) : bool :=
  if negb (is_some (fst previous)) && is_some (fst current) then true
  else if negb (is_some (fst current)) then true
  else existsb (fun pc => position_changed (fst pc) (snd pc))
               (combine [fst previous; snd previous]
                        [fst current; snd current]).

(** The clocks the scheduler reads. *)
Class Clock := {
  (** [time.time()], by interaction *)
  time_time : nat -> float;
  (** [datetime.now().minute], by interaction *)
  now_minute : nat -> Z
}.

Section Scheduler.

Context {clock : Clock} {outside : Sink.Outside}.

Abbreviation P := (M Runner).

Definition set_state (f : DisplayState -> DisplayState) (r : Runner) : Runner :=
  mkRunner (display r) (f (state r)) (min_interval r) (_previous_top_trains r).

Definition set_display (d : Sink.Display) (r : Runner) : Runner :=
  mkRunner d (state r) (min_interval r) (_previous_top_trains r).

Definition set_previous_top_trains (t : TopTwo) (r : Runner) : Runner :=
  mkRunner (display r) (state r) (min_interval r) t.

Definition set_weather_data (w : json) (s : DisplayState) : DisplayState :=
  mkState w (train_data s) (last_display_update s) (last_weather_change s)
          (last_display_clear s).

Definition set_train_data (t : list TrainArrival) (s : DisplayState) : DisplayState :=
  mkState (weather_data s) (Some t) (last_display_update s)
          (last_weather_change s) (last_display_clear s).

Definition set_last_display_update (x : float) (s : DisplayState) : DisplayState :=
  mkState (weather_data s) (train_data s) x (last_weather_change s)
          (last_display_clear s).

Definition set_last_weather_change (x : float) (s : DisplayState) : DisplayState :=
  mkState (weather_data s) (train_data s) (last_display_update s) x
          (last_display_clear s).

Definition set_last_display_clear (x : float) (s : DisplayState) : DisplayState :=
  mkState (weather_data s) (train_data s) (last_display_update s)
          (last_weather_change s) x.

(** [time.time()] *)
Definition time_ : P float := n <- tick ;; ret (time_time n).

(** A method of [self.display]. *)
Definition on_display {A} (m : M Sink.Display A) : P A :=
  zoom display set_display m.

(** [Runner._update_display] *)
Definition _update_display (clear : bool) : P unit :=
  try_except
    (r <- get_self ;;
     on_display
       (Sink.update
          (weather_data (state r))
          (match train_data (state r) with Some t => t | None => [] end)
          true clear) ;;
     (if clear
      then t <- time_ ;; modify (set_state (set_last_display_clear t))
      else ret tt) ;;
     t <- time_ ;;
     modify (set_state (set_last_display_update t)) ;;
     (* Update the previous top trains after updating the display *)
     r <- get_self ;;
     match train_data (state r) with
     | Some trains =>
         modify (set_previous_top_trains (_get_top_two_trains trains))
     | None => raise "TypeError"
     end)
    (fun _ => log LError "Error updating display: {}").

(** [Runner._check_display_update] *)
Definition _check_display_update (force : bool) : P unit :=
  now <- time_ ;;
  r <- get_self ;;
  let st := state r in
  (* Don't update if we don't have both weather and train data *)
  if negb (truthy (weather_data st)) || negb (is_some (train_data st))
  then ret tt
  (* Always update if this is our first update *)
  else if PrimFloat.eqb (last_display_update st) 0
  then _update_display false
  (* If forced (train changes), update immediately *)
  else if force
  then _update_display false
  (* Clear the display at least once every hour *)
  else if PrimFloat.leb 3500 (now - last_display_clear st)
  then n <- tick ;;
       if now_minute n =? 0
       then _update_display true
       else ret tt
  (* For weather changes, respect the minimum interval *)
  else
    let time_since_update := (now - last_display_update st)%float in
    if PrimFloat.leb (min_interval r) time_since_update
    then _update_display false
    else ret tt.

(** [Runner.handle_weather_update] *)
Definition handle_weather_update (weather : json) : P unit :=
  modify (set_state (set_weather_data weather)) ;;
  t1 <- time_ ;;
  modify (set_state (set_last_weather_change t1)) ;;
  t2 <- time_ ;;
  modify (set_state (set_last_display_clear t2)) ;;
  _check_display_update false.

(** [Runner.handle_train_update] *)
Definition handle_train_update (trains : list TrainArrival) : P unit :=
  _ <- tick ;;                                   (* now = datetime.now() *)
  log LInfo "----------------------------------------" ;;
  log LInfo "Train update at {}" ;;
  log LInfo "Number of trains: {}" ;;
  for_each trains (fun _ => log LDebug "Train: {} ({} min)") ;;
  try_except
    (modify (set_state (set_train_data trains)) ;;
     let current_top_trains := _get_top_two_trains trains in
     r <- get_self ;;
     if _has_significant_change (_previous_top_trains r) current_top_trains
     then _check_display_update true
     else _check_display_update false)
    (fun _ =>
       log LError "Error processing trains: {}" ;;
       log LError "{}").

(** One round of the main loop of [Runner.run]. *)
Definition heartbeat : P unit :=
  sleep 1 ;;
  _check_display_update false.

(** One round of the writer thread, which shares [self.display]. *)
Definition writer_round : P unit :=
  on_display Sink._process_queue_body.

(** What can happen to the scheduler, in the order it happens. The
    weather producer hands over the dict [get_weather] built, the transit
    producer a list. *)
Inductive event :=
| on_weather (weather : list (string * json))
| on_transit (trains : list TrainArrival)
| on_heartbeat
| on_writer.

Definition handle (e : event) : P unit :=
  match e with
  | on_weather items => handle_weather_update (JDict items)
  | on_transit t => handle_train_update t
  | on_heartbeat => heartbeat
  | on_writer => writer_round
  end.

(** The world after a sequence of events; an exception that escapes a
    handler ends that handler only. *)
Fixpoint run_events (es : list event) (w : World Runner) : World Runner :=
  match es with
  | [] => w
  | e :: tl => run_events tl (snd (handle e w))
  end.

(** The calls made to [Display.update] so far: each one starts by
    logging this line. *)
Definition redraw_requests (w : World Runner) : nat :=
  List.length
    (filter (fun r => String.eqb (msg r) "Generating display image...")
            (logged w)).

End Scheduler.

End Sched.



(* ================================================================== *)
(** * Queries on the weather cache ([weather_service.py])              *)
(* ================================================================== *)

Module WeatherQueries.

Import Weather.

(** The calendar the two queries read. *)
Class Calendar := {
  (** [datetime.now(ny_tz).hour], by interaction *)
  now_hour : nat -> Z;
  (** [datetime.now(ny_tz).strftime('%Y-%m-%d')], by interaction *)
  today : nat -> string
}.

(** [key in j]: a key of a dict, an element of a list, a piece of a
    string; a [TypeError] on what cannot be iterated. *)
Definition contains {C} (key : string) (j : json) : M C bool :=
  match j with
  | JDict d => ret (match lookup key d with Some _ => true | None => false end)
  | JList l => ret (existsb (fun x => json_eqb x (JStr key)) l)
  | JStr s => ret (match String.index 0 key s with Some _ => true | None => false end)
  | _ => raise "TypeError"
  end.

Section Queries.

Context {callback : Type} {outside : Outside callback} {calendar : Calendar}.

Abbreviation P := (M (WeatherService callback)).

(** The dict [get_next_hours_forecast] builds for hour [i]. *)
Definition hour_entry (cd : json) (i : Z) : P json :=
  time <- at_ cd "hourly" "time" i ;;
  temp_f <- at_ cd "hourly" "temperature_2m" i ;;
  chance_of_rain <- at_ cd "hourly" "precipitation_probability" i ;;
  wind_mph <- at_ cd "hourly" "windspeed_10m" i ;;
  condition <- condition_of cd "hourly" i ;;
  is_day <- at_ cd "hourly" "is_day" i ;;
  ret (JDict [("time", time); ("temp_f", temp_f);
              ("chance_of_rain", chance_of_rain);
              ("wind_mph", wind_mph); ("condition", condition);
              ("is_day", is_day)]).

(** The [for i in range(...)] loop of [get_next_hours_forecast], with its
    [break]. *)
Fixpoint collect_hours (cd : json) (hours : list Z) : P (list json) :=
  match hours with
  | [] => ret []
  | i :: tl =>
      h <- getitem cd "hourly" ;;
      t <- getitem h "time" ;;
      n <- len t ;;
      if Z.of_nat n <=? i then ret []                          (* break *)
      else
        entry <- hour_entry cd i ;;
        rest <- collect_hours cd tl ;;
        ret (entry :: rest)
  end.

(** [range(a, a + n)] *)
Definition range_from (a n : Z) : list Z :=
  map (fun k => a + Z.of_nat k) (seq 0 (Z.to_nat n)).

(** [WeatherService.get_next_hours_forecast] *)
Definition get_next_hours_forecast (hours : Z) : P (list json) :=
  s <- get_self ;;
  has_hourly <-
    (if truthy (_current_data s) then contains "hourly" (_current_data s)
     else ret false) ;;
  if negb has_hourly
  then log LWarning "No current weather data available for hourly forecast" ;;
       ret []
  else
    n <- tick ;;
    let current_hour := now_hour n in
    collect_hours (_current_data s) (range_from current_hour hours).

(** The comprehension [[f for f in forecasts if f['date'] != today]]. *)
Fixpoint not_dated (day : string) (forecasts : list json) : P (list json) :=
  match forecasts with
  | [] => ret []
  | f :: tl =>
      d <- getitem f "date" ;;
      rest <- not_dated day tl ;;
      ret (if json_eqb d (JStr day) then rest else f :: rest)
  end.

(** [WeatherService.get_next_commutes] *)
Definition get_next_commutes (include_today : bool) : P json :=
  s <- get_self ;;
  if negb (truthy (_current_data s))
  then log LWarning "No current weather data available for commute forecasts" ;;
       ret (JList [])
  else
    try_except
      (has <- contains "commute_forecasts" (_current_data s) ;;
       if has
       then
         forecasts <- getitem (_current_data s) "commute_forecasts" ;;
         if negb include_today
         then
           n <- tick ;;
           match forecasts with
           | JList l => kept <- not_dated (today n) l ;; ret (JList kept)
           | JDict [] => ret (JList [])
           | JStr "" => ret (JList [])
           | _ => raise "TypeError"
           end
         else ret forecasts
       else
         log LDebug "Generating commute forecasts from current data" ;;
         external (_get_commute_forecasts (_current_data s))
                  "commute forecast error")
      (fun _ =>
         log LError "Error getting commute forecasts: {}" ;;
         log LDebug "Current data structure:" ;;
         ret (JList [])).

End Queries.

End WeatherQueries.

(* ================================================================== *)
(** * Icon directories ([utils.py])                                    *)
(* ================================================================== *)

Module Utils.

(** The [switcher] table of [mapWeatherCodeToWeatherIconDir]. *)
Definition switcher : list (float * option string) :=
  [ (1000, Some "113"); (1003, Some "116"); (1006, Some "119");
    (1009, Some "122"); (1030, Some "143"); (1063, Some "176");
    (1066, Some "179"); (1069, Some "182"); (1072, Some "185");
    (1087, Some "200"); (1114, Some "227"); (1117, Some "230");
    (1135, Some "248"); (1147, Some "260"); (1150, Some "263");
    (1153, Some "266"); (1168, Some "281"); (1171, Some "284");
    (1180, Some "293"); (1183, Some "296"); (1186, Some "299");
    (1189, Some "302"); (1192, Some "305"); (1195, Some "308");
    (1198, Some "311"); (1201, Some "314"); (1204, Some "317");
    (1207, Some "320"); (1210, Some "323"); (1213, Some "326");
    (1216, Some "329"); (1219, Some "332"); (1222, Some "335");
    (1225, Some "338"); (1237, Some "350"); (1240, Some "353");
    (1243, Some "356"); (1246, Some "359"); (1249, Some "362");
    (1252, Some "365"); (1255, Some "368"); (1258, Some "371");
    (1261, Some "374"); (1264, Some "377"); (1273, Some "386");
    (1276, Some "389"); (1279, Some "392"); (1282, Some "395") ]%float.

(** [mapWeatherCodeToWeatherIconDir]: [switcher.get(code)], which is
    [None] for a code the table does not hold. *)
Definition mapWeatherCodeToWeatherIconDir {C} (code : json) : M C (option string) :=
  Weather.dict_get switcher code None.

End Utils.

(* ================================================================== *)
(** * The trains the layout lists ([layout.py])                        *)
(* ================================================================== *)

Module Layout.

Import Subway.

(** [l[:k]], a negative [k] counted from the end. *)
Definition slice_to {A} (l : list A) (k : Z) : list A :=
  if k <? 0
  then firstn (Z.to_nat (Z.max 0 (Z.of_nat (List.length l) + k))) l
  else firstn (Z.to_nat k) l.

(** [filter_trains] of [LayoutManager._draw_next_trains] *)
Definition filter_trains (train_list : list TrainArrival) (max_trains : Z)
  : list TrainArrival :=
  let forty_min_trains :=
    filter (fun t => minutes_until_arrival t <=? 40) train_list in
  let forty_min_trains :=
    filter (fun t => 1 <=? minutes_until_arrival t) forty_min_trains in
  let filtered :=
    slice_to forty_min_trains
             (Z.max 3 (Z.of_nat (List.length forty_min_trains))) in
  slice_to filtered (Z.min max_trains (Z.of_nat (List.length filtered))).

(** The two lists [_draw_next_trains] hands to the drawing code. *)
Definition next_trains (line1 line2 : string) (trains : list TrainArrival)
  : list TrainArrival * list TrainArrival :=
  let f_trains := filter (fun t => String.eqb (route_id t) line1) trains in
  let g_trains := filter (fun t => String.eqb (route_id t) line2) trains in
  (filter_trains f_trains 6, filter_trains g_trains 4).

End Layout.

(* ================================================================== *)
(** * The geometry of the screen ([config.py])                         *)
(* ================================================================== *)

Module Config.

(** [DisplayConfig] after [__post_init__]; [//] is floor division. *)
Record DisplayConfig := mkDisplayConfig {
  WIDTH : Z;
  HEIGHT : Z;
  HEADER_HEIGHT : Z;
  TRAIN_SECTION_HEIGHT : Z;
  WEATHER_SECTION_HEIGHT : Z;
  VERTICAL_LANE_WIDTH : Z;
  MAIN_SECTION_WIDTH : Z;
  ICON_COLUMN_X : Z;
  HEADER_Y : Z;
  TRAIN_SECTION_Y : Z;
  WEATHER_SECTION_Y : Z;
  VERTICAL_LANE_X : Z
}.

Definition DisplayConfig_init (width height : Z) : DisplayConfig :=
  let header_height := height / 9 in
  let train_section_height := (height * 2) / 3 in
  let weather_section_height := height - header_height - train_section_height in
  let vertical_lane_width := width / 3 in
  let main_section_width := width - vertical_lane_width in
  let header_y := 0 in
  let train_section_y := header_height in
  let weather_section_y := train_section_y + train_section_height in
  mkDisplayConfig width height header_height train_section_height
                  weather_section_height vertical_lane_width main_section_width
                  100 header_y train_section_y weather_section_y
                  main_section_width.

(** [SubwayConfig] *)
Record SubwayConfig := mkSubwayConfig {
  SECTION_Y : Z;
  SECTION_HEIGHT : Z;
  NEXT_TRAIN_Y : Z;
  LIST_Y : Z;
  PADDING_X : Z;
  F_TRAIN_Y : Z;
  G_TRAIN_Y : Z
}.

Definition SubwayConfig_init (display : DisplayConfig) : SubwayConfig :=
  let section_y := TRAIN_SECTION_Y display in
  let section_height := TRAIN_SECTION_HEIGHT display in
  let next_train_y := section_y + 20 in
  mkSubwayConfig section_y section_height next_train_y (next_train_y + 100) 20
                 (section_y + section_height / 2 - section_height / 4)
                 (section_y + section_height / 2 + section_height / 4).

End Config.


(* ================================================================== *)
(** * Vocabulary of the properties                                     *)
(* ================================================================== *)

(** Two entries of a top-two pair agree: both absent, or both present
    and equal as [TrainArrival.__eq__] has it. *)
Definition same_slot (p c : option Subway.TrainArrival) : bool :=
  match p, c with
  | Some a, Some b => Subway.TrainArrival_eq a b
  | None, None => true
  | _, _ => false
  end.

(** The log lines [_notify_subscribers] writes for the subscribers that
    raise. *)
Definition notify_errors {callback A} (raises : callback -> A -> bool)
    (text : string) (subs : list callback) (a : A) : list log_record :=
  flat_map (fun cb => if raises cb a then [LogRec LError text] else []) subs.

(** One call per subscriber, in subscription order. *)
Definition fan_out {callback A} (subs : list callback) (a : A)
  : list (callback * A) :=
  map (fun cb => (cb, a)) subs.

(** A computation that only looks: it may read the outside world and
    write the log, but leaves the object it runs on as it found it and
    does not sleep. *)
Definition keeps_self {C A} (m : M C A) : Prop :=
  forall w, self (snd (m w)) = self w /\ slept (snd (m w)) = slept w.

(** A computation that changes nothing but the log and the interaction
    count when it raises. *)
Definition fails_clean {C A} (m : M C A) : Prop :=
  forall w e w1, m w = (Raised e, w1) ->
                 self w1 = self w /\ slept w1 = slept w.

(** The weather service has fetched successfully at least once: some
    round of its loop got a snapshot, whatever happened since. *)
Inductive weather_fetched {callback} {outside : Weather.Outside callback}
  : World (Weather.WeatherService callback) -> Prop :=
| weather_fetched_now interval w wd w1 :
    Weather.get_weather w = (Returned wd, w1) ->
    weather_fetched (snd (Weather._update_loop_body interval w))
| weather_fetched_round interval w :
    weather_fetched w ->
    weather_fetched (snd (Weather._update_loop_body interval w))
| weather_fetched_subscribe cb w :
    weather_fetched w ->
    weather_fetched (snd (Weather.subscribe cb w)).

(** The same for the transit service; its fetch may well return no train. *)
Inductive subway_fetched {callback} {outside : Subway.Outside callback}
  : World (Subway.SubwayService callback) -> Prop :=
| subway_fetched_now interval w trains w1 :
    Subway.fetch_arrivals w = (Returned trains, w1) ->
    subway_fetched (snd (Subway._update_loop_body interval w))
| subway_fetched_round interval w :
    subway_fetched w ->
    subway_fetched (snd (Subway._update_loop_body interval w))
| subway_fetched_subscribe cb w :
    subway_fetched w ->
    subway_fetched (snd (Subway.subscribe cb w)).

(* ================================================================== *)
(** * Concrete surroundings for the examples                           *)
(* ================================================================== *)

Definition train_a : Subway.TrainArrival := Subway.mkTrain 5 "08:05 AM" "F-001" "F".
Definition train_a4 : Subway.TrainArrival := Subway.mkTrain 4 "08:05 AM" "F-001" "F".
Definition train_b : Subway.TrainArrival := Subway.mkTrain 12 "08:12 AM" "G-007" "G".

(** The feed cannot be reached. *)
Definition feed_down : Subway.Outside nat :=
  {| Subway.callback_raises := fun _ _ => false;
     Subway.TRAIN_LINE_1 := "F";
     Subway.TRAIN_LINE_2 := "G";
     Subway.NYCTFeed := fun _ _ => None;
     Subway.filter_trips := fun trips _ => trips;
     Subway.datetime_now := fun _ => 0;
     Subway.strftime := fun _ => "12:00 AM" |}.

(** The feed answers, with no trip on either line. *)
Definition feed_empty : Subway.Outside nat :=
  {| Subway.callback_raises := fun _ _ => false;
     Subway.TRAIN_LINE_1 := "F";
     Subway.TRAIN_LINE_2 := "G";
     Subway.NYCTFeed := fun _ _ => Some [];
     Subway.filter_trips := fun trips _ => trips;
     Subway.datetime_now := fun _ => 0;
     Subway.strftime := fun _ => "12:00 AM" |}.

(** A transit service with one subscriber and one cached arrival. *)
Definition subway_warm : World (Subway.SubwayService nat) :=
  mkWorld 0 [] [] (Subway.mkService "F20N" [0%nat] true [train_a] []).

(** A transit service just created: nobody subscribed, nothing cached. *)
Definition subway_cold : World (Subway.SubwayService nat) :=
  mkWorld 0 [] [] (Subway.mkService "F20N" [] true [] []).

(** An Open-Meteo response with one hour and no day. *)
Definition response0 : json :=
  JDict
    [("hourly",
      JDict [("time", JList [JStr "2024-01-01T00:00"]);
             ("temperature_2m", JList [JNum 40.5]);
             ("precipitation_probability", JList [JNum 10]);
             ("weathercode", JList [JNum 3]);
             ("windspeed_10m", JList [JNum 5.5]);
             ("is_day", JList [JNum 0])]);
     ("daily", JDict [("time", JList [])])].

(** The weather API answers the same thing every time. *)
Definition steady_weather : Weather.Outside nat :=
  {| Weather.callback_raises := fun _ _ => false;
     Weather.http_get_json := fun _ => Some response0;
     Weather.current_hour := fun _ => "2024-01-01T00:00";
     Weather._get_commute_forecasts := fun _ _ => Some (JList []) |}.

(** The snapshot [get_weather] builds from [response0]. *)
Definition snapshot0 : json :=
  JDict
    [("current",
      JDict [("temp_f", JNum 40.5);
             ("condition", JDict [("text", JStr "Overcast"); ("code", JNum 1006)]);
             ("wind_mph", JNum 5.5);
             ("precip_chance", JNum 10);
             ("is_day", JNum 0)]);
     ("forecast", JDict [("forecastday", JList [])]);
     ("hourly",
      JDict [("time", JList [JStr "2024-01-01T00:00"]);
             ("temperature_2m", JList [JNum 40.5]);
             ("precipitation_probability", JList [JNum 10]);
             ("weathercode", JList [JNum 3]);
             ("windspeed_10m", JList [JNum 5.5]);
             ("is_day", JList [JNum 0])]);
     ("commute_forecasts", JList [])].

(** A weather service with one subscriber, before its first round. *)
Definition weather_cold : World (Weather.WeatherService nat) :=
  mkWorld 0 [] [] (Weather.mkService [0%nat] true JNone []).

(** Both fields of the display state have been set at least once. *)
Definition populated (r : Sched.Runner) : bool :=
  match Sched.weather_data (Sched.state r) with
  | JNone => false
  | _ => true
  end
  && Sched.is_some (Sched.train_data (Sched.state r)).

(** The scheduler when [run] has initialised the display ([backend] is
    [None] before that) and no event has arrived yet. *)
Definition boot (backend : option Sink.Backend) : World Sched.Runner :=
  mkWorld 0 [] []
          (Sched.mkRunner (Sink.mkDisplay backend None) Sched.DisplayState_init
                          1%float (None, None)).

(** Nothing was ever asked of the display: no call to [Display.update],
    an empty slot, and the display object [run] created. *)
Definition untouched (backend : option Sink.Backend) (w : World Sched.Runner)
  : Prop :=
  Sched.redraw_requests w = 0%nat
  /\ Sink.next_frame (Sched.display (self w)) = None
  /\ Sink.display (Sched.display (self w)) = backend.

(** [self.state.train_data or []] *)
Definition trains_or_empty (s : Sched.DisplayState) : list Subway.TrainArrival :=
  match Sched.train_data s with Some t => t | None => [] end.

(** [EInkDisplay.update] around the write it has chosen: after the write
    the image becomes the previous one; an exception is logged and
    raised again. *)
Definition eink_write {outside : Sink.Outside}
    (write : M Sink.EInkDisplay unit) (img : Sink.Image)
  : M Sink.EInkDisplay unit :=
  try_except
    (write ;; modify (Sink.set_previous_image img))
    (fun e =>
       log LError "Error updating display: {}" ;;
       log LError "{}" ;;
       raise e).

(** The coordinates [(x, y)] fall on a pixel of [buf]. *)
Definition on_canvas (buf : Sink.Image) (x y : Z) : Prop :=
  0 <= y < Z.of_nat (List.length buf)
  /\ 0 <= x < Z.of_nat (List.length (nth (Z.to_nat y) buf [])).

(** A renderer that always succeeds: a one-pixel bitmap telling how many
    trains it was given. *)
Definition sink_ready : Sink.Outside :=
  {| Sink.panel_ready := fun _ => true;
     Sink.disk_ready := fun _ => true;
     Sink.getImage := fun _ trains _ => Some [[Z.of_nat (List.length trains)]] |}.

(** A renderer that always raises. *)
Definition sink_broken_renderer : Sink.Outside :=
  {| Sink.panel_ready := fun _ => true;
     Sink.disk_ready := fun _ => true;
     Sink.getImage := fun _ _ _ => None |}.

(** A clock stopped at seven minutes past the hour. *)
Definition clock_seven_past : Sched.Clock :=
  {| Sched.time_time := fun _ => 1700003600%float;
     Sched.now_minute := fun _ => 7 |}.

(** A clock stopped on the hour. *)
Definition clock_on_the_hour : Sched.Clock :=
  {| Sched.time_time := fun _ => 1700003600%float;
     Sched.now_minute := fun _ => 0 |}.

(** A scheduler that drew ten seconds ago and cleared an hour ago. *)
Definition runner_stale_clear : World Sched.Runner :=
  mkWorld 0 [] []
    (Sched.mkRunner (Sink.mkDisplay None None)
       (Sched.mkState snapshot0 (Some [train_a; train_b])
          1700003590%float 1700000000%float 1700000000%float)
       1%float (Some train_a, Some train_b)).

(** A scheduler that drew a quarter of a second ago and cleared an hour
    ago. *)
Definition runner_just_drawn : World Sched.Runner :=
  mkWorld 0 [] []
    (Sched.mkRunner (Sink.mkDisplay None None)
       (Sched.mkState snapshot0 (Some [train_a4; train_b])
          1700003599.75%float 1700000000%float 1700000000%float)
       1%float (Some train_a, Some train_b)).

(** A 3 x 3 white bitmap, the same with its centre black, and a 60 x 1
    white and black pair. *)
Definition white3 : Sink.Image := [[255; 255; 255]; [255; 255; 255]; [255; 255; 255]].
Definition dot3 : Sink.Image := [[255; 255; 255]; [255; 0; 255]; [255; 255; 255]].
Definition white60 : Sink.Image := [repeat 255 60].
Definition black60 : Sink.Image := [repeat 0 60].

(** An e-ink display that has shown a given bitmap. *)
Definition eink_showing (img : Sink.Image) : World Sink.EInkDisplay :=
  mkWorld 0 [] [] (Sink.mkEInk img (Some img) []).

(** A render sink whose e-ink display shows an all-white 3 x 3 bitmap and
    whose slot is empty. *)
Definition sink_idle : World Sink.Display :=
  mkWorld 0 [] []
    (Sink.mkDisplay (Some (Sink.EInk (Sink.mkEInk white3 (Some white3) []))) None).

(** Events that never bring any weather. *)
Definition trains_only : list Sched.event :=
  [Sched.on_transit [train_a; train_b]; Sched.on_heartbeat; Sched.on_writer;
   Sched.on_transit [train_a4; train_b]; Sched.on_heartbeat].

(** A computation that does not call [time.sleep]. *)
Definition never_sleeps {C A} (m : M C A) : Prop :=
  forall w, slept (snd (m w)) = slept w.

(** The arrival time a trip announces for a station, if it stops there
    and says when. *)
Definition arrival_at (station : string) (trip : Subway.Trip) : option Z :=
  match find (fun stop => String.eqb (Subway.stop_id stop) station)
             (Subway.stop_time_updates trip) with
  | Some target_stop => Subway.arrival target_stop
  | None => None
  end.

Definition announces (station : string) (trip : Subway.Trip) : bool :=
  match arrival_at station trip with Some _ => true | None => false end.

(** Ascending by minutes until arrival. *)
Definition by_minutes (a b : Subway.TrainArrival) : Prop :=
  Subway.minutes_until_arrival a <= Subway.minutes_until_arrival b.

(** A commute forecast that carries a date. *)
Definition has_date (f : json) : bool :=
  match f with
  | JDict items => match lookup "date" items with Some _ => true | None => false end
  | _ => false
  end.

(** A commute forecast whose date equals [day]. *)
Definition dated (day : string) (f : json) : bool :=
  match f with
  | JDict items =>
      match lookup "date" items with
      | Some d => json_eqb d (JStr day)
      | None => false
      end
  | _ => false
  end.

(** The dict built for one hour of a forecast. *)
Definition is_hour_entry (j : json) : Prop :=
  exists time temp_f chance_of_rain wind_mph condition is_day,
    j = JDict [("time", time); ("temp_f", temp_f);
               ("chance_of_rain", chance_of_rain); ("wind_mph", wind_mph);
               ("condition", condition); ("is_day", is_day)].

(** The dict built for one day of a forecast: a date, a summary and
    twenty-four hours. *)
Definition is_forecast_day (j : json) : Prop :=
  exists date summary hours,
    j = JDict [("date", date); ("day", summary); ("hour", JList hours)]
    /\ List.length hours = 24%nat
    /\ Forall is_hour_entry hours.

(** The dates of a response, when its [daily.time] is a list. *)
Definition daily_times (data : json) : option (list json) :=
  match data with
  | JDict d =>
      match lookup "daily" d with
      | Some (JDict daily) =>
          match lookup "time" daily with
          | Some (JList times) => Some times
          | _ => None
          end
      | _ => None
      end
  | _ => None
  end.

(** The weather API cannot be reached. *)
Definition weather_down : Weather.Outside nat :=
  {| Weather.callback_raises := fun _ _ => false;
     Weather.http_get_json := fun _ => None;
     Weather.current_hour := fun _ => "2024-01-01T00:00";
     Weather._get_commute_forecasts := fun _ _ => Some (JList []) |}.

(** A weather service with one subscriber and a snapshot in its cache. *)
Definition weather_warm : World (Weather.WeatherService nat) :=
  mkWorld 0 [] [] (Weather.mkService [0%nat] true snapshot0 []).

(** Midnight on New Year's Day. *)
Definition new_year_midnight : WeatherQueries.Calendar :=
  {| WeatherQueries.now_hour := fun _ => 0;
     WeatherQueries.today := fun _ => "2024-01-01" |}.

(** The panel refuses every draw. *)
Definition sink_panel_down : Sink.Outside :=
  {| Sink.panel_ready := fun _ => false;
     Sink.disk_ready := fun _ => true;
     Sink.getImage := fun _ trains _ => Some [[Z.of_nat (List.length trains)]] |}.

(** A render sink whose e-ink display shows an all-white 3 x 3 bitmap and
    whose slot holds a frame with a black centre, to be written
    partially. *)
Definition sink_pending : World Sink.Display :=
  mkWorld 0 [] []
    (Sink.mkDisplay (Some (Sink.EInk (Sink.mkEInk white3 (Some white3) [])))
                    (Some (dot3, true, false))).

(** A scheduler whose two fields have just been set and that has never
    drawn. *)
Definition runner_never_drawn : World Sched.Runner :=
  mkWorld 0 [] []
    (Sched.mkRunner (Sink.mkDisplay None None)
       (Sched.mkState snapshot0 (Some [train_a; train_b]) 0%float 0%float 0%float)
       1%float (None, None)).

(** A scheduler that drew a quarter of a second ago and cleared ten
    minutes ago. *)
Definition runner_fresh : World Sched.Runner :=
  mkWorld 0 [] []
    (Sched.mkRunner (Sink.mkDisplay None None)
       (Sched.mkState snapshot0 (Some [train_a; train_b])
          1700003599.75%float 1700000000%float 1700003000%float)
       1%float (Some train_a, Some train_b)).

(** Two trips on the F line, one of which says when it reaches F20N, and
    one on the G line that does. *)
Definition trip_f1 : Subway.Trip :=
  Subway.mkTrip "F-001" "F"
    [Subway.mkStop "F18N" (Some 240000000); Subway.mkStop "F20N" (Some 300000000)].
Definition trip_f2 : Subway.Trip :=
  Subway.mkTrip "F-002" "F" [Subway.mkStop "F20N" None].
Definition trip_g7 : Subway.Trip :=
  Subway.mkTrip "G-007" "G" [Subway.mkStop "F20N" (Some 90000000)].

(** Both feeds answer. *)
Definition feed_up : Subway.Outside nat :=
  {| Subway.callback_raises := fun _ _ => false;
     Subway.TRAIN_LINE_1 := "F";
     Subway.TRAIN_LINE_2 := "G";
     Subway.NYCTFeed :=
       fun line _ => Some (if String.eqb line "F" then [trip_f1; trip_f2]
                           else [trip_g7]);
     Subway.filter_trips := fun trips _ => trips;
     Subway.datetime_now := fun _ => 0;
     Subway.strftime := fun _ => "12:05 AM" |}.

(** An Open-Meteo response with one day of twenty-four hours. *)
Definition response_one_day : json :=
  JDict
    [("hourly",
      JDict [("time", JList (repeat (JStr "2024-01-01T00:00") 24));
             ("temperature_2m", JList (repeat (JNum 40.5) 24));
             ("precipitation_probability", JList (repeat (JNum 10) 24));
             ("weathercode", JList (repeat (JNum 3) 24));
             ("windspeed_10m", JList (repeat (JNum 5.5) 24));
             ("is_day", JList (repeat (JNum 0) 24))]);
     ("daily",
      JDict [("time", JList [JStr "2024-01-01"]);
             ("temperature_2m_max", JList [JNum 45]);
             ("temperature_2m_min", JList [JNum 31]);
             ("precipitation_probability_max", JList [JNum 20]);
             ("weathercode", JList [JNum 3])])].

(** The forecast built from it. *)
Definition forecast_one_day : json :=
  match fst (Weather._get_forecast_days response_one_day weather_cold) with
  | Returned f => f
  | Raised _ => JNone
  end.

(** The entry [get_next_hours_forecast] builds for the one hour of
    [snapshot0]. *)
Definition first_hour : json :=
  JDict [("time", JStr "2024-01-01T00:00"); ("temp_f", JNum 40.5);
         ("chance_of_rain", JNum 10); ("wind_mph", JNum 5.5);
         ("condition", JDict [("text", JStr "Overcast"); ("code", JNum 1006)]);
         ("is_day", JNum 0)].

(** Two commute forecasts, one for today and one for tomorrow. *)
Definition commute_today : json :=
  JDict [("date", JStr "2024-01-01"); ("period", JStr "evening")].
Definition commute_tomorrow : json :=
  JDict [("date", JStr "2024-01-02"); ("period", JStr "morning")].

(** A weather service whose cache holds the two. *)
Definition weather_with_commutes : World (Weather.WeatherService nat) :=
  mkWorld 0 [] []
    (Weather.mkService [0%nat] true
       (JDict [("commute_forecasts", JList [commute_today; commute_tomorrow])])
       []).

(** A train that is at the platform. *)
Definition train_now : Subway.TrainArrival := Subway.mkTrain 0 "08:00 AM" "F-000" "F".

(** The frame buffer pixel after a partial write of [dot3] on the box of
    its centre, over an all-white display. *)
Definition pixel_after_partial_write (x y : Z) : Z :=
  Sink.pixel
    (Sink.frame_buf
       (self (snd (Sink._update_partial_display (outside:=sink_ready)
                     dot3 (1, 1, 2, 2) (eink_showing white3)))))
    x y.
(* ================================================================== *)
(** * Frame lemmas: what leaves [self] alone                           *)
(* ================================================================== *)

Unset Implicit Arguments.

Ltac unfold_monad :=
  unfold external, zoom, try_except, try_except_only, bind, ret, raise, log,
    sleep, tick, modify, get_self in *.


Section Frame.

Context {C : Type}.

Lemma keeps_ret {A} (a : A) : keeps_self (@ret C A a).
Proof. intro w. split; reflexivity. Qed.

Lemma keeps_raise {A} (e : string) : keeps_self (@raise C A e).
Proof. intro w. split; reflexivity. Qed.

Lemma keeps_log (l : level) (m : string) : keeps_self (@log C l m).
Proof. intro w. split; reflexivity. Qed.

Lemma keeps_tick : keeps_self (@tick C).
Proof. intro w. split; reflexivity. Qed.

Lemma keeps_get_self : keeps_self (@get_self C).
Proof. intro w. split; reflexivity. Qed.

Lemma keeps_bind {A B} (m : M C A) (k : A -> M C B) :
  keeps_self m -> (forall a, keeps_self (k a)) -> keeps_self (bind m k).
Proof.
  intros Hm Hk w. unfold bind. specialize (Hm w).
  destruct (m w) as [[a|e] w1]; simpl in *.
  - destruct (Hk a w1) as [H1 H2]. rewrite H1, H2. assumption.
  - assumption.
Qed.

Lemma keeps_try_except {A} (m : M C A) (h : string -> M C A) :
  keeps_self m -> (forall e, keeps_self (h e)) -> keeps_self (try_except m h).
Proof.
  intros Hm Hh w. unfold try_except. specialize (Hm w).
  destruct (m w) as [[a|e] w1]; simpl in *.
  - assumption.
  - destruct (Hh e w1) as [H1 H2]. rewrite H1, H2. assumption.
Qed.

Lemma keeps_try_except_only {A} (exc : string) (m h : M C A) :
  keeps_self m -> keeps_self h -> keeps_self (try_except_only exc m h).
Proof.
  intros Hm Hh w. unfold try_except_only. specialize (Hm w).
  destruct (m w) as [[a|e] w1]; simpl in *.
  - assumption.
  - destruct (String.eqb e exc); simpl; [|assumption].
    destruct (Hh w1) as [H1 H2]. rewrite H1, H2. assumption.
Qed.

Lemma keeps_external {A} (oracle : nat -> option A) (err : string) :
  keeps_self (@external C A oracle err).
Proof.
  unfold external. apply keeps_bind; [apply keeps_tick|]. intro n.
  destruct (oracle n); [apply keeps_ret | apply keeps_raise].
Qed.

Lemma keeps_for_each {A} (l : list A) (body : A -> M C unit) :
  (forall a, keeps_self (body a)) -> keeps_self (for_each l body).
Proof.
  intro Hb. induction l as [|x l IH]; simpl.
  - apply keeps_ret.
  - apply keeps_bind; auto.
Qed.

Lemma keeps_map_m {A B} (f : A -> M C B) (l : list A) :
  (forall a, keeps_self (f a)) -> keeps_self (map_m f l).
Proof.
  intro Hf. induction l as [|x l IH]; simpl.
  - apply keeps_ret.
  - apply keeps_bind; [auto|]. intro y.
    apply keeps_bind; [auto|]. intro ys. apply keeps_ret.
Qed.

Lemma keeps_getitem (j : json) (k : string) : keeps_self (@getitem C j k).
Proof.
  intro w. unfold getitem. destruct j; try (split; reflexivity).
  destruct (lookup k d); split; reflexivity.
Qed.

Lemma keeps_getindex (j : json) (i : Z) : keeps_self (@getindex C j i).
Proof.
  intro w. unfold getindex. destruct j; try (split; reflexivity).
  destruct (list_item l i); split; reflexivity.
Qed.

Lemma keeps_len (j : json) : keeps_self (@len C j).
Proof. intro w. unfold len. destruct j; split; reflexivity. Qed.

End Frame.

(** Peels a computation built from the pieces above. *)
Ltac keeps_step :=
  lazymatch goal with
  | |- keeps_self (ret _) => apply keeps_ret
  | |- keeps_self (raise _) => apply keeps_raise
  | |- keeps_self (log _ _) => apply keeps_log
  | |- keeps_self tick => apply keeps_tick
  | |- keeps_self get_self => apply keeps_get_self
  | |- keeps_self (external _ _) => apply keeps_external
  | |- keeps_self (getitem _ _) => apply keeps_getitem
  | |- keeps_self (getindex _ _) => apply keeps_getindex
  | |- keeps_self (len _) => apply keeps_len
  | |- keeps_self (bind _ _) => apply keeps_bind
  | |- keeps_self (try_except_only _ _ _) => apply keeps_try_except_only
  | |- keeps_self (try_except _ _) => apply keeps_try_except
  | |- keeps_self (for_each _ _) => apply keeps_for_each
  | |- keeps_self (map_m _ _) => apply keeps_map_m
  | |- keeps_self (if ?b then _ else _) => destruct b
  | |- keeps_self (match ?x with _ => _ end) => destruct x
  | |- keeps_self (let _ := _ in _) => cbv zeta
  | |- forall _, _ => intro
  end.

Ltac keeps := repeat keeps_step.

(* ================================================================== *)
(** * The transit producer                                             *)
(* ================================================================== *)

Section SubwayFacts.

Import Subway.
Context {callback : Type} {outside : Outside callback}.

(** Notifying calls every subscriber once, in order, whatever the
    subscribers do, and touches nothing else of the service. *)
Lemma subway_notify_spec (t : list TrainArrival) (subs : list callback) :
  forall n lg sl sid ss run cur inv,
    for_each subs
      (fun sub => try_except (call sub t)
                    (fun _ => log LError "Error notifying subscriber: {}"))
      (mkWorld n lg sl (mkService sid ss run cur inv))
    = (Returned tt,
       mkWorld n
         (lg ++ notify_errors callback_raises "Error notifying subscriber: {}" subs t)
         sl
         (mkService sid ss run cur (inv ++ fan_out subs t))).
Proof.
  induction subs as [|cb subs IH]; intros; simpl.
  - unfold ret, notify_errors, fan_out; simpl. now rewrite !app_nil_r.
  - unfold notify_errors, fan_out in *; simpl.
    unfold bind at 1. unfold try_except, call, bind, modify, record_call; simpl.
    destruct (callback_raises cb t); unfold raise, ret, log; simpl;
      rewrite IH; now rewrite <- !app_assoc.
Qed.

Lemma keeps_process_train (train : Trip) : keeps_self (_process_train train).
Proof. unfold _process_train. keeps. Qed.

Lemma keeps_process_all (trains : list Trip) : keeps_self (process_all trains).
Proof.
  induction trains as [|t tl IH]; simpl.
  - keeps.
  - apply keeps_bind; [keeps|]. intros _.
    apply keeps_bind; [apply keeps_process_train|]. intros [a|]; keeps; exact IH.
Qed.

Lemma keeps_fetch_line (line none_msg : string) :
  keeps_self (fetch_line line none_msg).
Proof. unfold fetch_line. keeps. Qed.

(** Fetching reads the outside world and writes the log, nothing else. *)
Lemma keeps_fetch_arrivals : keeps_self fetch_arrivals.
Proof.
  unfold fetch_arrivals.
  apply keeps_bind; [keeps|]. intros _.
  apply keeps_bind; [apply keeps_fetch_line|]. intros tf.
  apply keeps_bind; [apply keeps_fetch_line|]. intros tg.
  destruct (is_empty (tf ++ tg)).
  - keeps.
  - apply keeps_bind; [apply keeps_process_all|]. keeps.
Qed.

(** What one round of the polling loop does when the fetch raises. *)
Lemma subway_round_after_failure (interval : Z)
    (w : World (SubwayService callback)) (e : string) :
  fst (fetch_arrivals w) = Raised e ->
  _update_loop_body interval w
  = (Returned tt,
     mkWorld (ticks (snd (fetch_arrivals w)))
       ((logged (snd (fetch_arrivals w))
         ++ [LogRec LError "Error getting subway data: {}"])
        ++ notify_errors callback_raises "Error notifying subscriber: {}"
             (_subscribers (self w)) [])
       (slept w ++ [interval])
       (mkService (station_id (self w)) (_subscribers (self w))
          (_should_run (self w)) []
          (invoked (self w) ++ fan_out (_subscribers (self w)) []))).
Proof.
  intro Hfail.
  destruct (keeps_fetch_arrivals w) as [Hself Hslept].
  unfold _update_loop_body, get_upcoming_trains, _notify_subscribers.
  unfold try_except at 1. unfold bind at 1. unfold try_except at 1.
  destruct (fetch_arrivals w) as [[a|e'] w1]; simpl in *; [discriminate|].
  destruct w1 as [n1 lg1 sl1 s1]; simpl in *. subst s1 sl1.
  destruct (self w) as [sid ss run cur inv]; simpl.
  unfold bind, get_self, modify, set_current, sleep, log, ret; simpl.
  unfold _should_notify; simpl. rewrite orb_true_r.
  rewrite subway_notify_spec. reflexivity.
Qed.

(** C1, on the code: when the fetch of upcoming trains raises, the round
    of the polling loop still ends normally, the failure is logged, the
    loop sleeps the same interval and stays enabled; but the cached train
    list is replaced by the empty list and every subscriber is called
    with the empty list. *)
Theorem fetch_failure_blanks_cache (interval : Z)
    (w : World (SubwayService callback)) (e : string) :
  fst (fetch_arrivals w) = Raised e ->
  let w' := snd (_update_loop_body interval w) in
  fst (_update_loop_body interval w) = Returned tt
  /\ In (LogRec LError "Error getting subway data: {}") (logged w')
  /\ slept w' = slept w ++ [interval]
  /\ _should_run (self w') = _should_run (self w)
  /\ _current_trains (self w') = []
  /\ invoked (self w') = invoked (self w) ++ fan_out (_subscribers (self w)) [].
Proof.
  intros Hfail w'. subst w'.
  rewrite (subway_round_after_failure interval w e Hfail); simpl.
  repeat split.
  apply in_or_app. left. apply in_or_app. right. now left.
Qed.

(** What subscribing does: the callback is registered, and it is called
    at once exactly when the cached list is not empty. *)
Lemma subway_subscribe_spec (cb : callback) (w : World (SubwayService callback)) :
  let w' := snd (subscribe cb w) in
  _subscribers (self w') = _subscribers (self w) ++ [cb]
  /\ _current_trains (self w') = _current_trains (self w)
  /\ invoked (self w')
     = invoked (self w)
       ++ (if is_empty (_current_trains (self w)) then []
           else [(cb, _current_trains (self w))]).
Proof.
  destruct w as [n lg sl [sid ss run cur inv]].
  unfold subscribe, call. unfold_monad. simpl.
  destruct cur as [|t cur]; simpl.
  - now rewrite app_nil_r.
  - destruct (callback_raises cb (t :: cur)); simpl; auto.
Qed.

(** Whatever the service has been through, subscribing keeps the cache. *)
Lemma subway_subscribe_keeps_cache (cb : callback) (w : World (SubwayService callback)) :
  _current_trains (self (snd (subscribe cb w))) = _current_trains (self w).
Proof. apply (subway_subscribe_spec cb w). Qed.

End SubwayFacts.

(** The failing input of C1: one arrival cached, one subscriber, and a
    feed that cannot be reached. *)
Lemma fetch_failure_blanks_cache_witness :
  fst (Subway.fetch_arrivals (outside:=feed_down) subway_warm) = Raised "NYCTFeed"
  /\ Subway._current_trains (self subway_warm) = [train_a]
  /\ Subway._current_trains
       (self (snd (Subway._update_loop_body (outside:=feed_down) 5 subway_warm)))
     = []
  /\ Subway.invoked
       (self (snd (Subway._update_loop_body (outside:=feed_down) 5 subway_warm)))
     = [(0%nat, [])].
Proof.
  split; [vm_compute; reflexivity|]. split; [reflexivity|].
  assert (Hfail : fst (Subway.fetch_arrivals (outside:=feed_down) subway_warm)
                  = Raised "NYCTFeed") by (vm_compute; reflexivity).
  destruct (fetch_failure_blanks_cache (outside:=feed_down) 5 subway_warm
              "NYCTFeed" Hfail) as (_ & _ & _ & _ & Hcache & Hcalls).
  split; [exact Hcache | exact Hcalls].
Defined.

(* ================================================================== *)
(** * Inversion of computations                                        *)
(* ================================================================== *)

Section Inversion.

Context {C : Type}.

Lemma bind_returned {A B} (m : M C A) (k : A -> M C B) w b w' :
  bind m k w = (Returned b, w') ->
  exists a w1, m w = (Returned a, w1) /\ k a w1 = (Returned b, w').
Proof.
  unfold bind. destruct (m w) as [[a|e] w1]; intro H.
  - now exists a, w1.
  - discriminate.
Qed.

Lemma try_except_reraise_returned {A} (m : M C A) (h : string -> M C A) w a w' :
  (forall e w1, fst (h e w1) = Raised e) ->
  try_except m h w = (Returned a, w') -> m w = (Returned a, w').
Proof.
  intros Hh. unfold try_except. destruct (m w) as [[x|e] w1]; intro H.
  - assumption.
  - specialize (Hh e w1). rewrite H in Hh. discriminate.
Qed.

Lemma keeps_fails_clean {A} (m : M C A) : keeps_self m -> fails_clean m.
Proof. intros H w e w1 E. specialize (H w). now rewrite E in H. Qed.

Lemma fails_clean_bind {A B} (m : M C A) (k : A -> M C B) :
  keeps_self m -> (forall a, fails_clean (k a)) -> fails_clean (bind m k).
Proof.
  intros Hm Hk w e w1. unfold bind. specialize (Hm w).
  destruct (m w) as [[a|e'] w2]; simpl in *; intro E.
  - destruct (Hk a w2 e w1 E) as [H1 H2]. destruct Hm as [H3 H4].
    split; congruence.
  - inversion E; subst. assumption.
Qed.

Lemma fails_clean_try_except {A} (m : M C A) (h : string -> M C A) :
  fails_clean m -> (forall e, keeps_self (h e)) -> fails_clean (try_except m h).
Proof.
  intros Hm Hh w e w1. unfold try_except.
  destruct (m w) as [[a|e'] w2] eqn:E; intro H.
  - discriminate.
  - destruct (Hm w e' w2 E) as [H1 H2]. destruct (Hh e' w2) as [H3 H4].
    rewrite H in H3, H4. simpl in *. split; congruence.
Qed.

End Inversion.

(* ================================================================== *)
(** * The weather producer                                             *)
(* ================================================================== *)

Section WeatherFacts.

Import Weather.
Context {callback : Type} {outside : Outside callback}.

Lemma lookup_in (k : string) (d : list (string * json)) (v : json) :
  lookup k d = Some v -> In k (map fst d).
Proof.
  induction d as [|[k' v'] d IH]; simpl; [discriminate|].
  destruct (String.eqb_spec k k'); intro H; [left; congruence | right; auto].
Qed.

(** A dict built with the four keys of [get_weather] never equals a dict
    that has a [daily] entry. *)
Lemma snapshot_differs_from_response (c f h cf : json)
    (d : list (string * json)) (x : json) :
  lookup "daily" d = Some x ->
  json_eqb (JDict [("current", c); ("forecast", f); ("hourly", h);
                   ("commute_forecasts", cf)])
           (JDict d) = false.
Proof.
  intro Hdaily. apply not_true_is_false. intro Heq.
  cbn [json_eqb] in Heq. apply andb_prop in Heq. destruct Heq as [Hlen Hall].
  apply Nat.eqb_eq in Hlen. cbn [List.length] in Hlen.
  destruct (lookup "current" d) as [v1|] eqn:E1; [|discriminate].
  apply andb_prop in Hall. destruct Hall as [_ Hall].
  destruct (lookup "forecast" d) as [v2|] eqn:E2; [|discriminate].
  apply andb_prop in Hall. destruct Hall as [_ Hall].
  destruct (lookup "hourly" d) as [v3|] eqn:E3; [|discriminate].
  apply andb_prop in Hall. destruct Hall as [_ Hall].
  destruct (lookup "commute_forecasts" d) as [v4|] eqn:E4; [|discriminate].
  assert (Hincl : incl ["daily"; "current"; "forecast"; "hourly";
                        "commute_forecasts"] (map fst d)).
  { intros k Hk. simpl in Hk.
    repeat (destruct Hk as [<-|Hk]; [eapply lookup_in; eassumption|]).
    contradiction. }
  assert (Hnodup : NoDup ["daily"; "current"; "forecast"; "hourly";
                          "commute_forecasts"]).
  { repeat constructor; simpl; intuition discriminate. }
  pose proof (NoDup_incl_length Hnodup Hincl) as Hle.
  rewrite length_map, <- Hlen in Hle. simpl in Hle. lia.
Qed.

Lemma weather_notify_spec (t : json) (subs : list callback) :
  forall n lg sl ss run cur inv,
    for_each subs
      (fun sub => try_except (call sub t)
                    (fun _ => log LError "Error notifying weather subscriber: {}"))
      (mkWorld n lg sl (mkService ss run cur inv))
    = (Returned tt,
       mkWorld n
         (lg ++ notify_errors callback_raises
                  "Error notifying weather subscriber: {}" subs t)
         sl
         (mkService ss run cur (inv ++ fan_out subs t))).
Proof.
  induction subs as [|cb subs IH]; intros; simpl.
  - unfold ret, notify_errors, fan_out; simpl. now rewrite !app_nil_r.
  - unfold notify_errors, fan_out in *; simpl.
    unfold bind at 1. unfold try_except, call, bind, modify, record_call; simpl.
    destruct (callback_raises cb t); unfold raise, ret, log; simpl;
      rewrite IH; now rewrite <- !app_assoc.
Qed.

Lemma keeps_at (data : json) (g f : string) (i : Z) :
  keeps_self (at_ (callback:=callback) data g f i).
Proof. unfold at_. keeps. Qed.

Lemma keeps_dict_get {V} (t : list (float * V)) (key : json) (v : V) :
  keeps_self (dict_get (C:=WeatherService callback) t key v).
Proof. unfold dict_get. destruct key; keeps. Qed.

Ltac keeps_weather :=
  repeat first
    [ apply keeps_at | apply keeps_dict_get | keeps_step ].

Lemma keeps_condition_of (data : json) (g : string) (i : Z) :
  keeps_self (condition_of (callback:=callback) data g i).
Proof.
  unfold condition_of, _get_condition_text, _map_condition_code.
  keeps_weather.
Qed.

Lemma keeps_get_current_conditions (data : json) :
  keeps_self (_get_current_conditions data).
Proof.
  unfold _get_current_conditions.
  repeat first [ apply keeps_condition_of | keeps_weather ].
Qed.

Lemma keeps_get_hourly_data_for_day (data : json) (i : Z) :
  keeps_self (_get_hourly_data_for_day (callback:=callback) data i).
Proof.
  unfold _get_hourly_data_for_day.
  repeat first [ apply keeps_condition_of | keeps_weather ].
Qed.

Lemma keeps_get_forecast_days (data : json) :
  keeps_self (_get_forecast_days (callback:=callback) data).
Proof.
  unfold _get_forecast_days.
  repeat first [ apply keeps_condition_of | apply keeps_get_hourly_data_for_day
               | keeps_weather ].
Qed.

Lemma forecast_days_need_daily (data : json) w f w' :
  _get_forecast_days (callback:=callback) data w = (Returned f, w') ->
  exists d x, data = JDict d /\ lookup "daily" d = Some x.
Proof.
  unfold _get_forecast_days. intro H.
  apply bind_returned in H. destruct H as (daily & w1 & H & _).
  unfold getitem in H. destruct data; try discriminate.
  destruct (lookup "daily" d) as [x|] eqn:E; [|discriminate].
  now exists d, x.
Qed.

(** What a successful [get_weather] leaves behind: the snapshot it
    returns has exactly four keys, and the cache holds the raw response,
    which has a [daily] entry. *)
Lemma get_weather_returned w wd w1 :
  get_weather w = (Returned wd, w1) ->
  exists c f h cf d x,
    wd = JDict [("current", c); ("forecast", JDict [("forecastday", f)]);
                ("hourly", h); ("commute_forecasts", cf)]
    /\ lookup "daily" d = Some x
    /\ self w1 = set_current (JDict d) (self w)
    /\ slept w1 = slept w.
Proof.
  unfold get_weather. intro H.
  apply try_except_reraise_returned in H; [|reflexivity].
  apply bind_returned in H. destruct H as (u1 & wa & Ha & H).
  apply bind_returned in H. destruct H as (u2 & wb & Hb & H).
  apply bind_returned in H. destruct H as (u3 & wc & Hc & H).
  apply bind_returned in H. destruct H as (data & wd' & Hd & H).
  apply bind_returned in H. destruct H as (c & we & He & H).
  apply bind_returned in H. destruct H as (f & wf & Hf & H).
  apply bind_returned in H. destruct H as (h & wg & Hg & H).
  apply bind_returned in H. destruct H as (cf & wh & Hh & H).
  apply bind_returned in H. destruct H as (u4 & wi & Hi & H).
  destruct (forecast_days_need_daily _ _ _ _ Hf) as (d & x & -> & Hx).
  exists c, f, h, cf, d, x.
  pose proof (keeps_log LInfo "Fetching weather for coordinates: {}, {}" w) as Ka.
  pose proof (keeps_log LDebug "Making API request to: {}" wa) as Kb.
  pose proof (keeps_log LDebug "With parameters: {}" wb) as Kc.
  pose proof (keeps_external http_get_json "RequestException" wc) as Kd.
  pose proof (keeps_get_current_conditions (JDict d) wd') as Ke.
  pose proof (keeps_get_forecast_days (JDict d) we) as Kf.
  pose proof (keeps_getitem (JDict d) "hourly" wf) as Kg.
  pose proof (keeps_external (_get_commute_forecasts (JDict d))
                "commute forecast error" wg) as Kh.
  rewrite Ha in Ka. rewrite Hb in Kb. rewrite Hc in Kc. rewrite Hd in Kd.
  rewrite He in Ke. rewrite Hf in Kf. rewrite Hg in Kg. rewrite Hh in Kh.
  simpl in *.
  unfold modify in Hi. inversion Hi; subst wi. clear Hi.
  unfold ret in H. inversion H; subst. simpl.
  repeat split; try assumption.
  - f_equal. intuition congruence.
  - intuition congruence.
Qed.

(** A [get_weather] that raises has touched neither the cache nor
    anything else of the service. *)
Lemma get_weather_fails_clean : fails_clean get_weather.
Proof.
  unfold get_weather.
  apply fails_clean_try_except; [|keeps].
  do 8 (apply fails_clean_bind;
        [ solve [ apply keeps_get_current_conditions
                | apply keeps_get_forecast_days | keeps ] | intro ]).
  intros w e w1 H. unfold bind, modify, ret in H. discriminate.
Qed.

(** One round of the polling loop after a successful fetch: the snapshot
    is stored and every subscriber is called with it, whatever the
    cache held before. *)
Lemma weather_round_after_success (interval : Z) w wd w1 :
  get_weather w = (Returned wd, w1) ->
  _update_loop_body interval w
  = (Returned tt,
     mkWorld (ticks w1)
       (logged w1 ++ notify_errors callback_raises
                       "Error notifying weather subscriber: {}"
                       (_subscribers (self w)) wd)
       (slept w ++ [interval])
       (mkService (_subscribers (self w)) (_should_run (self w)) wd
          (invoked (self w) ++ fan_out (_subscribers (self w)) wd))).
Proof.
  intro Hget.
  destruct (get_weather_returned _ _ _ Hget)
    as (c & f & h & cf & d & x & Hwd & Hdaily & Hself & Hslept).
  unfold _update_loop_body, _notify_subscribers.
  unfold try_except at 1. unfold bind at 1. rewrite Hget.
  destruct w1 as [n1 lg1 sl1 s1]. simpl in Hself, Hslept. subst s1 sl1.
  destruct (self w) as [ss run cur inv]; simpl.
  unfold bind at 1. unfold get_self at 1. cbn [self set_current _current_data].
  rewrite Hwd at 1. rewrite (snapshot_differs_from_response _ _ _ _ _ _ Hdaily).
  cbn [negb]. unfold bind, modify, get_self, set_current, sleep; simpl.
  rewrite weather_notify_spec. reflexivity.
Qed.

(** One round of the polling loop after a failed fetch: the cache and
    the subscribers are left alone and the loop sleeps as usual. *)
Lemma weather_round_after_failure (interval : Z) w e :
  fst (get_weather w) = Raised e ->
  _update_loop_body interval w
  = (Returned tt,
     mkWorld (ticks (snd (get_weather w)))
       (logged (snd (get_weather w))
        ++ [LogRec LError "Error in weather update loop: {}"])
       (slept w ++ [interval])
       (self w)).
Proof.
  intro Hfail. unfold _update_loop_body.
  unfold try_except at 1. unfold bind at 1.
  destruct (get_weather w) as [[a|e'] w1] eqn:E; simpl in Hfail; [discriminate|].
  destruct (get_weather_fails_clean _ _ _ E) as [H1 H2].
  destruct w1 as [n1 lg1 sl1 s1]. simpl in H1, H2. subst s1 sl1.
  reflexivity.
Qed.

(** C3, on the code: every successful weather poll stores the snapshot
    and calls every subscriber with it, whatever value was emitted last;
    a snapshot identical to the previous one is notified again. *)
Theorem successful_poll_always_notifies (interval : Z) w wd w1 :
  get_weather w = (Returned wd, w1) ->
  let w' := snd (_update_loop_body interval w) in
  _current_data (self w') = wd
  /\ invoked (self w') = invoked (self w) ++ fan_out (_subscribers (self w)) wd.
Proof.
  intros Hget w'. subst w'.
  rewrite (weather_round_after_success interval w wd w1 Hget). simpl. auto.
Qed.

(** What subscribing does: the callback is registered, and it is called
    at once exactly when the cache holds something true. *)
Lemma weather_subscribe_spec (cb : callback) (w : World (WeatherService callback)) :
  let w' := snd (subscribe cb w) in
  _subscribers (self w') = _subscribers (self w) ++ [cb]
  /\ _current_data (self w') = _current_data (self w)
  /\ invoked (self w')
     = invoked (self w)
       ++ (if truthy (_current_data (self w))
           then [(cb, _current_data (self w))] else []).
Proof.
  destruct w as [n lg sl [ss run cur inv]].
  unfold subscribe, call. unfold_monad. simpl.
  destruct (truthy cur); simpl.
  - destruct (callback_raises cb cur); simpl; auto.
  - now rewrite app_nil_r.
Qed.

(** Once a fetch has succeeded the cache holds a snapshot, and keeps
    holding one through later rounds, failed or not. *)
Lemma weather_fetched_cache_filled (w : World (WeatherService callback)) :
  weather_fetched w -> truthy (_current_data (self w)) = true.
Proof.
  induction 1 as [interval w wd w1 Hget | interval w Hw IH | cb w Hw IH].
  - destruct (get_weather_returned _ _ _ Hget) as (c & f & h & cf & d & x & -> & _).
    rewrite (weather_round_after_success interval w _ w1 Hget). reflexivity.
  - destruct (get_weather w) as [[wd|e] w1] eqn:E.
    + destruct (get_weather_returned _ _ _ E) as (c & f & h & cf & d & x & -> & _).
      rewrite (weather_round_after_success interval w _ w1 E). reflexivity.
    + rewrite (weather_round_after_failure interval w e); [exact IH|].
      now rewrite E.
  - destruct (weather_subscribe_spec cb w) as (_ & -> & _). exact IH.
Qed.

End WeatherFacts.

(** The failing input of C3: the API answers the same thing twice, and
    the subscriber is called twice with the same snapshot. *)
Lemma successful_poll_always_notifies_witness :
  let w1 := snd (Weather._update_loop_body (outside:=steady_weather)
                   300 weather_cold) in
  let w2 := snd (Weather._update_loop_body (outside:=steady_weather) 300 w1) in
  Weather.invoked (self w1) = [(0%nat, snapshot0)]
  /\ fst (Weather.get_weather (outside:=steady_weather) w1) = Returned snapshot0
  /\ json_eqb snapshot0 (Weather._current_data (self w1)) = true
  /\ Weather.invoked (self w2) = [(0%nat, snapshot0); (0%nat, snapshot0)].
Proof.
  intros w1 w2.
  split; [vm_compute; reflexivity|].
  split; [vm_compute; reflexivity|].
  split; [vm_compute; reflexivity|].
  assert (Hget : Weather.get_weather (outside:=steady_weather) w1
                 = (Returned snapshot0,
                    snd (Weather.get_weather (outside:=steady_weather) w1)))
    by (vm_compute; reflexivity).
  destruct (successful_poll_always_notifies (outside:=steady_weather) 300 w1
              snapshot0 _ Hget) as [_ Hcalls].
  subst w2. rewrite Hcalls. vm_compute. reflexivity.
Defined.

(* ================================================================== *)
(** * Late subscribers                                                 *)
(* ================================================================== *)

(** C9 as stated fails on the transit producer: after a successful fetch
    that returned no train, a new subscriber is not called. *)
Lemma empty_fetch_then_subscribe_is_silent :
  let w := snd (Subway._update_loop_body (outside:=feed_empty) 5 subway_cold) in
  Subway.fetch_arrivals (outside:=feed_empty) subway_cold
  = (Returned [], snd (Subway.fetch_arrivals (outside:=feed_empty) subway_cold))
  /\ subway_fetched (outside:=feed_empty) w
  /\ Subway._current_trains (self w) = []
  /\ Subway.invoked (self (snd (Subway.subscribe (outside:=feed_empty) 7%nat w)))
     = [].
Proof.
  intro w.
  assert (Hfetch : Subway.fetch_arrivals (outside:=feed_empty) subway_cold
                   = (Returned [],
                      snd (Subway.fetch_arrivals (outside:=feed_empty) subway_cold)))
    by (vm_compute; reflexivity).
  split; [exact Hfetch|].
  split; [exact (subway_fetched_now 5 subway_cold Hfetch)|].
  split; vm_compute; reflexivity.
Qed.

(** C9, amended: a subscriber that joins the weather producer after a
    successful fetch is called at once, exactly once, with the cached
    snapshot; one that joins the transit producer is called at once,
    exactly once, with the cached list when that list is not empty, and
    is not called when it is empty. *)
Theorem late_subscriber_catch_up :
  (forall (callback : Type) (outside : Weather.Outside callback)
          (cb : callback) (w : World (Weather.WeatherService callback)),
      weather_fetched w ->
      Weather.invoked (self (snd (Weather.subscribe cb w)))
      = Weather.invoked (self w) ++ [(cb, Weather._current_data (self w))])
  /\ (forall (callback : Type) (outside : Subway.Outside callback)
             (cb : callback) (w : World (Subway.SubwayService callback)),
         Subway.invoked (self (snd (Subway.subscribe cb w)))
         = Subway.invoked (self w)
           ++ (if is_empty (Subway._current_trains (self w)) then []
               else [(cb, Subway._current_trains (self w))])).
Proof.
  split.
  - intros callback outside cb w Hw.
    destruct (weather_subscribe_spec cb w) as (_ & _ & ->).
    now rewrite (weather_fetched_cache_filled w Hw).
  - intros callback outside cb w.
    apply (subway_subscribe_spec cb w).
Qed.

(** C9 at work: a second subscriber joins the weather producer after its
    first round and gets the snapshot; one joins the transit producer
    while an arrival is cached and gets the list. *)
Lemma late_subscriber_catch_up_witness :
  let w := snd (Weather._update_loop_body (outside:=steady_weather)
                  300 weather_cold) in
  weather_fetched (outside:=steady_weather) w
  /\ Weather.invoked (self (snd (Weather.subscribe (outside:=steady_weather) 1%nat w)))
     = [(0%nat, snapshot0); (1%nat, snapshot0)]
  /\ Subway.invoked (self (snd (Subway.subscribe (outside:=feed_down) 1%nat subway_warm)))
     = [(1%nat, [train_a])].
Proof.
  intro w.
  assert (Hget : Weather.get_weather (outside:=steady_weather) weather_cold
                 = (Returned snapshot0,
                    snd (Weather.get_weather (outside:=steady_weather) weather_cold)))
    by (vm_compute; reflexivity).
  pose proof (weather_fetched_now (outside:=steady_weather) 300 weather_cold Hget)
    as Hw.
  destruct late_subscriber_catch_up as [Hweather Hsubway].
  split; [exact Hw|]. split.
  - rewrite (Hweather nat steady_weather 1%nat w Hw). vm_compute. reflexivity.
  - rewrite (Hsubway nat feed_down 1%nat subway_warm). vm_compute. reflexivity.
Defined.

(* ================================================================== *)
(** * The change detector                                              *)
(* ================================================================== *)

(** C4 as stated fails when neither side has a train: the detector
    answers [True]. *)
Lemma no_train_on_either_side_is_significant :
  same_slot None None = true
  /\ Sched._has_significant_change (None, None) (None, None) = true.
Proof. split; reflexivity. Qed.

(** C4, amended: when the previous and current top-two pairs agree
    position by position, the detector answers [False] if the current
    pair has a first train and [True] if it has none. *)
Theorem unchanged_top_two (previous current : Sched.TopTwo) :
  same_slot (fst previous) (fst current) = true ->
  same_slot (snd previous) (snd current) = true ->
  Sched._has_significant_change previous current
  = negb (Sched.is_some (fst current)).
Proof.
  destruct previous as [[p1|] [p2|]], current as [[c1|] [c2|]];
    simpl; try discriminate; try reflexivity;
    unfold Sched._has_significant_change, Subway.TrainArrival_eq; simpl; intros H1 H2;
    repeat match goal with
           | H : _ && _ = true |- _ => apply andb_prop in H; destruct H
           end;
    repeat match goal with
           | H : (_ =? _)%Z = true |- _ => rewrite H
           | H : String.eqb _ _ = true |- _ => rewrite H
           end; reflexivity.
Qed.

Lemma unchanged_top_two_witness :
  Sched._has_significant_change (Some train_a, Some train_b)
                                (Some train_a, Some train_b) = false
  /\ Sched._has_significant_change (None, None) (None, None) = true.
Proof.
  split.
  - exact (unchanged_top_two (Some train_a, Some train_b)
                             (Some train_a, Some train_b) eq_refl eq_refl).
  - exact (unchanged_top_two (None, None) (None, None) eq_refl eq_refl).
Defined.

(* ================================================================== *)
(** * The redraw scheduler                                             *)
(* ================================================================== *)

Section SchedFacts.

Import Subway Sched.
Context {clock : Clock} {outside : Sink.Outside}.

#[local] Arguments _check_display_update : simpl never.
#[local] Arguments _update_display : simpl never.

Ltac setters :=
  unfold set_state, set_display, set_previous_top_trains, set_weather_data,
    set_train_data, set_last_display_update, set_last_weather_change,
    set_last_display_clear in *;
  cbn [display state min_interval _previous_top_trains weather_data
       train_data last_display_update last_weather_change last_display_clear
       ticks logged slept self fst snd] in *.

Ltac destruct_world w :=
  destruct w as [n lg sl [[be nf] [wd td ldu lwc ldc] mi prev]].

(** What [_update_display] does once both fields are set, by the outcome
    of the renderer. *)
Lemma update_display_spec (clear : bool) n lg sl be nf wd t ldu lwc ldc mi prev :
  _update_display clear
    (mkWorld n lg sl
       (mkRunner (Sink.mkDisplay be nf) (mkState wd (Some t) ldu lwc ldc) mi prev))
  = match Sink.getImage wd t n with
    | Some img =>
        (Returned tt,
         mkWorld (if clear then S (S (S n)) else S (S n))
           (lg ++ [LogRec LInfo "Generating display image..."]) sl
           (mkRunner (Sink.mkDisplay be (Some (img, true, clear)))
              (mkState wd (Some t)
                 (time_time (if clear then S (S n) else S n))
                 lwc
                 (if clear then time_time (S n) else ldc))
              mi (_get_top_two_trains t)))
    | None =>
        (Returned tt,
         mkWorld (S n)
           (lg ++ [LogRec LInfo "Generating display image...";
                   LogRec LError "Error queuing display update: {}";
                   LogRec LError "{}";
                   LogRec LError "Error updating display: {}"]) sl
           (mkRunner (Sink.mkDisplay be nf) (mkState wd (Some t) ldu lwc ldc)
                     mi prev))
    end.
Proof.
  unfold _update_display, on_display, Sink.update, time_.
  unfold_monad. simpl.
  destruct (Sink.getImage wd t n) as [img|]; simpl.
  - destruct clear; simpl; rewrite <- ?app_assoc; reflexivity.
  - rewrite <- !app_assoc. reflexivity.
Qed.

(** C10: when the call to [Display.update] raises, [_update_display]
    swallows the exception and leaves the whole scheduler as it was:
    [last_display_update], [last_display_clear], the previous top two,
    and the pending frame. *)
Theorem failed_redraw_keeps_bookkeeping (clear : bool) (w : World Runner) :
  Sink.getImage (weather_data (state (self w))) (trains_or_empty (state (self w)))
                (ticks w) = None ->
  fst (_update_display clear w) = Returned tt
  /\ self (snd (_update_display clear w)) = self w.
Proof.
  destruct_world w. unfold trains_or_empty. simpl. intro Hfail.
  unfold _update_display, on_display, Sink.update, time_.
  unfold_monad. simpl. rewrite Hfail. simpl. auto.
Qed.

(** The decision [_check_display_update] takes, branch by branch. *)
Lemma check_display_update_spec (force : bool) n lg sl disp wd td ldu lwc ldc mi prev :
  let r := mkRunner disp (mkState wd td ldu lwc ldc) mi prev in
  _check_display_update force (mkWorld n lg sl r)
  = if negb (truthy wd) || negb (is_some td)
    then (Returned tt, mkWorld (S n) lg sl r)
    else if PrimFloat.eqb ldu 0
    then _update_display false (mkWorld (S n) lg sl r)
    else if force
    then _update_display false (mkWorld (S n) lg sl r)
    else if PrimFloat.leb 3500 (time_time n - ldc)
    then if now_minute (S n) =? 0
         then _update_display true (mkWorld (S (S n)) lg sl r)
         else (Returned tt, mkWorld (S (S n)) lg sl r)
    else if PrimFloat.leb mi (time_time n - ldu)
    then _update_display false (mkWorld (S n) lg sl r)
    else (Returned tt, mkWorld (S n) lg sl r).
Proof.
  unfold _check_display_update, time_.
  unfold bind at 1. unfold bind at 1. unfold tick at 1. unfold ret at 1.
  unfold bind at 1. unfold get_self at 1.
  cbv beta zeta.
  cbn [self state weather_data train_data last_display_update
       last_display_clear min_interval ticks logged slept].
  destruct (negb (truthy wd) || negb (is_some td)); [reflexivity|].
  destruct (PrimFloat.eqb ldu 0); [reflexivity|].
  destruct force; [reflexivity|].
  destruct (PrimFloat.leb 3500 (time_time n - ldc)).
  - unfold bind, tick; cbn [ticks logged slept self].
    destruct (now_minute (S n) =? 0); reflexivity.
  - destruct (PrimFloat.leb mi (time_time n - ldu)); reflexivity.
Qed.

(** C6: once the display has been drawn a first time, an evaluation with
    [force=True] calls [Display.update] at once with [partial=True] and
    [clear=False], whatever time has passed since the last redraw or the
    last clear and whatever the minute is; the clear timestamp is left
    alone. *)
Theorem forced_redraw_is_partial_without_clear
    (w : World Runner) (t : list TrainArrival) (img : Sink.Image) :
  truthy (weather_data (state (self w))) = true ->
  train_data (state (self w)) = Some t ->
  PrimFloat.eqb (last_display_update (state (self w))) 0 = false ->
  Sink.getImage (weather_data (state (self w))) t (S (ticks w)) = Some img ->
  let w' := snd (_check_display_update true w) in
  redraw_requests w' = S (redraw_requests w)
  /\ Sink.next_frame (display (self w')) = Some (img, true, false)
  /\ last_display_clear (state (self w')) = last_display_clear (state (self w))
  /\ last_display_update (state (self w')) = time_time (S (S (ticks w)))
  /\ _previous_top_trains (self w') = _get_top_two_trains t.
Proof.
  destruct_world w. simpl. intros Hwd Htd Hldu Himg. subst td.
  rewrite check_display_update_spec. rewrite Hwd, Hldu. simpl.
  rewrite update_display_spec, Himg. simpl.
  repeat split.
  unfold redraw_requests. simpl. rewrite filter_app, length_app. simpl. lia.
Qed.

(** C2, on the code: once 3500 seconds have passed since the last clear
    and the minute is not 0, a non-forced evaluation returns without
    calling [Display.update], also when the minimum interval since the
    last redraw has long passed. *)
Theorem stale_clear_blocks_redraw (w : World Runner) (t : list TrainArrival) :
  truthy (weather_data (state (self w))) = true ->
  train_data (state (self w)) = Some t ->
  PrimFloat.eqb (last_display_update (state (self w))) 0 = false ->
  PrimFloat.leb 3500 (time_time (ticks w) - last_display_clear (state (self w)))
  = true ->
  (now_minute (S (ticks w)) =? 0) = false ->
  PrimFloat.leb (min_interval (self w))
                (time_time (ticks w) - last_display_update (state (self w)))
  = true ->
  _check_display_update false w
  = (Returned tt, mkWorld (S (S (ticks w))) (logged w) (slept w) (self w)).
Proof.
  destruct_world w. simpl. intros Hwd Htd Hldu Hclear Hminute Hinterval. subst td.
  rewrite check_display_update_spec. rewrite Hwd, Hldu, Hclear, Hminute.
  reflexivity.
Qed.

(** The part of C2 the code does follow: while fewer than 3500 seconds
    have passed since the last clear, a non-forced evaluation at least
    [min_interval] after the last redraw calls [Display.update] with
    [partial=True] and [clear=False]. *)
Lemma fresh_clear_lets_redraw
    (w : World Runner) (t : list TrainArrival) (img : Sink.Image) :
  truthy (weather_data (state (self w))) = true ->
  train_data (state (self w)) = Some t ->
  PrimFloat.eqb (last_display_update (state (self w))) 0 = false ->
  PrimFloat.leb 3500 (time_time (ticks w) - last_display_clear (state (self w)))
  = false ->
  PrimFloat.leb (min_interval (self w))
                (time_time (ticks w) - last_display_update (state (self w)))
  = true ->
  Sink.getImage (weather_data (state (self w))) t (S (ticks w)) = Some img ->
  let w' := snd (_check_display_update false w) in
  redraw_requests w' = S (redraw_requests w)
  /\ Sink.next_frame (display (self w')) = Some (img, true, false).
Proof.
  destruct_world w. simpl. intros Hwd Htd Hldu Hclear Hinterval Himg. subst td.
  rewrite check_display_update_spec. rewrite Hwd, Hldu, Hclear, Hinterval. simpl.
  rewrite update_display_spec, Himg. simpl.
  split; [|reflexivity].
  unfold redraw_requests. simpl. rewrite filter_app, length_app. simpl. lia.
Qed.

(** [_check_display_update] never touches the two data fields. *)
Lemma check_keeps_fields (force : bool) (w : World Runner) :
  weather_data (state (self (snd (_check_display_update force w))))
  = weather_data (state (self w))
  /\ train_data (state (self (snd (_check_display_update force w))))
     = train_data (state (self w)).
Proof.
  destruct_world w. rewrite check_display_update_spec.
  destruct td as [t|]; [|rewrite orb_true_r; simpl; auto].
  repeat match goal with
         | |- context [if ?b then _ else _] => destruct b
         end;
    try (simpl; auto; fail);
    rewrite update_display_spec; destruct (Sink.getImage wd t _); simpl; auto.
Qed.

Lemma train_lines_spec (trains : list TrainArrival) :
  forall n lg sl (r : Runner),
    for_each trains (fun _ => log LDebug "Train: {} ({} min)") (mkWorld n lg sl r)
    = (Returned tt,
       mkWorld n (lg ++ repeat (LogRec LDebug "Train: {} ({} min)") (List.length trains))
               sl r).
Proof.
  induction trains as [|t trains IH]; intros; simpl.
  - unfold ret. now rewrite app_nil_r.
  - unfold bind at 1. unfold log at 1. simpl. rewrite IH.
    now rewrite <- app_assoc.
Qed.

Lemma train_lines_are_no_requests (k : nat) :
  filter (fun x => String.eqb (msg x) "Generating display image...")
         (repeat (LogRec LDebug "Train: {} ({} min)") k) = [].
Proof. induction k; simpl; auto. Qed.

(** The three handlers, up to their call of [_check_display_update]. *)
Lemma weather_update_spec (weather : json) n lg sl disp wd td ldu lwc ldc mi prev :
  handle_weather_update weather
    (mkWorld n lg sl (mkRunner disp (mkState wd td ldu lwc ldc) mi prev))
  = _check_display_update false
      (mkWorld (S (S n)) lg sl
         (mkRunner disp
            (mkState weather td ldu (time_time n) (time_time (S n))) mi prev)).
Proof.
  unfold handle_weather_update, time_. unfold_monad. setters. reflexivity.
Qed.

Lemma train_update_spec (trains : list TrainArrival)
    n lg sl disp wd td ldu lwc ldc mi prev :
  handle_train_update trains
    (mkWorld n lg sl (mkRunner disp (mkState wd td ldu lwc ldc) mi prev))
  = try_except
      (_check_display_update
         (_has_significant_change prev (_get_top_two_trains trains)))
      (fun _ => log LError "Error processing trains: {}" ;; log LError "{}")
      (mkWorld (S n)
         (lg ++ [LogRec LInfo "----------------------------------------";
                 LogRec LInfo "Train update at {}";
                 LogRec LInfo "Number of trains: {}"]
             ++ repeat (LogRec LDebug "Train: {} ({} min)") (List.length trains))
         sl
         (mkRunner disp (mkState wd (Some trains) ldu lwc ldc) mi prev)).
Proof.
  unfold handle_train_update.
  unfold bind at 1. unfold tick at 1.
  unfold bind at 1. unfold log at 1.
  unfold bind at 1. unfold log at 1.
  unfold bind at 1. unfold log at 1.
  cbn [ticks logged slept self].
  unfold bind at 1. rewrite train_lines_spec.
  unfold try_except, bind at 1, modify at 1, bind at 1, get_self at 1.
  setters. rewrite <- !app_assoc. cbn [app].
  destruct (_has_significant_change prev (_get_top_two_trains trains));
    reflexivity.
Qed.

Lemma heartbeat_spec n lg sl r :
  heartbeat (mkWorld n lg sl r)
  = _check_display_update false (mkWorld n lg (sl ++ [1]) r).
Proof. reflexivity. Qed.

(** A round of the writer thread that finds the slot empty only sleeps. *)
Lemma writer_round_idle n lg sl be st mi prev :
  writer_round (mkWorld n lg sl (mkRunner (Sink.mkDisplay be None) st mi prev))
  = (Returned tt,
     mkWorld n lg (sl ++ [1]) (mkRunner (Sink.mkDisplay be None) st mi prev)).
Proof. reflexivity. Qed.

(** No event takes a field of the display state back to unset. *)
Lemma populated_stays (e : event) (w : World Runner) :
  populated (self w) = true -> populated (self (snd (handle e w))) = true.
Proof.
  destruct_world w.
  destruct e as [weather | trains | | ]; cbn [handle].
  - rewrite weather_update_spec.
    match goal with
    | |- context [_check_display_update ?f ?w1] =>
        pose proof (check_keeps_fields f w1) as [H1 H2]
    end.
    unfold populated. rewrite H1, H2. simpl.
    intro H. apply andb_prop in H. apply H.
  - rewrite train_update_spec. unfold try_except.
    match goal with
    | |- context [_check_display_update ?f ?w1] =>
        pose proof (check_keeps_fields f w1) as [H1 H2];
        destruct (_check_display_update f w1) as [[u|err] w2]
    end; unfold populated; simpl in *; rewrite H1, H2; simpl;
      intro H; apply andb_prop in H; destruct H as [-> _]; reflexivity.
  - rewrite heartbeat_spec.
    match goal with
    | |- context [_check_display_update ?f ?w1] =>
        pose proof (check_keeps_fields f w1) as [H1 H2]
    end.
    unfold populated. rewrite H1, H2. simpl. auto.
  - intro H. unfold writer_round, on_display, zoom.
    destruct (Sink._process_queue_body _) as [o w2]. exact H.
Qed.

(** Before both fields are set, an event leaves the display alone. *)
Lemma untouched_step (backend : option Sink.Backend) (e : event) (w : World Runner) :
  populated (self (snd (handle e w))) = false ->
  untouched backend w ->
  untouched backend (snd (handle e w)).
Proof.
  intros Hafter Hquiet.
  assert (Hbefore : populated (self w) = false).
  { destruct (populated (self w)) eqn:E; [|reflexivity].
    rewrite (populated_stays e w E) in Hafter. discriminate. }
  destruct Hquiet as (Hreq & Hslot & Hbe).
  destruct_world w. unfold populated in Hbefore. simpl in Hbefore, Hslot, Hbe.
  subst nf be. unfold untouched.
  destruct e as [weather | trains | | ]; cbn [handle] in *.
  - (* weather: gate closed means the train list is still missing *)
    rewrite weather_update_spec in *.
    destruct td as [t|].
    + exfalso. revert Hafter.
      match goal with
      | |- context [_check_display_update ?f ?w1] =>
          pose proof (check_keeps_fields f w1) as [H1 H2]
      end.
      unfold populated. rewrite H1, H2. discriminate.
    + rewrite check_display_update_spec. rewrite orb_true_r.
      simpl. auto.
  - (* transit: gate closed means the weather is still missing *)
    rewrite train_update_spec in *. unfold try_except in *.
    destruct wd.
    + rewrite check_display_update_spec. cbn [truthy negb orb snd self display].
      unfold redraw_requests in *. cbn [logged Sink.next_frame Sink.display] in *.
      rewrite !filter_app, train_lines_are_no_requests. simpl.
      rewrite ?app_nil_r. auto.
    + exfalso. revert Hafter.
      match goal with
      | |- context [_check_display_update ?f ?w1] =>
          pose proof (check_keeps_fields f w1) as [H1 H2];
          destruct (_check_display_update f w1) as [[u|err] w2]
      end; unfold populated; simpl in *; rewrite H1, H2; discriminate.
    + exfalso. revert Hafter.
      match goal with
      | |- context [_check_display_update ?f ?w1] =>
          pose proof (check_keeps_fields f w1) as [H1 H2];
          destruct (_check_display_update f w1) as [[u|err] w2]
      end; unfold populated; simpl in *; rewrite H1, H2; discriminate.
    + exfalso. revert Hafter.
      match goal with
      | |- context [_check_display_update ?f ?w1] =>
          pose proof (check_keeps_fields f w1) as [H1 H2];
          destruct (_check_display_update f w1) as [[u|err] w2]
      end; unfold populated; simpl in *; rewrite H1, H2; discriminate.
    + exfalso. revert Hafter.
      match goal with
      | |- context [_check_display_update ?f ?w1] =>
          pose proof (check_keeps_fields f w1) as [H1 H2];
          destruct (_check_display_update f w1) as [[u|err] w2]
      end; unfold populated; simpl in *; rewrite H1, H2; discriminate.
    + exfalso. revert Hafter.
      match goal with
      | |- context [_check_display_update ?f ?w1] =>
          pose proof (check_keeps_fields f w1) as [H1 H2];
          destruct (_check_display_update f w1) as [[u|err] w2]
      end; unfold populated; simpl in *; rewrite H1, H2; discriminate.
  - (* heartbeat *)
    rewrite heartbeat_spec. rewrite check_display_update_spec.
    assert (Hgate : negb (truthy wd) || negb (is_some td) = true).
    { destruct wd; simpl in *; try reflexivity; destruct td; simpl in *;
        try discriminate; now rewrite ?orb_true_r. }
    rewrite Hgate. simpl. auto.
  - rewrite writer_round_idle. simpl. auto.
Qed.

(** Untouched it stays, along any sequence of events, for as long as a
    field is unset. *)
Lemma untouched_run (backend : option Sink.Backend) (es : list event) :
  forall w,
    (populated (self w) = false -> untouched backend w) ->
    populated (self (run_events es w)) = false ->
    untouched backend (run_events es w).
Proof.
  induction es as [|e es IH]; intros w Hw Hafter; simpl in *.
  - auto.
  - apply IH; [|exact Hafter].
    intro Hstep. apply untouched_step; [exact Hstep|].
    apply Hw. destruct (populated (self w)) eqn:E; [|reflexivity].
    rewrite (populated_stays e w E) in Hstep. discriminate.
Qed.

(** C5: from start-up, along any sequence of weather updates, train
    updates, heartbeats and writer rounds, as long as the weather field
    or the transit field has never been set, [Display.update] has never
    been called, no frame is pending, and the display object is as
    [run] created it. *)
Theorem no_redraw_before_both_set (backend : option Sink.Backend) (es : list event) :
  populated (self (run_events es (boot backend))) = false ->
  untouched backend (run_events es (boot backend)).
Proof.
  apply untouched_run. intros _. unfold untouched, boot. simpl. auto.
Qed.

End SchedFacts.

(* ================================================================== *)
(** * The render sink                                                  *)
(* ================================================================== *)

Section SinkFacts.

Import Subway Sink.
Context {outside : Outside}.

#[local] Arguments _update_partial_display : simpl never.
#[local] Arguments _update_display : simpl never.

Lemma nth_map2 {A B X} (f : A -> B -> X) (l1 : list A) (l2 : list B)
    (i : nat) (a : A) (b : B) (x : X) :
  (i < List.length l1)%nat -> (i < List.length l2)%nat ->
  nth i (map2 f l1 l2) x = f (nth i l1 a) (nth i l2 b).
Proof.
  revert l2 i. induction l1 as [|a1 l1 IH]; intros [|b1 l2] [|i] H1 H2;
    simpl in *; try lia; auto.
  apply IH; lia.
Qed.

Lemma length_map2 {A B X} (f : A -> B -> X) (l1 : list A) (l2 : list B) :
  List.length l1 = List.length l2 ->
  List.length (map2 f l1 l2) = List.length l2.
Proof.
  revert l2. induction l1 as [|a1 l1 IH]; intros [|b1 l2] H; simpl in *;
    try discriminate; auto.
Qed.

Lemma nth_indices (k i : nat) :
  (i < k)%nat -> nth i (map Z.of_nat (seq 0 k)) 0 = Z.of_nat i.
Proof.
  intro H. rewrite (nth_indep _ 0 (Z.of_nat 0)) by now rewrite length_map, length_seq.
  rewrite map_nth, seq_nth by assumption. reflexivity.
Qed.

(** Repainting a canvas gives each of its pixels the value computed from
    its coordinates and its old value. *)
Lemma pixel_repaint (f : Z -> Z -> Z -> Z) (buf : Image) (x y : Z) :
  on_canvas buf x y ->
  pixel (repaint f buf) x y = f x y (pixel buf x y).
Proof.
  intros [[Hy0 Hy] [Hx0 Hx]]. unfold pixel.
  assert (Hxb : (x <? 0) = false) by (apply Z.ltb_ge; lia).
  assert (Hyb : (y <? 0) = false) by (apply Z.ltb_ge; lia).
  rewrite Hxb, Hyb. simpl. unfold repaint.
  rewrite (nth_map2 _ _ _ _ 0 []) by (rewrite ?length_map, ?length_seq; lia).
  rewrite nth_indices by lia.
  rewrite (nth_map2 _ _ _ _ 0 0) by (rewrite ?length_map, ?length_seq; lia).
  rewrite nth_indices by lia.
  now rewrite !Z2Nat.id by lia.
Qed.

(** A partial paste changes the frame buffer inside the box only, where
    it takes the pixels of the new image. *)
Lemma paste_box_pixel (img : Image) (b : Box) (buf : Image) (x y : Z) :
  on_canvas buf x y ->
  pixel (paste_box img b buf) x y
  = if inside b x y then pixel img x y else pixel buf x y.
Proof. intro H. unfold paste_box. now rewrite pixel_repaint. Qed.

(** What the partial write does to the display. *)
Lemma update_partial_display_spec (img : Image) (box : Box) n lg sl fb pv dr :
  _update_partial_display img box (mkWorld n lg sl (mkEInk fb pv dr))
  = if panel_ready n
    then (Returned tt,
          mkWorld (S n)
            (lg ++ [LogRec LInfo "Sending partial image to display";
                    LogRec LInfo "Partial display update complete"]) sl
            (mkEInk (paste_box img box fb) pv (dr ++ [draw_partial GLR16])))
    else (Raised "IT8951 error",
          mkWorld (S n)
            (lg ++ [LogRec LInfo "Sending partial image to display";
                    LogRec LError "Error updating partial display: {}"]) sl
            (mkEInk (paste_box img box fb) pv
                    (dr ++ [draw_partial GLR16; wait_display_ready]))).
Proof.
  unfold _update_partial_display, draw. unfold_monad.
  unfold record_driver, set_frame_buf. simpl.
  destruct (panel_ready n); simpl; rewrite <- !app_assoc; reflexivity.
Qed.

(** The driver calls of a full write: a full draw first, and no partial
    draw at all. *)
Lemma update_display_draws_full (img : Image) (clear : bool) (w : World EInkDisplay) :
  exists rest,
    driver (self (snd (_update_display img clear w)))
    = driver (self w) ++ draw_full (if clear then GC16 else GLR16) :: rest
    /\ forall c, In c rest -> c = draw_full GLR16 \/ c = wait_display_ready.
Proof.
  destruct w as [n lg sl [fb pv dr]].
  unfold _update_display, _clear_display, draw. unfold_monad.
  unfold record_driver, set_frame_buf. simpl.
  destruct clear; simpl.
  - destruct (panel_ready n); simpl.
    + destruct (panel_ready (S n)); simpl; rewrite <- !app_assoc; simpl;
        eexists; (split; [reflexivity|]); simpl; intuition.
    + rewrite <- !app_assoc; simpl.
      eexists; (split; [reflexivity|]); simpl; intuition.
  - destruct (panel_ready n); simpl; rewrite <- ?app_assoc; simpl;
      eexists; (split; [reflexivity|]); simpl; intuition.
Qed.

(** C7: with a previous bitmap and a bounding box of the differences,
    [EInkDisplay.update] with [partial=True] runs the partial write on
    exactly that box when the box is at most 50 wide and 50 high: the
    frame buffer is pasted inside the box and one partial draw is
    issued. When the box is wider or higher than 50 it runs the full
    write, whatever [partial] says: a full draw and no partial draw. *)
Theorem diff_box_decides_the_write
    (img prev : Image) (clear : bool) (l u r d : Z) (w : World EInkDisplay) :
  previous_image (self w) = Some prev ->
  _get_diff_box prev img = Some (l, u, r, d) ->
  (r - l <= 50 -> d - u <= 50 ->
   eink_update img true clear w
   = eink_write (_update_partial_display img (l, u, r, d)) img w
   /\ frame_buf (self (snd (eink_update img true clear w)))
      = paste_box img (l, u, r, d) (frame_buf (self w))
   /\ driver (self (snd (eink_update img true clear w)))
      = driver (self w)
        ++ draw_partial GLR16
           :: (if panel_ready (ticks w) then [] else [wait_display_ready]))
  /\ (50 < r - l \/ 50 < d - u ->
      forall partial,
        eink_update img partial clear w
        = eink_write (log LInfo "Large diff detected, doing full update" ;;
                      _update_display img clear) img w
        /\ exists rest,
            driver (self (snd (eink_update img partial clear w)))
            = driver (self w) ++ draw_full (if clear then GC16 else GLR16) :: rest
            /\ forall c, In c rest -> c = draw_full GLR16 \/ c = wait_display_ready).
Proof.
  intros Hprev Hbox.
  assert (Hsmall : r - l <= 50 -> d - u <= 50 ->
                   eink_update img true clear w
                   = eink_write (_update_partial_display img (l, u, r, d)) img w).
  { destruct w as [n lg sl [fb pv dr]]. simpl in Hprev. subst pv.
    unfold eink_update, eink_write, try_except, bind, get_self, ret, log.
    cbn [self previous_image ticks logged slept]. rewrite Hbox.
    unfold too_large. cbv beta iota zeta.
    intros Hw Hh.
    assert (E : (50 <? r - l) || (50 <? d - u) = false).
    { apply orb_false_intro; apply Z.ltb_ge; assumption. }
    rewrite E. reflexivity. }
  assert (Hlarge : 50 < r - l \/ 50 < d - u ->
                   forall partial,
                     eink_update img partial clear w
                     = eink_write (log LInfo "Large diff detected, doing full update" ;;
                                   _update_display img clear) img w).
  { destruct w as [n lg sl [fb pv dr]]. simpl in Hprev. subst pv.
    unfold eink_update, eink_write, try_except, bind, get_self, ret, log.
    cbn [self previous_image ticks logged slept]. rewrite Hbox.
    unfold too_large. cbv beta iota zeta.
    intros Hl partial.
    assert (E : (50 <? r - l) || (50 <? d - u) = true).
    { apply orb_true_intro. destruct Hl as [H|H];
        [left | right]; apply Z.ltb_lt; assumption. }
    rewrite E. destruct partial; reflexivity. }
  split.
  - intros Hw Hh. split; [auto|]. rewrite (Hsmall Hw Hh).
    destruct w as [n lg sl [fb pv dr]].
    unfold eink_write, try_except, bind.
    rewrite update_partial_display_spec. cbn [ticks self driver frame_buf].
    destruct (panel_ready n); simpl; rewrite <- ?app_assoc; auto.
  - intros Hl partial. split; [auto|]. rewrite (Hlarge Hl partial).
    unfold eink_write, try_except. unfold bind at 1. unfold bind at 1.
    unfold log at 1. 
    match goal with
    | |- context [_update_display img clear ?w1] =>
        destruct (update_display_draws_full img clear w1) as (rest & Hd & Hrest);
        destruct (_update_display img clear w1) as [[x|e] [n2 lg2 sl2 [fb2 pv2 dr2]]]
    end; simpl in *; exists rest; auto.
Qed.

(** Submitting a frame the renderer can draw fills the slot with it,
    whatever the slot held. *)
Lemma submit_spec (wd : json) (t : list TrainArrival) (partial clear : bool)
    (img : Image) n lg sl be nf :
  getImage wd t n = Some img ->
  update wd t partial clear (mkWorld n lg sl (mkDisplay be nf))
  = (Returned tt,
     mkWorld (S n) (lg ++ [LogRec LInfo "Generating display image..."]) sl
             (mkDisplay be (Some (img, partial, clear)))).
Proof.
  intro H. unfold update. unfold_monad. simpl. rewrite H. reflexivity.
Qed.

(** The hardware write leaves the slot alone. *)
Lemma backend_update_keeps_slot (img : Image) (partial clear : bool) (w : World Display) :
  next_frame (self (snd (backend_update img partial clear w))) = next_frame (self w).
Proof.
  destruct w as [n lg sl [be nf]]. unfold backend_update, bind, get_self. simpl.
  destruct be as [[dbg|e]|]; simpl; [| |reflexivity]; unfold zoom; simpl;
    match goal with
    | |- context [let '(_, _) := ?m in _] => destruct m as [o w1]
    end; reflexivity.
Qed.

(** A round of the writer thread that finds a frame in the slot and
    writes it without error empties the slot and sleeps. *)
Lemma drain_spec (img : Image) (partial clear : bool) (w w3 : World Display) :
  next_frame (self w) = Some (img, partial, clear) ->
  backend_update img partial clear w = (Returned tt, w3) ->
  _process_queue_body w
  = (Returned tt,
     mkWorld (ticks w3) (logged w3) (slept w3 ++ [1])
             (set_next_frame None (self w3))).
Proof.
  intros Hslot Hwrite. unfold _process_queue_body.
  unfold try_except, bind at 1, bind at 1, get_self at 1. rewrite Hslot.
  unfold bind at 1. rewrite Hwrite. reflexivity.
Qed.

(** A round of the writer thread that finds the slot empty only sleeps. *)
Lemma drain_idle (w : World Display) :
  next_frame (self w) = None ->
  _process_queue_body w
  = (Returned tt, mkWorld (ticks w) (logged w) (slept w ++ [1]) (self w)).
Proof.
  intro Hslot. unfold _process_queue_body.
  unfold try_except, bind at 1, bind at 1, get_self at 1. rewrite Hslot.
  reflexivity.
Qed.

(** C8: after two frames have been submitted in a row, the slot holds
    the second one only and the display object carries no trace of the
    first; the next round of the writer thread performs one hardware
    write, of the second frame, and empties the slot, so that the round
    after it writes nothing. *)
Theorem latest_frame_wins
    (w : World Display) (wd1 wd2 : json) (t1 t2 : list TrainArrival)
    (p1 c1 p2 c2 : bool) (img1 img2 : Image) :
  getImage wd1 t1 (ticks w) = Some img1 ->
  getImage wd2 t2 (S (ticks w)) = Some img2 ->
  let w2 := snd (update wd2 t2 p2 c2 (snd (update wd1 t1 p1 c1 w))) in
  self w2 = set_next_frame (Some (img2, p2, c2)) (self w)
  /\ forall w3,
       backend_update img2 p2 c2 w2 = (Returned tt, w3) ->
       let w4 := mkWorld (ticks w3) (logged w3) (slept w3 ++ [1])
                         (set_next_frame None (self w3)) in
       _process_queue_body w2 = (Returned tt, w4)
       /\ _process_queue_body w4
          = (Returned tt,
             mkWorld (ticks w4) (logged w4) (slept w4 ++ [1]) (self w4)).
Proof.
  destruct w as [n lg sl [be nf]]. cbn [ticks]. intros H1 H2.
  rewrite (submit_spec wd1 t1 p1 c1 img1 _ _ _ _ _ H1). cbn [snd].
  rewrite (submit_spec wd2 t2 p2 c2 img2 _ _ _ _ _ H2). cbn [snd].
  split; [reflexivity|].
  intros w3 Hwrite. split.
  - apply (drain_spec img2 p2 c2); [reflexivity | exact Hwrite].
  - apply (drain_idle (mkWorld (ticks w3) (logged w3) (slept w3 ++ [1])
                                (set_next_frame None (self w3)))).
    reflexivity.
Qed.

End SinkFacts.

(* ================================================================== *)
(** * The properties at work on concrete inputs                        *)
(* ================================================================== *)

(** The failing input of C2: both fields set, last redraw ten seconds
    ago, last clear an hour ago, seven minutes past the hour: the
    heartbeat's evaluation asks for no redraw. *)
Lemma stale_clear_blocks_redraw_witness :
  PrimFloat.leb 3500
    (Sched.time_time (Clock:=clock_seven_past) 0
     - Sched.last_display_clear (Sched.state (self runner_stale_clear))) = true
  /\ PrimFloat.leb 1
       (Sched.time_time (Clock:=clock_seven_past) 0
        - Sched.last_display_update (Sched.state (self runner_stale_clear))) = true
  /\ Sched._check_display_update (clock:=clock_seven_past) (outside:=sink_ready)
       false runner_stale_clear
     = (Returned tt, mkWorld 2 [] [] (self runner_stale_clear)).
Proof.
  split; [reflexivity|]. split; [reflexivity|].
  exact (stale_clear_blocks_redraw (clock:=clock_seven_past) (outside:=sink_ready)
           runner_stale_clear [train_a; train_b]
           eq_refl eq_refl eq_refl eq_refl eq_refl eq_refl).
Defined.

(** C5 at work: train updates, heartbeats and writer rounds without any
    weather leave the display untouched. *)
Lemma no_redraw_before_both_set_witness :
  populated (self (Sched.run_events (clock:=clock_seven_past) (outside:=sink_ready)
                     trains_only (boot None))) = false
  /\ untouched None
       (Sched.run_events (clock:=clock_seven_past) (outside:=sink_ready)
          trains_only (boot None)).
Proof.
  assert (H : populated
                (self (Sched.run_events (clock:=clock_seven_past)
                         (outside:=sink_ready) trains_only (boot None))) = false)
    by (vm_compute; reflexivity).
  split; [exact H|].
  exact (no_redraw_before_both_set (clock:=clock_seven_past) (outside:=sink_ready)
           None trains_only H).
Defined.

(** C6 at work: on the hour, an hour after the last clear and a quarter
    of a second after the last redraw, a forced evaluation queues a
    partial frame without clear. *)
Lemma forced_redraw_is_partial_without_clear_witness :
  PrimFloat.leb 3500
    (Sched.time_time (Clock:=clock_on_the_hour) 0
     - Sched.last_display_clear (Sched.state (self runner_just_drawn))) = true
  /\ Sched.now_minute (Clock:=clock_on_the_hour) 1 = 0
  /\ PrimFloat.leb 1
       (Sched.time_time (Clock:=clock_on_the_hour) 0
        - Sched.last_display_update (Sched.state (self runner_just_drawn))) = false
  /\ Sink.next_frame
       (Sched.display
          (self (snd (Sched._check_display_update (clock:=clock_on_the_hour)
                        (outside:=sink_ready) true runner_just_drawn))))
     = Some ([[2]], true, false).
Proof.
  split; [reflexivity|]. split; [reflexivity|]. split; [reflexivity|].
  destruct (forced_redraw_is_partial_without_clear
              (clock:=clock_on_the_hour) (outside:=sink_ready)
              runner_just_drawn [train_a4; train_b] [[2]]
              eq_refl eq_refl eq_refl eq_refl) as (_ & Hslot & _).
  exact Hslot.
Defined.

(** C10 at work: the renderer raises, the clear that was due is not
    recorded and nothing else moves. *)
Lemma failed_redraw_keeps_bookkeeping_witness :
  self (snd (Sched._update_display (clock:=clock_on_the_hour)
               (outside:=sink_broken_renderer) true runner_stale_clear))
  = self runner_stale_clear.
Proof.
  destruct (failed_redraw_keeps_bookkeeping (clock:=clock_on_the_hour)
              (outside:=sink_broken_renderer) true runner_stale_clear eq_refl)
    as [_ Hself].
  exact Hself.
Defined.

(** C7 at work: one changed pixel gives a partial draw, a changed row of
    sixty pixels gives a full draw although a partial one was asked. *)
Lemma diff_box_decides_the_write_witness :
  Sink._get_diff_box white3 dot3 = Some (1, 1, 2, 2)
  /\ Sink.driver (self (snd (Sink.eink_update (outside:=sink_ready) dot3 true false
                               (eink_showing white3))))
     = [Sink.draw_partial Sink.GLR16]
  /\ Sink._get_diff_box white60 black60 = Some (0, 0, 60, 1)
  /\ exists rest,
      Sink.driver (self (snd (Sink.eink_update (outside:=sink_ready) black60 true false
                                (eink_showing white60))))
      = Sink.draw_full Sink.GLR16 :: rest.
Proof.
  split; [reflexivity|]. split.
  - destruct (diff_box_decides_the_write (outside:=sink_ready)
                dot3 white3 false 1 1 2 2 (eink_showing white3)
                eq_refl eq_refl) as [Hsmall _].
    destruct (Hsmall ltac:(lia) ltac:(lia)) as (_ & _ & Hdriver).
    exact Hdriver.
  - split; [vm_compute; reflexivity|].
    destruct (diff_box_decides_the_write (outside:=sink_ready)
                black60 white60 false 0 0 60 1 (eink_showing white60)
                eq_refl ltac:(vm_compute; reflexivity)) as [_ Hlarge].
    destruct (Hlarge ltac:(left; lia) true) as (_ & rest & Hdriver & _).
    exists rest. exact Hdriver.
Defined.

(** C8 at work: a frame with one train and then a frame with two are
    submitted; the writer's round draws once, the second frame. *)
Lemma latest_frame_wins_witness :
  let w2 := snd (Sink.update (outside:=sink_ready) snapshot0 [train_a; train_b] true false
                   (snd (Sink.update (outside:=sink_ready) snapshot0 [train_a] true false
                           sink_idle))) in
  let w4 := snd (Sink._process_queue_body (outside:=sink_ready) w2) in
  Sink.next_frame (self w2) = Some ([[2]], true, false)
  /\ Sink.next_frame (self w4) = None
  /\ Sink.display (self w4)
     = Some (Sink.EInk (Sink.mkEInk [[2; 255; 255]; [255; 255; 255]; [255; 255; 255]]
                                    (Some [[2]]) [Sink.draw_partial Sink.GLR16])).
Proof.
  intros w2 w4.
  destruct (latest_frame_wins (outside:=sink_ready) sink_idle snapshot0 snapshot0
              [train_a] [train_a; train_b] true false true false [[1]] [[2]]
              eq_refl eq_refl) as [Hslot Hdrain].
  fold w2 in Hslot, Hdrain.
  split; [rewrite Hslot; reflexivity|].
  assert (Hwrite : Sink.backend_update (outside:=sink_ready) [[2]] true false w2
                   = (Returned tt,
                      snd (Sink.backend_update (outside:=sink_ready)
                             [[2]] true false w2)))
    by (vm_compute; reflexivity).
  destruct (Hdrain _ Hwrite) as [Hround _].
  subst w4. rewrite Hround. split; vm_compute; reflexivity.
Defined.

(* ================================================================== *)
(** * What does not sleep                                              *)
(* ================================================================== *)

Section NoSleep.

Context {C : Type}.

Lemma ns_ret {A} (a : A) : never_sleeps (@ret C A a).
Proof. intro w. reflexivity. Qed.

Lemma ns_raise {A} (e : string) : never_sleeps (@raise C A e).
Proof. intro w. reflexivity. Qed.

Lemma ns_log (l : level) (m : string) : never_sleeps (@log C l m).
Proof. intro w. reflexivity. Qed.

Lemma ns_tick : never_sleeps (@tick C).
Proof. intro w. reflexivity. Qed.

Lemma ns_get_self : never_sleeps (@get_self C).
Proof. intro w. reflexivity. Qed.

Lemma ns_modify (f : C -> C) : never_sleeps (modify f).
Proof. intro w. reflexivity. Qed.

Lemma ns_bind {A B} (m : M C A) (k : A -> M C B) :
  never_sleeps m -> (forall a, never_sleeps (k a)) -> never_sleeps (bind m k).
Proof.
  intros Hm Hk w. unfold bind. specialize (Hm w).
  destruct (m w) as [[a|e] w1]; simpl in *.
  - now rewrite Hk.
  - assumption.
Qed.

Lemma ns_try_except {A} (m : M C A) (h : string -> M C A) :
  never_sleeps m -> (forall e, never_sleeps (h e)) -> never_sleeps (try_except m h).
Proof.
  intros Hm Hh w. unfold try_except. specialize (Hm w).
  destruct (m w) as [[a|e] w1]; simpl in *.
  - assumption.
  - now rewrite Hh.
Qed.

Lemma ns_external {A} (oracle : nat -> option A) (err : string) :
  never_sleeps (@external C A oracle err).
Proof.
  unfold external. apply ns_bind; [apply ns_tick|]. intro n.
  destruct (oracle n); [apply ns_ret | apply ns_raise].
Qed.

Lemma ns_zoom {D A} (get : C -> D) (set : D -> C -> C) (m : M D A) :
  never_sleeps m -> never_sleeps (zoom get set m).
Proof.
  intros Hm w. unfold zoom.
  specialize (Hm (mkWorld (ticks w) (logged w) (slept w) (get (self w)))).
  destruct (m _) as [r w1]. simpl in *. assumption.
Qed.

End NoSleep.

Ltac ns_step :=
  lazymatch goal with
  | |- never_sleeps (ret _) => apply ns_ret
  | |- never_sleeps (raise _) => apply ns_raise
  | |- never_sleeps (log _ _) => apply ns_log
  | |- never_sleeps tick => apply ns_tick
  | |- never_sleeps get_self => apply ns_get_self
  | |- never_sleeps (modify _) => apply ns_modify
  | |- never_sleeps (external _ _) => apply ns_external
  | |- never_sleeps (bind _ _) => apply ns_bind
  | |- never_sleeps (try_except _ _) => apply ns_try_except
  | |- never_sleeps (zoom _ _ _) => apply ns_zoom
  | |- never_sleeps (if ?b then _ else _) => destruct b
  | |- never_sleeps (match ?x with _ => _ end) => destruct x
  | |- never_sleeps (let _ := _ in _) => cbv zeta
  | |- forall _, _ => intro
  end.

Ltac no_sleep := repeat ns_step.

(* ================================================================== *)
(** * More on the render sink                                          *)
(* ================================================================== *)

Section SinkMore.

Import Subway Sink.
Context {outside : Outside}.

#[local] Arguments _get_diff_box : simpl never.
#[local] Arguments paste : simpl never.
#[local] Arguments paste_box : simpl never.
#[local] Arguments paste_colour : simpl never.
#[local] Arguments too_large : simpl never.
#[local] Arguments _update_display : simpl never.
#[local] Arguments _update_partial_display : simpl never.

(** The round of the writer thread never raises. *)
Lemma process_queue_body_returns (w : World Display) :
  fst (_process_queue_body w) = Returned tt.
Proof.
  unfold _process_queue_body, try_except.
  match goal with
  | |- fst (match ?b with _ => _ end) = _ => destruct b as [[[]|e] w1]
  end; reflexivity.
Qed.

Lemma ns_draw (c : driver_call) : never_sleeps (draw c).
Proof. unfold draw. no_sleep. Qed.

Lemma ns_eink_update (img : Image) (partial clear : bool) :
  never_sleeps (eink_update img partial clear).
Proof.
  unfold eink_update, _update_partial_display, _update_display, _clear_display.
  repeat first [ apply ns_draw | ns_step ].
Qed.

Lemma ns_debug_update (img : Image) (partial clear : bool) :
  never_sleeps (debug_update img partial clear).
Proof. unfold debug_update, debug_update_display. no_sleep. Qed.

(** The hardware write does not sleep. *)
Lemma ns_backend_update (img : Image) (partial clear : bool) :
  never_sleeps (backend_update img partial clear).
Proof.
  unfold backend_update.
  apply ns_bind; [apply ns_get_self|]. intro d.
  destruct (display d) as [[dbg|e]|].
  - apply ns_zoom, ns_debug_update.
  - apply ns_zoom, ns_eink_update.
  - apply ns_raise.
Qed.

(** A round of the writer thread whose hardware write raises. *)
Lemma drain_failure (img : Image) (partial clear : bool)
    (w w1 : World Display) (e : string) :
  next_frame (self w) = Some (img, partial, clear) ->
  backend_update img partial clear w = (Raised e, w1) ->
  _process_queue_body w
  = (Returned tt,
     mkWorld (ticks w1)
       (logged w1 ++ [LogRec LError "Error processing update queue: {}";
                      LogRec LError "{}"])
       (slept w1) (self w1)).
Proof.
  intros Hslot Hwrite. unfold _process_queue_body.
  unfold try_except, bind at 1, bind at 1, get_self at 1. rewrite Hslot.
  unfold bind at 1. rewrite Hwrite. unfold bind, log. simpl.
  now rewrite <- app_assoc.
Qed.

(** X9: when the hardware write raises, the round of the writer thread
    logs the error and returns normally; the frame stays in the slot and
    the round ends without its one-second sleep, so the next round tries
    the same frame again at once. *)
Theorem failed_write_keeps_frame_pending
    (img : Image) (partial clear : bool) (w : World Display) (e : string) :
  next_frame (self w) = Some (img, partial, clear) ->
  fst (backend_update img partial clear w) = Raised e ->
  let w' := snd (_process_queue_body w) in
  fst (_process_queue_body w) = Returned tt
  /\ next_frame (self w') = Some (img, partial, clear)
  /\ slept w' = slept w
  /\ In (LogRec LError "Error processing update queue: {}") (logged w').
Proof.
  intros Hslot Hfail.
  pose proof (backend_update_keeps_slot img partial clear w) as Hkeep.
  pose proof (ns_backend_update img partial clear w) as Hns.
  destruct (backend_update img partial clear w) as [[u|e'] w1] eqn:E;
    simpl in Hfail; [discriminate|].
  rewrite (drain_failure img partial clear w w1 e' Hslot E).
  simpl in *. rewrite Hkeep, Hns. repeat split; [exact Hslot|].
  apply in_or_app. right. now left.
Qed.

(** X10: when the renderer raises, [Display.update] raises too and the
    slot keeps whatever frame was pending. *)
Theorem failed_render_keeps_slot
    (wd : json) (t : list TrainArrival) (partial clear : bool) (w : World Display) :
  getImage wd t (ticks w) = None ->
  fst (update wd t partial clear w) = Raised "render error"
  /\ self (snd (update wd t partial clear w)) = self w.
Proof.
  destruct w as [n lg sl d]. simpl. intro H.
  unfold update. unfold_monad. simpl. rewrite H. simpl. auto.
Qed.

(** What the full write does to the display, by what the panel accepts. *)
Lemma eink_update_display_spec (img : Image) (clear : bool) n lg sl fb pv dr :
  _update_display img clear (mkWorld n lg sl (mkEInk fb pv dr))
  = if clear
    then
      if panel_ready n
      then
        if panel_ready (S n)
        then (Returned tt,
              mkWorld (S (S n))
                (lg ++ [LogRec LInfo "Clearing display";
                        LogRec LInfo "Display cleared";
                        LogRec LInfo "Sending image to display";
                        LogRec LInfo "Display update complete"]) sl
                (mkEInk (paste img (paste_colour 255 (0, 0, WIDTH, HEIGHT) fb)) pv
                        (dr ++ [draw_full GC16; draw_full GLR16])))
        else (Raised "IT8951 error",
              mkWorld (S (S n))
                (lg ++ [LogRec LInfo "Clearing display";
                        LogRec LInfo "Display cleared";
                        LogRec LInfo "Sending image to display";
                        LogRec LError "Error updating display: {}"]) sl
                (mkEInk (paste img (paste_colour 255 (0, 0, WIDTH, HEIGHT) fb)) pv
                        (dr ++ [draw_full GC16; draw_full GLR16;
                                wait_display_ready])))
      else (Raised "IT8951 error",
            mkWorld (S n)
              (lg ++ [LogRec LInfo "Clearing display";
                      LogRec LError "Error clearing display: {}";
                      LogRec LError "Error updating display: {}"]) sl
              (mkEInk (paste_colour 255 (0, 0, WIDTH, HEIGHT) fb) pv
                      (dr ++ [draw_full GC16; wait_display_ready])))
    else
      if panel_ready n
      then (Returned tt,
            mkWorld (S n)
              (lg ++ [LogRec LInfo "Sending image to display";
                      LogRec LInfo "Display update complete"]) sl
              (mkEInk (paste img fb) pv (dr ++ [draw_full GLR16])))
      else (Raised "IT8951 error",
            mkWorld (S n)
              (lg ++ [LogRec LInfo "Sending image to display";
                      LogRec LError "Error updating display: {}"]) sl
              (mkEInk (paste img fb) pv
                      (dr ++ [draw_full GLR16; wait_display_ready]))).
Proof.
  unfold _update_display, _clear_display, draw. unfold_monad.
  unfold record_driver, set_frame_buf. simpl.
  destruct clear; simpl.
  - destruct (panel_ready n); simpl.
    + destruct (panel_ready (S n)); simpl; rewrite <- !app_assoc; reflexivity.
    + rewrite <- !app_assoc; reflexivity.
  - destruct (panel_ready n); simpl; rewrite <- !app_assoc; reflexivity.
Qed.

(** X11: [EInkDisplay.update] records the image as the previous one
    exactly when the write went through; when the write raises, the
    exception is raised again and the previous image is the one of the
    last successful write. *)
Theorem previous_image_follows_successful_writes
    (img : Image) (partial clear : bool) (w : World EInkDisplay) :
  previous_image (self (snd (eink_update img partial clear w)))
  = match fst (eink_update img partial clear w) with
    | Returned _ => Some img
    | Raised _ => previous_image (self w)
    end.
Proof.
  destruct w as [n lg sl [fb pv dr]].
  unfold eink_update, try_except, bind, get_self, ret, log, modify, raise,
    set_previous_image.
  cbn [self previous_image ticks logged slept fst snd].
  destruct (match pv with
            | Some prev => _get_diff_box prev img
            | None => None
            end) as [box|].
  - destruct (too_large box).
    + destruct partial; cbn [self ticks logged slept];
        rewrite eink_update_display_spec;
        destruct clear, (panel_ready n), (panel_ready (S n)); reflexivity.
    + destruct partial; cbn [self ticks logged slept].
      * rewrite update_partial_display_spec.
        destruct (panel_ready n); reflexivity.
      * rewrite eink_update_display_spec.
        destruct clear, (panel_ready n), (panel_ready (S n)); reflexivity.
  - destruct partial; cbn [self ticks logged slept];
      rewrite eink_update_display_spec;
      destruct clear, (panel_ready n), (panel_ready (S n)); reflexivity.
Qed.

Lemma positions_complete {A} (keep : A -> bool) (l : list A) :
  forall (i : Z) (k : nat) (a : A),
    nth_error l k = Some a -> keep a = true ->
    In (i + Z.of_nat k) (positions keep i l).
Proof.
  induction l as [|b l IH]; intros i [|k] a Hk Ha; simpl in *; try discriminate.
  - inversion Hk; subst. rewrite Ha. left. lia.
  - apply in_or_app. right.
    replace (i + Z.pos (Pos.of_succ_nat k)) with (Z.succ i + Z.of_nat k) by lia.
    eapply IH; eassumption.
Qed.

Lemma positions_nothing {A} (keep : A -> bool) (l : list A) (i : Z) :
  (forall a, In a l -> keep a = false) -> positions keep i l = [].
Proof.
  revert i. induction l as [|b l IH]; intros i H; simpl; [reflexivity|].
  rewrite (H b) by now left. simpl. apply IH. intros a Ha. apply H. now right.
Qed.

Lemma minimum_below (l : list Z) :
  forall x, minimum x l <= x /\ forall y, In y l -> minimum x l <= y.
Proof.
  unfold minimum. induction l as [|z l IH]; intro x; simpl.
  - split; [lia | contradiction].
  - destruct (IH (Z.min x z)) as [H1 H2]. split; [lia|].
    intros y [<-|Hy]; [lia | auto].
Qed.

Lemma maximum_above (l : list Z) :
  forall x, x <= maximum x l /\ forall y, In y l -> y <= maximum x l.
Proof.
  unfold maximum. induction l as [|z l IH]; intro x; simpl.
  - split; [lia | contradiction].
  - destruct (IH (Z.max x z)) as [H1 H2]. split; [lia|].
    intros y [<-|Hy]; [lia | auto].
Qed.

(** A pixel that is not zero shows up in both coordinate lists of
    [getbbox]. *)
Lemma nonzero_pixel_is_seen (img : Image) (x y : Z) :
  on_canvas img x y -> pixel img x y <> 0 ->
  In x (flat_map (positions nonzero 0) img)
  /\ In y (positions (existsb nonzero) 0 img).
Proof.
  intros [[Hy0 Hy] [Hx0 Hx]] Hpix. unfold pixel in Hpix.
  assert (Hxb : (x <? 0) = false) by (apply Z.ltb_ge; lia).
  assert (Hyb : (y <? 0) = false) by (apply Z.ltb_ge; lia).
  rewrite Hxb, Hyb in Hpix. simpl in Hpix.
  set (row := nth (Z.to_nat y) img []) in *.
  assert (Hrow : nth_error img (Z.to_nat y) = Some row).
  { apply nth_error_nth'. lia. }
  assert (Hp : nth_error row (Z.to_nat x) = Some (nth (Z.to_nat x) row 0)).
  { apply nth_error_nth'. lia. }
  assert (Hnz : nonzero (nth (Z.to_nat x) row 0) = true).
  { unfold nonzero. apply negb_true_iff. apply Z.eqb_neq. exact Hpix. }
  split.
  - apply in_flat_map. exists row. split.
    + eapply nth_error_In. exact Hrow.
    + replace x with (0 + Z.of_nat (Z.to_nat x)) at 1 by lia.
      eapply positions_complete; eassumption.
  - replace y with (0 + Z.of_nat (Z.to_nat y)) at 1 by lia.
    eapply positions_complete; [exact Hrow|].
    apply existsb_exists. exists (nth (Z.to_nat x) row 0). split; [|exact Hnz].
    eapply nth_error_In. exact Hp.
Qed.

(** [getbbox] answers a box that holds every pixel that is not zero, and
    [None] only when there is none. *)
Lemma getbbox_covers (img : Image) (x y : Z) :
  on_canvas img x y -> pixel img x y <> 0 ->
  exists box, getbbox img = Some box /\ inside box x y = true.
Proof.
  intros Hc Hpix. destruct (nonzero_pixel_is_seen img x y Hc Hpix) as [Hx Hy].
  unfold getbbox.
  destruct (flat_map (positions nonzero 0) img) as [|x0 xs]; [contradiction|].
  destruct (positions (existsb nonzero) 0 img) as [|y0 ys]; [contradiction|].
  eexists. split; [reflexivity|]. unfold inside.
  destruct (minimum_below xs x0) as [Hm1 Hm2].
  destruct (maximum_above xs x0) as [HM1 HM2].
  destruct (minimum_below ys y0) as [Hn1 Hn2].
  destruct (maximum_above ys y0) as [HN1 HN2].
  assert (minimum x0 xs <= x <= maximum x0 xs).
  { destruct Hx as [<-|Hx]; [lia|]. split; auto. }
  assert (minimum y0 ys <= y <= maximum y0 ys).
  { destruct Hy as [<-|Hy]; [lia|]. split; auto. }
  repeat (apply andb_true_intro; split);
    first [ apply Z.leb_le; lia | apply Z.ltb_lt; lia ].
Qed.

Lemma length_map2_min {A B X} (f : A -> B -> X) (l1 : list A) (l2 : list B) :
  List.length (map2 f l1 l2) = Nat.min (List.length l1) (List.length l2).
Proof.
  revert l2. induction l1 as [|a l1 IH]; intros [|b l2]; simpl; auto.
Qed.

(** On the pixels two bitmaps share, their difference is the absolute
    difference of the pixels. *)
Lemma pixel_difference (a b : Image) (x y : Z) :
  on_canvas a x y -> on_canvas b x y ->
  on_canvas (difference a b) x y
  /\ pixel (difference a b) x y = Z.abs (pixel a x y - pixel b x y).
Proof.
  intros [[Hy0 Hya] [Hx0 Hxa]] [[_ Hyb] [_ Hxb]].
  unfold difference.
  assert (Hrow : nth (Z.to_nat y) (map2 (map2 (fun p q => Z.abs (p - q))) a b) []
                 = map2 (fun p q => Z.abs (p - q))
                        (nth (Z.to_nat y) a []) (nth (Z.to_nat y) b [])).
  { apply nth_map2; lia. }
  split.
  - split.
    + rewrite length_map2_min. lia.
    + rewrite Hrow, length_map2_min. lia.
  - unfold pixel.
    assert (E1 : (x <? 0) = false) by (apply Z.ltb_ge; lia).
    assert (E2 : (y <? 0) = false) by (apply Z.ltb_ge; lia).
    rewrite E1, E2. simpl. rewrite Hrow.
    apply (nth_map2 (fun p q => Z.abs (p - q))); lia.
Qed.

(** X12: the diff box holds every pixel at which the two bitmaps differ,
    and there is no diff box only when they agree on every pixel they
    share. *)
Theorem diff_box_covers_every_change (img1 img2 : Image) :
  match _get_diff_box img1 img2 with
  | Some box =>
      forall x y, on_canvas img1 x y -> on_canvas img2 x y ->
                  pixel img1 x y <> pixel img2 x y -> inside box x y = true
  | None =>
      forall x y, on_canvas img1 x y -> on_canvas img2 x y ->
                  pixel img1 x y = pixel img2 x y
  end.
Proof.
  unfold _get_diff_box.
  destruct (getbbox (difference img1 img2)) as [box|] eqn:E.
  - intros x y H1 H2 Hne.
    destruct (pixel_difference img1 img2 x y H1 H2) as [Hc Hp].
    destruct (getbbox_covers (difference img1 img2) x y Hc) as (box' & E' & Hin).
    + rewrite Hp. lia.
    + congruence.
  - intros x y H1 H2.
    destruct (Z.eq_dec (pixel img1 x y) (pixel img2 x y)) as [|Hne]; [assumption|].
    destruct (pixel_difference img1 img2 x y H1 H2) as [Hc Hp].
    destruct (getbbox_covers (difference img1 img2) x y Hc) as (box' & E' & _).
    + rewrite Hp. lia.
    + congruence.
Qed.

Lemma difference_with_itself_row (row : list Z) (i : Z) :
  positions nonzero i (map2 (fun p q => Z.abs (p - q)) row row) = [].
Proof.
  revert i. induction row as [|p row IH]; intro i; simpl; [reflexivity|].
  replace (p - p) with 0 by lia. simpl. apply IH.
Qed.

(** A bitmap has no diff box against itself. *)
Lemma no_diff_box_against_itself (img : Image) : _get_diff_box img img = None.
Proof.
  unfold _get_diff_box, getbbox.
  assert (E : flat_map (positions nonzero 0) (difference img img) = []).
  { unfold difference. induction img as [|row img IH]; simpl; [reflexivity|].
    rewrite difference_with_itself_row. simpl. exact IH. }
  now rewrite E.
Qed.

(** X13: the first frame ever, and a frame identical to the one on
    display, are written in full, whether or not a partial update was
    asked for. *)
Theorem first_or_identical_frame_is_written_in_full
    (img : Image) (partial clear : bool) (w : World EInkDisplay) :
  previous_image (self w) = None \/ previous_image (self w) = Some img ->
  eink_update img partial clear w = eink_write (_update_display img clear) img w.
Proof.
  destruct w as [n lg sl [fb pv dr]]. simpl. intro H.
  unfold eink_update, eink_write, try_except, bind, get_self, ret.
  cbn [self previous_image ticks logged slept].
  assert (E : match pv with
              | Some prev => _get_diff_box prev img
              | None => None
              end = None).
  { destruct H as [->| ->]; [reflexivity | apply no_diff_box_against_itself]. }
  rewrite E. destruct partial; reflexivity.
Qed.

Lemma length_repaint (f : Z -> Z -> Z -> Z) (buf : Image) :
  List.length (repaint f buf) = List.length buf.
Proof.
  unfold repaint. apply length_map2. now rewrite length_map, length_seq.
Qed.

Lemma row_length_repaint (f : Z -> Z -> Z -> Z) (buf : Image) (k : nat) :
  (k < List.length buf)%nat ->
  List.length (nth k (repaint f buf) []) = List.length (nth k buf []).
Proof.
  intro H. unfold repaint.
  rewrite (nth_map2 _ _ _ _ 0 []) by (rewrite ?length_map, ?length_seq; lia).
  apply length_map2. now rewrite length_map, length_seq.
Qed.

(** Repainting keeps the shape of the canvas. *)
Lemma on_canvas_repaint (f : Z -> Z -> Z -> Z) (buf : Image) (x y : Z) :
  on_canvas buf x y -> on_canvas (repaint f buf) x y.
Proof.
  intros [[Hy0 Hy] [Hx0 Hx]]. split.
  - rewrite length_repaint. lia.
  - rewrite row_length_repaint by lia. lia.
Qed.

(** X14: the partial write changes the frame buffer inside the box only:
    there each pixel becomes the pixel of the new image, and everywhere
    else on the canvas it stays what it was, whether or not the panel
    accepts the draw. *)
Theorem partial_write_touches_only_the_box
    (img : Image) (box : Box) (w : World EInkDisplay) (x y : Z) :
  on_canvas (frame_buf (self w)) x y ->
  pixel (frame_buf (self (snd (_update_partial_display img box w)))) x y
  = if inside box x y then pixel img x y else pixel (frame_buf (self w)) x y.
Proof.
  destruct w as [n lg sl [fb pv dr]]. simpl. intro Hc.
  rewrite update_partial_display_spec.
  destruct (panel_ready n); simpl; apply paste_box_pixel; assumption.
Qed.

(** X15: after a full write that went through, the frame buffer shows
    the new image at every pixel of the canvas the image covers, with or
    without a clear before it. *)
Theorem full_write_shows_the_image
    (img : Image) (clear : bool) (w : World EInkDisplay) (x y : Z) :
  fst (_update_display img clear w) = Returned tt ->
  on_canvas (frame_buf (self w)) x y ->
  on_canvas img x y ->
  pixel (frame_buf (self (snd (_update_display img clear w)))) x y = pixel img x y.
Proof.
  destruct w as [n lg sl [fb pv dr]]. simpl. intros Hok Hc Hi.
  assert (Hcover : (Z.to_nat y <? List.length img)%nat
                   && (Z.to_nat x <? List.length (nth (Z.to_nat y) img []))%nat
                   = true).
  { destruct Hi as [[? ?] [? ?]].
    apply andb_true_intro. split; apply Nat.ltb_lt; lia. }
  rewrite eink_update_display_spec in *.
  destruct clear.
  - destruct (panel_ready n); [|discriminate].
    destruct (panel_ready (S n)); [|discriminate].
    simpl. unfold paste. rewrite pixel_repaint.
    + now rewrite Hcover.
    + unfold paste_colour. apply on_canvas_repaint. assumption.
  - destruct (panel_ready n); [|discriminate].
    simpl. unfold paste. rewrite pixel_repaint by assumption.
    now rewrite Hcover.
Qed.

End SinkMore.

(* ================================================================== *)
(** * More on the transit producer                                     *)
(* ================================================================== *)

Section SortFacts.

Import Subway.
Variable key : TrainArrival -> Z.

Lemma insert_by_perm (x : TrainArrival) (l : list TrainArrival) :
  Permutation (insert_by key x l) (x :: l).
Proof.
  induction l as [|y l IH]; simpl; [reflexivity|].
  destruct (key x <=? key y); [reflexivity|].
  rewrite IH. apply perm_swap.
Qed.

Lemma sorted_by_perm (l : list TrainArrival) : Permutation (sorted_by key l) l.
Proof.
  induction l as [|x l IH]; simpl; [reflexivity|].
  unfold sorted_by in *. simpl. rewrite insert_by_perm. now constructor.
Qed.

Lemma insert_by_sorted (x : TrainArrival) (l : list TrainArrival) :
  Sorted (fun a b => key a <= key b) l ->
  Sorted (fun a b => key a <= key b) (insert_by key x l).
Proof.
  induction l as [|y l IH]; intro Hs; simpl.
  - repeat constructor.
  - destruct (key x <=? key y) eqn:E.
    + constructor; [assumption|]. constructor. now apply Z.leb_le.
    + apply Z.leb_gt in E. inversion Hs as [|? ? Hs' Hhd]; subst.
      constructor; [auto|].
      destruct l as [|z l]; simpl.
      * constructor. lia.
      * destruct (key x <=? key z); constructor; [lia|].
        inversion Hhd; subst. assumption.
Qed.

Lemma sorted_by_sorted (l : list TrainArrival) :
  Sorted (fun a b => key a <= key b) (sorted_by key l).
Proof.
  induction l as [|x l IH]; simpl; [constructor|].
  unfold sorted_by in *. simpl. now apply insert_by_sorted.
Qed.

End SortFacts.

Section SubwayMore.

Import Subway.
Context {callback : Type} {outside : Outside callback}.

(** [_process_train] never raises; it answers an arrival, with minutes
    that are not negative, exactly for a trip that announces the
    station. *)
Lemma process_train_spec (train : Trip) (w : World (SubwayService callback)) :
  exists r w',
    _process_train train w = (Returned r, w')
    /\ self w' = self w
    /\ match arrival_at (station_id (self w)) train with
       | Some at_ =>
           exists m, 0 <= m
                     /\ r = Some (mkTrain m (strftime at_) (trip_id train)
                                          (trip_route_id train))
       | None => r = None
       end.
Proof.
  destruct w as [n lg sl s].
  unfold _process_train, arrival_at. unfold_monad. simpl.
  destruct (find _ (stop_time_updates train)) as [st|]; simpl.
  - destruct (arrival st) as [at_|]; simpl.
    + eexists. eexists. split; [reflexivity|]. split; [reflexivity|].
      eexists. split; [|reflexivity]. lia.
    + eexists. eexists. split; [reflexivity|]. split; reflexivity.
  - eexists. eexists. split; [reflexivity|]. split; reflexivity.
Qed.

Lemma process_all_spec (trains : list Trip) :
  forall w : World (SubwayService callback),
  exists arrivals w',
    process_all trains w = (Returned arrivals, w')
    /\ self w' = self w
    /\ map train_id arrivals
       = map trip_id (filter (announces (station_id (self w))) trains)
    /\ Forall (fun a => 0 <= minutes_until_arrival a) arrivals.
Proof.
  induction trains as [|t trains IH]; intro w; simpl.
  - exists [], w. repeat split; constructor.
  - unfold bind at 1. unfold log at 1.
    match goal with
    | |- context [bind (_process_train t) _ ?w1] =>
        destruct (process_train_spec t w1) as (r & w2 & Hr & Hself & Hshape);
        unfold bind at 1; rewrite Hr
    end.
    simpl in Hself, Hshape. unfold announces.
    destruct (arrival_at (station_id (self w)) t) as [at_|].
    + destruct Hshape as (m & Hm & ->).
      unfold bind at 1. unfold log at 1.
      match goal with
      | |- context [bind (process_all trains) _ ?w3] =>
          destruct (IH w3) as (arrs & w4 & Hp & Hs4 & Hids & Hnn);
          unfold bind at 1; rewrite Hp
      end.
      simpl in Hs4, Hids. rewrite Hself in Hs4, Hids.
      exists (mkTrain m (strftime at_) (trip_id t) (trip_route_id t) :: arrs), w4.
      unfold ret. repeat split; [assumption | |].
      * simpl. f_equal. exact Hids.
      * constructor; [exact Hm | exact Hnn].
    + subst r. unfold bind at 1. unfold log at 1.
      match goal with
      | |- context [process_all trains ?w3] =>
          destruct (IH w3) as (arrs & w4 & Hp & Hs4 & Hids & Hnn); rewrite Hp
      end.
      simpl in Hs4, Hids. rewrite Hself in Hs4, Hids.
      exists arrs, w4. repeat split; assumption.
Qed.

(** What a fetch that goes through answers. *)
Lemma fetch_arrivals_returned (w w' : World (SubwayService callback))
    (l : list TrainArrival) :
  fetch_arrivals w = (Returned l, w') ->
  Sorted by_minutes l /\ Forall (fun a => 0 <= minutes_until_arrival a) l.
Proof.
  unfold fetch_arrivals. intro H.
  apply bind_returned in H. destruct H as (u1 & w1 & _ & H).
  apply bind_returned in H. destruct H as (tf & w2 & _ & H).
  apply bind_returned in H. destruct H as (tg & w3 & _ & H).
  destruct (is_empty (tf ++ tg)).
  - apply bind_returned in H. destruct H as (u2 & w4 & _ & H).
    inversion H; subst. split; constructor.
  - apply bind_returned in H. destruct H as (arrs & w4 & Hp & H).
    apply bind_returned in H. destruct H as (u2 & w5 & _ & H).
    inversion H; subst.
    destruct (process_all_spec (tf ++ tg) w3) as (arrs' & w4' & Hp' & _ & _ & Hnn).
    rewrite Hp in Hp'. inversion Hp'; subst arrs'.
    split.
    + apply sorted_by_sorted.
    + eapply Permutation_Forall; [|exact Hnn].
      symmetry. apply sorted_by_perm.
Qed.

(** X16: [get_upcoming_trains] never raises, whatever the feeds do; the
    list it returns is sorted by minutes until arrival, ascending, and no
    arrival in it has negative minutes. *)
Theorem upcoming_trains_are_sorted (w : World (SubwayService callback)) :
  exists l,
    fst (get_upcoming_trains w) = Returned l
    /\ Sorted by_minutes l
    /\ Forall (fun a => 0 <= minutes_until_arrival a) l.
Proof.
  unfold get_upcoming_trains, try_except.
  destruct (fetch_arrivals w) as [[l|e] w'] eqn:E.
  - exists l. split; [reflexivity|]. eapply fetch_arrivals_returned. exact E.
  - exists []. split; [reflexivity|]. split; constructor.
Qed.

(** A line whose feed answers gives the filtered trips, after one
    interaction with the outside. *)
Lemma fetch_line_spec (line none_msg : string) (feed : list Trip)
    (w : World (SubwayService callback)) :
  NYCTFeed line (ticks w) = Some feed ->
  exists lg',
    fetch_line line none_msg w
    = (Returned (filter_trips feed (station_id (self w))),
       mkWorld (S (ticks w)) lg' (slept w) (self w)).
Proof.
  destruct w as [n lg sl s]. simpl. intro H.
  unfold fetch_line. unfold_monad. simpl. rewrite H. simpl.
  destruct (is_empty (filter_trips feed (station_id s))); simpl;
    eexists; reflexivity.
Qed.

(** X17: when both feeds answer, [get_upcoming_trains] returns one
    arrival for each trip that announces an arrival time at the station,
    and nothing else: the train ids of the result are the trip ids of
    those trips, in some order. *)
Theorem upcoming_trains_are_complete
    (w : World (SubwayService callback)) (feed1 feed2 : list Trip) :
  NYCTFeed TRAIN_LINE_1 (ticks w) = Some feed1 ->
  NYCTFeed TRAIN_LINE_2 (S (ticks w)) = Some feed2 ->
  exists l,
    fst (get_upcoming_trains w) = Returned l
    /\ Permutation
         (map train_id l)
         (map trip_id
              (filter (announces (station_id (self w)))
                      (filter_trips feed1 (station_id (self w))
                       ++ filter_trips feed2 (station_id (self w))))).
Proof.
  destruct w as [n lg sl s]. simpl. intros H1 H2.
  unfold get_upcoming_trains, try_except, fetch_arrivals.
  unfold bind at 1. unfold log at 1.
  match goal with
  | |- context [bind (fetch_line ?l ?m) _ ?w0] =>
      destruct (fetch_line_spec l m feed1 w0 H1) as (lg1 & Hf1);
      unfold bind at 1; rewrite Hf1
  end.
  cbn [ticks logged slept self].
  match goal with
  | |- context [bind (fetch_line ?l ?m) _ ?w0] =>
      destruct (fetch_line_spec l m feed2 w0 H2) as (lg2 & Hf2);
      unfold bind at 1; rewrite Hf2
  end.
  cbn [ticks logged slept self].
  set (trains := filter_trips feed1 (station_id s)
                 ++ filter_trips feed2 (station_id s)).
  destruct (is_empty trains) eqn:Hempty.
  - destruct trains as [|t0 rest]; [|discriminate].
    unfold bind, log, ret. simpl. exists []. split; [reflexivity|]. constructor.
  - match goal with
    | |- context [bind (process_all trains) _ ?w0] =>
        destruct (process_all_spec trains w0) as (arrs & w4 & Hp & _ & Hids & _);
        unfold bind at 1; rewrite Hp
    end.
    unfold bind, log, ret. simpl. eexists. split; [reflexivity|].
    simpl in Hids. rewrite <- Hids.
    apply Permutation_map. apply sorted_by_perm.
Qed.

(** X18: [_should_notify] answers [False] exactly when both lists are
    non-empty and each of the first two new trains (or the only one) has
    a train at the same position of the cached list that equals it on
    train id and minutes.  What comes after the second position, and a
    second cached train without a new one, are not looked at. *)
Theorem should_notify_exactly
    (s : SubwayService callback) (new_trains : list TrainArrival) :
  _should_notify s new_trains = false
  <-> _current_trains s <> [] /\ new_trains <> []
      /\ Forall2 (fun n c => TrainArrival_eq n c = true)
                 (firstn 2 new_trains)
                 (firstn (Nat.min 2 (List.length new_trains))
                         (_current_trains s)).
Proof.
  destruct s as [sid ss run cur inv]. unfold _should_notify. cbn [_current_trains].
  destruct cur as [|c1 [|c2 cr]], new_trains as [|n1 [|n2 nr]];
    cbn [is_empty orb List.length Nat.min seq existsb nth_error firstn negb];
    (split; [intro H | intros (Hc & Hn & HF)]);
    try discriminate; try congruence.
  all: try (rewrite ?orb_false_iff, ?negb_false_iff in H;
            repeat split; try discriminate; repeat constructor; tauto).
  all: try (exfalso; rewrite ?orb_false_iff in H; intuition discriminate).
  all: repeat match goal with
              | H : Forall2 _ (_ :: _) _ |- _ => inversion H; subst; clear H
              end.
  all: repeat match goal with
              | H : TrainArrival_eq _ _ = true |- _ => rewrite H; clear H
              end; reflexivity.
Qed.

(** X19: [_notify_subscribers] calls every subscriber once with the
    list, in subscription order, whether or not some of them raise; it
    returns normally, logs one error for each subscriber that raised, and
    leaves the cached list and the subscriptions as they were. *)
Theorem notification_reaches_every_subscriber
    (trains : list TrainArrival) (w : World (SubwayService callback)) :
  let r := _notify_subscribers trains w in
  fst r = Returned tt
  /\ invoked (self (snd r))
     = invoked (self w) ++ fan_out (_subscribers (self w)) trains
  /\ _subscribers (self (snd r)) = _subscribers (self w)
  /\ _current_trains (self (snd r)) = _current_trains (self w)
  /\ logged (snd r)
     = logged w ++ notify_errors callback_raises
                     "Error notifying subscriber: {}"
                     (_subscribers (self w)) trains.
Proof.
  destruct w as [n lg sl [sid ss run cur inv]].
  unfold _notify_subscribers, bind, get_self. cbn [self _subscribers].
  rewrite subway_notify_spec. cbn. auto.
Qed.

(** [get_upcoming_trains] returns, and only looks. *)
Lemma get_upcoming_trains_returns (w : World (SubwayService callback)) :
  exists l w1,
    get_upcoming_trains w = (Returned l, w1)
    /\ self w1 = self w /\ slept w1 = slept w.
Proof.
  destruct (keeps_fetch_arrivals w) as [Hself Hslept].
  unfold get_upcoming_trains, try_except.
  destruct (fetch_arrivals w) as [[l|e] w1]; simpl in *.
  - exists l, w1. auto.
  - eexists. eexists. split; [reflexivity|]. simpl. auto.
Qed.

(** What a round of the polling loop does, given what the fetch gave. *)
Lemma subway_round_spec (interval : Z) (fetched : list TrainArrival)
    n lg sl sid ss run cur inv n1 lg1 :
  get_upcoming_trains (mkWorld n lg sl (mkService sid ss run cur inv))
  = (Returned fetched, mkWorld n1 lg1 sl (mkService sid ss run cur inv)) ->
  _update_loop_body interval (mkWorld n lg sl (mkService sid ss run cur inv))
  = (Returned tt,
     if _should_notify (mkService sid ss run cur inv) fetched
     then mkWorld n1
            (lg1 ++ notify_errors callback_raises
                      "Error notifying subscriber: {}" ss fetched)
            (sl ++ [interval])
            (mkService sid ss run fetched (inv ++ fan_out ss fetched))
     else mkWorld n1 lg1 (sl ++ [interval]) (mkService sid ss run cur inv)).
Proof.
  intro Hget.
  unfold _update_loop_body, _notify_subscribers.
  unfold try_except at 1. unfold bind at 1. rewrite Hget.
  unfold bind at 1. unfold get_self at 1. cbn [self].
  destruct (_should_notify (mkService sid ss run cur inv) fetched).
  - unfold bind, get_self, modify, set_current, sleep, ret; simpl.
    rewrite subway_notify_spec. reflexivity.
  - reflexivity.
Qed.

(** X20: a round of the polling loop always ends normally and sleeps the
    interval once.  If [_should_notify] holds of the fetched list, the
    list becomes the cache and every subscriber is called with it;
    otherwise the service is left exactly as it was.  So the cache is
    the last list the subscribers were sent. *)
Theorem round_notifies_what_it_caches
    (interval : Z) (w : World (SubwayService callback)) :
  exists fetched,
    fst (get_upcoming_trains w) = Returned fetched
    /\ fst (_update_loop_body interval w) = Returned tt
    /\ slept (snd (_update_loop_body interval w)) = slept w ++ [interval]
    /\ if _should_notify (self w) fetched
       then self (snd (_update_loop_body interval w))
            = mkService (station_id (self w)) (_subscribers (self w))
                (_should_run (self w)) fetched
                (invoked (self w) ++ fan_out (_subscribers (self w)) fetched)
       else self (snd (_update_loop_body interval w)) = self w.
Proof.
  destruct (get_upcoming_trains_returns w) as (l & w1 & Hget & Hself & Hslept).
  destruct w as [n lg sl [sid ss run cur inv]].
  destruct w1 as [n1 lg1 sl1 s1]. simpl in Hself, Hslept. subst s1 sl1.
  exists l. rewrite Hget. split; [reflexivity|].
  rewrite (subway_round_spec interval l _ _ _ _ _ _ _ _ _ _ Hget).
  cbn [fst snd self slept station_id _subscribers _should_run invoked].
  destruct (_should_notify (mkService sid ss run cur inv) l); cbn; auto.
Qed.

(** A round leaves the flag and the subscriptions alone, returns and
    sleeps once. *)
Lemma subway_round_frame (interval : Z) (w : World (SubwayService callback)) :
  fst (_update_loop_body interval w) = Returned tt
  /\ slept (snd (_update_loop_body interval w)) = slept w ++ [interval]
  /\ _should_run (self (snd (_update_loop_body interval w))) = _should_run (self w)
  /\ _subscribers (self (snd (_update_loop_body interval w)))
     = _subscribers (self w).
Proof.
  destruct (get_upcoming_trains_returns w) as (l & w1 & Hget & Hself & Hslept).
  destruct w as [n lg sl [sid ss run cur inv]].
  destruct w1 as [n1 lg1 sl1 s1]. simpl in Hself, Hslept. subst s1 sl1.
  rewrite (subway_round_spec interval l _ _ _ _ _ _ _ _ _ _ Hget).
  destruct (_should_notify (mkService sid ss run cur inv) l); cbn; auto.
Qed.

(** X21: the polling loop cannot be ended by an exception.  While
    [_should_run] is set it runs round after round, each sleeping the
    interval once, whatever the feeds and the subscribers do; with the
    flag cleared it returns at once, having done nothing. *)
Theorem polling_loop_keeps_going
    (fuel : nat) (interval : Z) (w : World (SubwayService callback)) :
  fst (_update_loop fuel interval w) = Returned tt
  /\ slept (snd (_update_loop fuel interval w))
     = slept w ++ (if _should_run (self w) then repeat interval fuel else [])
  /\ _subscribers (self (snd (_update_loop fuel interval w)))
     = _subscribers (self w)
  /\ (_should_run (self w) = false -> snd (_update_loop fuel interval w) = w).
Proof.
  revert w. induction fuel as [|fuel IH]; intro w.
  - cbn. destruct (_should_run (self w)); rewrite app_nil_r; auto.
  - assert (Hstep : _update_loop (S fuel) interval w
                    = if _should_run (self w)
                      then match _update_loop_body interval w with
                           | (Returned _, w1) => _update_loop fuel interval w1
                           | (Raised e, w1) => (Raised e, w1)
                           end
                      else (Returned tt, w)).
    { cbn [_update_loop]. unfold bind, get_self, ret.
      destruct (_should_run (self w)); reflexivity. }
    rewrite Hstep. clear Hstep.
    destruct (_should_run (self w)) eqn:Hrun.
    + destruct (subway_round_frame interval w) as (Hret & Hsl & Hr & Hsubs).
      destruct (_update_loop_body interval w) as [[[]|e] w1];
        cbn in Hret, Hsl, Hr, Hsubs; [|discriminate].
      destruct (IH w1) as (IH1 & IH2 & IH3 & _).
      rewrite IH1, IH2, IH3, Hsl, Hr, Hrun, Hsubs.
      repeat split; [|discriminate].
      cbn. now rewrite <- app_assoc.
    + cbn. rewrite app_nil_r. auto.
Qed.

End SubwayMore.

(* ================================================================== *)
(** * More on the weather producer                                     *)
(* ================================================================== *)

Section MapInversion.

Context {C A B : Type}.

Lemma map_m_returned (f : A -> M C B) (Q : B -> Prop) :
  (forall x w y w', f x w = (Returned y, w') -> Q y) ->
  forall l w ys w',
    map_m f l w = (Returned ys, w') ->
    List.length ys = List.length l /\ Forall Q ys.
Proof.
  intros Hf. induction l as [|x l IH]; intros w ys w' H; simpl in H.
  - inversion H; subst. split; [reflexivity | constructor].
  - apply bind_returned in H. destruct H as (y & w1 & Hy & H).
    apply bind_returned in H. destruct H as (rest & w2 & Hrest & H).
    inversion H; subst. destruct (IH _ _ _ Hrest) as [Hlen Hall].
    split; [simpl; now rewrite Hlen | constructor; eauto].
Qed.

End MapInversion.

Section WeatherMore.

Import Weather.
Context {callback : Type} {outside : Outside callback}.

(** A round of the polling loop returns, sleeps once and leaves the flag
    and the subscriptions alone. *)
Lemma weather_round_frame (interval : Z) (w : World (WeatherService callback)) :
  fst (_update_loop_body interval w) = Returned tt
  /\ slept (snd (_update_loop_body interval w)) = slept w ++ [interval]
  /\ _should_run (self (snd (_update_loop_body interval w))) = _should_run (self w)
  /\ _subscribers (self (snd (_update_loop_body interval w)))
     = _subscribers (self w).
Proof.
  destruct (get_weather w) as [[wd|e] w1] eqn:E.
  - rewrite (weather_round_after_success interval w wd w1 E). cbn. auto.
  - rewrite (weather_round_after_failure interval w e);
      [cbn; auto | now rewrite E].
Qed.

(** X22: when the weather fetch raises, the round of the polling loop
    ends normally with the error logged and the usual sleep, and the
    service is exactly as before: the cache keeps the last snapshot and
    no subscriber is called. *)
Theorem failed_poll_keeps_weather_cache
    (interval : Z) (w : World (WeatherService callback)) (e : string) :
  fst (get_weather w) = Raised e ->
  fst (_update_loop_body interval w) = Returned tt
  /\ self (snd (_update_loop_body interval w)) = self w
  /\ slept (snd (_update_loop_body interval w)) = slept w ++ [interval]
  /\ In (LogRec LError "Error in weather update loop: {}")
        (logged (snd (_update_loop_body interval w))).
Proof.
  intro Hfail. rewrite (weather_round_after_failure interval w e Hfail).
  cbn. repeat split. apply in_or_app. right. now left.
Qed.

(** X23: the weather polling loop cannot be ended by an exception.
    While [_should_run] is set it runs round after round, each sleeping
    the interval once, whatever the API and the subscribers do; with the
    flag cleared it returns at once, having done nothing. *)
Theorem weather_loop_keeps_going
    (fuel : nat) (interval : Z) (w : World (WeatherService callback)) :
  fst (_update_loop fuel interval w) = Returned tt
  /\ slept (snd (_update_loop fuel interval w))
     = slept w ++ (if _should_run (self w) then repeat interval fuel else [])
  /\ _subscribers (self (snd (_update_loop fuel interval w)))
     = _subscribers (self w)
  /\ (_should_run (self w) = false -> snd (_update_loop fuel interval w) = w).
Proof.
  revert w. induction fuel as [|fuel IH]; intro w.
  - cbn. destruct (_should_run (self w)); rewrite app_nil_r; auto.
  - assert (Hstep : _update_loop (S fuel) interval w
                    = if _should_run (self w)
                      then match _update_loop_body interval w with
                           | (Returned _, w1) => _update_loop fuel interval w1
                           | (Raised e, w1) => (Raised e, w1)
                           end
                      else (Returned tt, w)).
    { cbn [_update_loop]. unfold bind, get_self, ret.
      destruct (_should_run (self w)); reflexivity. }
    rewrite Hstep. clear Hstep.
    destruct (_should_run (self w)) eqn:Hrun.
    + destruct (weather_round_frame interval w) as (Hret & Hsl & Hr & Hsubs).
      destruct (_update_loop_body interval w) as [[[]|e] w1];
        cbn in Hret, Hsl, Hr, Hsubs; [|discriminate].
      destruct (IH w1) as (IH1 & IH2 & IH3 & _).
      rewrite IH1, IH2, IH3, Hsl, Hr, Hrun, Hsubs.
      repeat split; [|discriminate].
      cbn. now rewrite <- app_assoc.
    + cbn. rewrite app_nil_r. auto.
Qed.

(** The dict built for one hour. *)
Lemma hour_dict_returned (data : json) (i : Z)
    (w w' : World (WeatherService callback)) (y : json) :
  (time <- at_ data "hourly" "time" i ;;
   temp_f <- at_ data "hourly" "temperature_2m" i ;;
   chance_of_rain <- at_ data "hourly" "precipitation_probability" i ;;
   wind_mph <- at_ data "hourly" "windspeed_10m" i ;;
   condition <- condition_of data "hourly" i ;;
   is_day <- at_ data "hourly" "is_day" i ;;
   ret (JDict [("time", time); ("temp_f", temp_f);
               ("chance_of_rain", chance_of_rain);
               ("wind_mph", wind_mph); ("condition", condition);
               ("is_day", is_day)])) w = (Returned y, w') ->
  is_hour_entry y.
Proof.
  intro H.
  apply bind_returned in H. destruct H as (a1 & w1 & _ & H).
  apply bind_returned in H. destruct H as (a2 & w2 & _ & H).
  apply bind_returned in H. destruct H as (a3 & w3 & _ & H).
  apply bind_returned in H. destruct H as (a4 & w4 & _ & H).
  apply bind_returned in H. destruct H as (a5 & w5 & _ & H).
  apply bind_returned in H. destruct H as (a6 & w6 & _ & H).
  inversion H; subst. now exists a1, a2, a3, a4, a5, a6.
Qed.

Lemma hourly_data_for_day_returned (data : json) (i : Z)
    (w w' : World (WeatherService callback)) (h : json) :
  _get_hourly_data_for_day data i w = (Returned h, w') ->
  exists hours,
    h = JList hours /\ List.length hours = 24%nat /\ Forall is_hour_entry hours.
Proof.
  unfold _get_hourly_data_for_day. intro H.
  apply bind_returned in H. destruct H as (hours & w1 & Hm & H).
  inversion H; subst. exists hours. split; [reflexivity|].
  eapply map_m_returned in Hm.
  - destruct Hm as [Hlen Hall]. split; [exact Hlen | exact Hall].
  - intros k wa y wb Hy. cbv zeta in Hy.
    eapply hour_dict_returned. exact Hy.
Qed.

(** X24: for a response whose [daily.time] is a list, a forecast that
    [_get_forecast_days] returns has exactly one day for each of its
    dates, and each day carries a date, a summary and twenty-four hourly
    entries: a response with fewer than 24 hours for one of its dates
    gives no forecast at all. *)
Theorem forecast_has_a_day_per_date (data : json) (times : list json)
    (w w' : World (WeatherService callback)) (f : json) :
  daily_times data = Some times ->
  _get_forecast_days data w = (Returned f, w') ->
  exists days,
    f = JList days
    /\ List.length days = List.length times
    /\ Forall is_forecast_day days.
Proof.
  unfold _get_forecast_days. intros Htimes H.
  apply bind_returned in H. destruct H as (daily & w1 & H1 & H).
  apply bind_returned in H. destruct H as (ts & w2 & H2 & H).
  apply bind_returned in H. destruct H as (n & w3 & H3 & H).
  apply bind_returned in H. destruct H as (days & w4 & Hm & H).
  inversion H; subst f w4. clear H.
  unfold daily_times in Htimes.
  unfold getitem in H1. destruct data as [| | | | |d]; try discriminate.
  destruct (lookup "daily" d) as [x|] eqn:Ed; [|discriminate].
  inversion H1; subst x w1. clear H1.
  unfold getitem in H2. destruct daily as [| | | | |dd]; try discriminate.
  destruct (lookup "time" dd) as [x|] eqn:Et; [|discriminate].
  inversion H2; subst x w2. clear H2.
  unfold len in H3. destruct ts as [| | | |ts|]; try discriminate.
  inversion H3; subst n w3. clear H3.
  inversion Htimes; subst times. clear Htimes.
  exists days. repeat split.
  - eapply map_m_returned in Hm.
    + destruct Hm as [Hlen _]. rewrite Hlen. apply length_seq.
    + intros; exact I.
  - eapply map_m_returned in Hm.
    + destruct Hm as [_ Hall]. exact Hall.
    + intros k wa y wb Hy. cbv zeta in Hy.
      apply bind_returned in Hy. destruct Hy as (a1 & v1 & _ & Hy).
      apply bind_returned in Hy. destruct Hy as (a2 & v2 & _ & Hy).
      apply bind_returned in Hy. destruct Hy as (a3 & v3 & _ & Hy).
      apply bind_returned in Hy. destruct Hy as (a4 & v4 & _ & Hy).
      apply bind_returned in Hy. destruct Hy as (a5 & v5 & _ & Hy).
      apply bind_returned in Hy. destruct Hy as (hr & v6 & Hh & Hy).
      inversion Hy; subst.
      destruct (hourly_data_for_day_returned _ _ _ _ _ Hh)
        as (hours & -> & Hlen & Hall).
      eexists. eexists. exists hours. split; [reflexivity|]. split; assumption.
Qed.

End WeatherMore.

Section QueryFacts.

Import Weather WeatherQueries.
Context {callback : Type} {outside : Outside callback} {calendar : Calendar}.

Lemma keeps_contains (key : string) (j : json) :
  keeps_self (contains (C:=WeatherService callback) key j).
Proof. unfold contains. destruct j; keeps. Qed.

(** The comprehension of [get_next_commutes] either filters the whole
    list or raises on a forecast without a date; it touches nothing. *)
Lemma not_dated_spec (day : string) (l : list json)
    (w : World (WeatherService callback)) :
  (forallb has_date l = true
   /\ not_dated day l w
      = (Returned (filter (fun f => negb (dated day f)) l), w))
  \/ (forallb has_date l = false /\ exists e, not_dated day l w = (Raised e, w)).
Proof.
  induction l as [|f l IH].
  - left. split; reflexivity.
  - assert (Hstep :
      not_dated day (f :: l) w
      = match f with
        | JDict items =>
            match lookup "date" items with
            | Some d =>
                match not_dated day l w with
                | (Returned rest, w1) =>
                    (Returned (if json_eqb d (JStr day) then rest else f :: rest),
                     w1)
                | (Raised e, w1) => (Raised e, w1)
                end
            | None => (Raised "KeyError", w)
            end
        | _ => (Raised "TypeError", w)
        end).
    { cbn [not_dated]. unfold bind, getitem, ret, raise.
      destruct f as [| | | | |items]; try reflexivity.
      destruct (lookup "date" items); reflexivity. }
    rewrite Hstep. clear Hstep. cbn [forallb filter]. unfold has_date at 1 3.
    unfold dated at 1.
    destruct f as [| | | | |items];
      try (right; split; [reflexivity | eexists; reflexivity]).
    destruct (lookup "date" items) as [d|];
      [|right; split; [reflexivity | eexists; reflexivity]].
    cbn [andb].
    destruct IH as [[Hall Heq] | [Hall [e Heq]]]; rewrite Heq.
    + left. split; [exact Hall|].
      destruct (json_eqb d (JStr day)); reflexivity.
    + right. split; [exact Hall|]. now exists e.
Qed.

(** X25: [get_next_commutes] never raises, whatever the cache holds and
    whatever [_get_commute_forecasts] does, and it leaves the service as
    it found it. *)
Theorem next_commutes_never_raises
    (include_today : bool) (w : World (WeatherService callback)) :
  exists forecasts,
    fst (get_next_commutes include_today w) = Returned forecasts
    /\ self (snd (get_next_commutes include_today w)) = self w.
Proof.
  assert (Hk : keeps_self (get_next_commutes include_today)).
  { unfold get_next_commutes.
    apply keeps_bind; [keeps|]. intro s.
    destruct (negb (truthy (_current_data s))); [keeps|].
    apply keeps_try_except; [|keeps].
    apply keeps_bind; [apply keeps_contains|]. intros [|]; [|keeps].
    apply keeps_bind; [keeps|]. intro forecasts.
    destruct (negb include_today); [|keeps].
    apply keeps_bind; [keeps|]. intro n.
    destruct forecasts as [| | |s0|l|d]; try solve [keeps].
    apply keeps_bind; [|keeps].
    intro w0. destruct (not_dated_spec (today n) l w0)
      as [[_ Heq] | [_ [e Heq]]]; rewrite Heq; split; reflexivity. }
  destruct (Hk w) as [Hself _].
  assert (Hret : exists j, fst (get_next_commutes include_today w) = Returned j).
  { unfold get_next_commutes. unfold bind at 1. unfold get_self at 1.
    destruct (negb (truthy (_current_data (self w)))).
    - eexists. reflexivity.
    - unfold try_except.
      match goal with
      | |- context [match ?m with _ => _ end] => destruct m as [[j|e] w1]
      end; eexists; reflexivity. }
  destruct Hret as [j Hj]. exists j. split; assumption.
Qed.

(** X26: with a list of commute forecasts in the cache and
    [include_today=False], [get_next_commutes] returns the forecasts not
    dated today, in their order, when every forecast carries a date;
    and the empty list when one of them does not. *)
Theorem next_commutes_drop_today
    (w : World (WeatherService callback))
    (d : list (string * json)) (l : list json) :
  _current_data (self w) = JDict d ->
  lookup "commute_forecasts" d = Some (JList l) ->
  fst (get_next_commutes false w)
  = Returned
      (JList (if forallb has_date l
              then filter (fun f => negb (dated (today (ticks w)) f)) l
              else [])).
Proof.
  destruct w as [n lg sl [ss run cur inv]]. cbn [self _current_data ticks].
  intros -> Hl.
  assert (Hd : truthy (JDict d) = true).
  { destruct d; [discriminate | reflexivity]. }
  unfold get_next_commutes.
  unfold bind at 1. unfold get_self at 1. cbn [self _current_data].
  rewrite Hd. cbn [negb].
  unfold try_except, contains, getitem. rewrite Hl.
  unfold bind at 1. unfold ret at 1.
  unfold bind at 1. unfold ret at 1. cbn [negb].
  unfold bind at 1. unfold tick at 1. cbn [ticks].
  unfold bind at 1.
  match goal with
  | |- context [not_dated ?day l ?w0] =>
      destruct (not_dated_spec day l w0) as [[Hall Heq] | [Hall [e Heq]]];
      rewrite Heq, Hall
  end; reflexivity.
Qed.

Lemma keeps_hour_entry (cd : json) (i : Z) :
  keeps_self (hour_entry (callback:=callback) cd i).
Proof.
  unfold hour_entry.
  repeat first [ apply keeps_condition_of | apply keeps_at | keeps_step ].
Qed.

Lemma collect_hours_returned (cd : json) (hours : list Z) :
  forall (w w' : World (WeatherService callback)) (l : list json),
    collect_hours cd hours w = (Returned l, w') ->
    (List.length l <= List.length hours)%nat
    /\ Forall is_hour_entry l
    /\ self w' = self w /\ slept w' = slept w.
Proof.
  induction hours as [|i hours IH]; intros w w' l H; simpl in H.
  - inversion H; subst. repeat split; constructor.
  - apply bind_returned in H. destruct H as (h & w1 & H1 & H).
    apply bind_returned in H. destruct H as (t & w2 & H2 & H).
    apply bind_returned in H. destruct H as (n & w3 & H3 & H).
    pose proof (keeps_getitem cd "hourly" w) as K1. rewrite H1 in K1.
    pose proof (keeps_getitem h "time" w1) as K2. rewrite H2 in K2.
    pose proof (keeps_len t w2) as K3. rewrite H3 in K3.
    cbn [snd] in K1, K2, K3.
    destruct K1 as [K1 K1'], K2 as [K2 K2'], K3 as [K3 K3'].
    destruct (Z.of_nat n <=? i).
    + inversion H; subst. repeat split;
        [simpl; lia | apply Forall_nil | congruence | congruence].
    + apply bind_returned in H. destruct H as (entry & w4 & H4 & H).
      apply bind_returned in H. destruct H as (rest & w5 & H5 & H).
      inversion H; subst l w5. clear H.
      pose proof (keeps_hour_entry cd i w3) as K4. rewrite H4 in K4.
      cbn [snd] in K4. destruct K4 as [K4 K4'].
      destruct (IH _ _ _ H5) as (Hlen & Hall & Hs & Hsl).
      repeat split.
      * simpl. lia.
      * constructor; [|exact Hall]. unfold hour_entry in H4.
        eapply hour_dict_returned. exact H4.
      * congruence.
      * congruence.
Qed.

(** X27: what [get_next_hours_forecast] returns has at most [hours]
    entries, each the dict of one hour, and the service is left as it
    was: nothing is cached, no subscriber is called. *)
Theorem hours_forecast_is_bounded (hours : Z)
    (w w' : World (WeatherService callback)) (l : list json) :
  get_next_hours_forecast hours w = (Returned l, w') ->
  (List.length l <= Z.to_nat hours)%nat
  /\ Forall is_hour_entry l
  /\ self w' = self w.
Proof.
  unfold get_next_hours_forecast. intro H.
  apply bind_returned in H. destruct H as (s & w1 & H1 & H).
  unfold get_self in H1. inversion H1; subst s w1. clear H1.
  apply bind_returned in H. destruct H as (has & w2 & H2 & H).
  assert (K2 : self w2 = self w /\ slept w2 = slept w).
  { destruct (truthy (_current_data (self w))).
    - pose proof (keeps_contains "hourly" (_current_data (self w)) w) as K.
      now rewrite H2 in K.
    - inversion H2; subst. split; reflexivity. }
  destruct K2 as [K2 K2'].
  destruct (negb has).
  - apply bind_returned in H. destruct H as (u & w3 & H3 & H).
    inversion H; subst. unfold log in H3. inversion H3; subst.
    repeat split; [simpl; lia | constructor | exact K2].
  - apply bind_returned in H. destruct H as (n & w3 & H3 & H).
    unfold tick in H3. inversion H3; subst n w3. clear H3.
    apply collect_hours_returned in H.
    destruct H as (Hlen & Hall & Hs & _). cbn [self] in Hs.
    unfold range_from in Hlen. rewrite length_map, length_seq in Hlen.
    repeat split; [exact Hlen | exact Hall | congruence].
Qed.

End QueryFacts.

(* ================================================================== *)
(** * Icons, the train list of the layout, the geometry of the screen  *)
(* ================================================================== *)

Section TableFacts.

Lemma table_get_in {V} (t : list (float * V)) (k : float) (default : V) :
  In (Weather.table_get t k default) (default :: map snd t).
Proof.
  induction t as [|[k' v] t IH]; simpl.
  - now left.
  - destruct (PrimFloat.eqb k k').
    + right. now left.
    + destruct IH as [IH|IH]; [now left | right; now right].
Qed.

(** Every code the table of [_map_condition_code] can give, its default
    included, is a key of the icon table. *)
Lemma code_map_lands_in_switcher :
  Forall (fun c => exists dir,
              Weather.table_get Utils.switcher c None = Some dir)
         (1000%float :: map snd Weather.code_map).
Proof.
  repeat (constructor; [eexists; vm_compute; reflexivity|]). constructor.
Qed.

End TableFacts.

Section IconFacts.

Context {callback : Type}.

(** X28: whatever WMO code the API sends, the condition code that
    [_map_condition_code] returns for it has an icon directory:
    [mapWeatherCodeToWeatherIconDir] never answers [None] on it. *)
Theorem every_condition_code_has_an_icon
    (wmo_code code : json) (w w' : World (Weather.WeatherService callback)) :
  Weather._map_condition_code wmo_code w = (Returned code, w') ->
  exists dir,
    Utils.mapWeatherCodeToWeatherIconDir code w' = (Returned (Some dir), w').
Proof.
  unfold Weather._map_condition_code. intro H.
  apply bind_returned in H. destruct H as (c & w1 & Hc & H).
  inversion H; subst code w1. clear H.
  assert (Hin : In c (1000%float :: map snd Weather.code_map)).
  { assert (Hkey : exists k, c = Weather.table_get Weather.code_map k 1000%float
                             \/ c = 1000%float).
    { unfold Weather.dict_get in Hc.
      destruct wmo_code as [|b|x|s|l|d]; unfold ret, raise in Hc;
        try discriminate.
      - exists 0%float. right. congruence.
      - exists (float_of_bool b). left. congruence.
      - exists x. left. congruence.
      - exists 0%float. right. congruence. }
    destruct Hkey as [k [-> | ->]]; [apply table_get_in | now left]. }
  pose proof code_map_lands_in_switcher as Hall.
  rewrite Forall_forall in Hall. destruct (Hall c Hin) as [dir Hdir].
  exists dir. unfold Utils.mapWeatherCodeToWeatherIconDir, Weather.dict_get, ret.
  now rewrite Hdir.
Qed.

End IconFacts.

Section LayoutFacts.

Import Subway.

Lemma filter_twice {A} (p q : A -> bool) (l : list A) :
  filter q (filter p l) = filter (fun x => q x && p x) l.
Proof.
  induction l as [|x l IH]; simpl; [reflexivity|].
  destruct (p x); simpl.
  - destruct (q x); simpl; now rewrite IH.
  - now rewrite andb_false_r.
Qed.

(** X29: for a non-negative [max_trains], [filter_trains] is the first
    [max_trains] trains among those due in 1 to 40 minutes, in the order
    of the list; the [max(3, ...)] slice in between changes nothing. *)
Theorem filter_trains_is_a_window
    (train_list : list TrainArrival) (max_trains : Z) :
  0 <= max_trains ->
  Layout.filter_trains train_list max_trains
  = firstn (Z.to_nat max_trains)
           (filter (fun t => (1 <=? minutes_until_arrival t)
                             && (minutes_until_arrival t <=? 40))
                   train_list).
Proof.
  intro Hm. unfold Layout.filter_trains. rewrite filter_twice.
  set (l := filter _ train_list).
  assert (Hslice : forall (l0 : list TrainArrival) k,
             0 <= k -> Layout.slice_to l0 k = firstn (Z.to_nat k) l0).
  { intros l0 k Hk. unfold Layout.slice_to.
    destruct (k <? 0) eqn:E; [apply Z.ltb_lt in E; lia | reflexivity]. }
  rewrite (Hslice l (Z.max 3 (Z.of_nat (List.length l)))) by lia.
  rewrite (firstn_all2 (n := Z.to_nat (Z.max 3 (Z.of_nat (List.length l)))))
    by lia.
  rewrite Hslice by lia.
  destruct (Z_le_gt_dec max_trains (Z.of_nat (List.length l))) as [Hle|Hgt].
  - now rewrite Z.min_l by assumption.
  - rewrite Z.min_r by lia. rewrite Nat2Z.id.
    rewrite firstn_all. symmetry. apply firstn_all2. lia.
Qed.

End LayoutFacts.

Section ConfigFacts.

Import Config.

(** X30: for a screen of non-negative size, the header, the train
    section and the weather section computed by [DisplayConfig] follow
    one another from the top and fill the height exactly, none of
    negative height; the main section and the vertical lane fill the
    width; and the two train rows of [SubwayConfig] lie inside the train
    section, the first above the second. *)
Theorem sections_tile_the_screen (width height : Z) :
  0 <= width -> 0 <= height ->
  let d := DisplayConfig_init width height in
  let s := SubwayConfig_init d in
  HEADER_Y d = 0
  /\ 0 <= HEADER_HEIGHT d
  /\ TRAIN_SECTION_Y d = HEADER_Y d + HEADER_HEIGHT d
  /\ 0 <= TRAIN_SECTION_HEIGHT d
  /\ WEATHER_SECTION_Y d = TRAIN_SECTION_Y d + TRAIN_SECTION_HEIGHT d
  /\ 0 <= WEATHER_SECTION_HEIGHT d
  /\ WEATHER_SECTION_Y d + WEATHER_SECTION_HEIGHT d = HEIGHT d
  /\ 0 <= VERTICAL_LANE_WIDTH d
  /\ 0 <= MAIN_SECTION_WIDTH d
  /\ VERTICAL_LANE_X d + VERTICAL_LANE_WIDTH d = WIDTH d
  /\ SECTION_Y s <= F_TRAIN_Y s
  /\ F_TRAIN_Y s <= G_TRAIN_Y s
  /\ G_TRAIN_Y s <= SECTION_Y s + SECTION_HEIGHT s.
Proof.
  intros Hw Hh. cbn.
  pose proof (Z.div_pos height 9 Hh ltac:(lia)) as H9.
  assert (H3 : 0 <= height * 2 / 3) by (apply Z.div_pos; lia).
  assert (Hv : 0 <= width / 3) by (apply Z.div_pos; lia).
  assert (H2 : 0 <= height * 2 / 3 / 2) by (apply Z.div_pos; lia).
  assert (H4 : 0 <= height * 2 / 3 / 4) by (apply Z.div_pos; lia).
  repeat split; try lia.
  all: Z.to_euclidean_division_equations; lia.
Qed.

End ConfigFacts.

(* ================================================================== *)
(** * More on the redraw scheduler                                     *)
(* ================================================================== *)

Section SchedMore.

Import Subway Sched.
Context {clock : Clock} {outside : Sink.Outside}.

#[local] Arguments _check_display_update : simpl never.
#[local] Arguments _update_display : simpl never.

Ltac world w :=
  destruct w as [n lg sl [[be nf] [wd td ldu lwc ldc] mi prev]].

(** X1: the change detector answers [False] exactly when the current
    pair has a first train and both positions agree with the previous
    pair on train id and minutes. *)
Theorem significant_change_exactly (previous current : TopTwo) :
  _has_significant_change previous current = false
  <-> is_some (fst current) = true
      /\ same_slot (fst previous) (fst current) = true
      /\ same_slot (snd previous) (snd current) = true.
Proof.
  destruct previous as [[p1|] [p2|]], current as [[c1|] [c2|]];
    unfold _has_significant_change, same_slot, TrainArrival_eq; simpl;
    repeat match goal with
           | |- context [String.eqb ?a ?b] => destruct (String.eqb a b)
           | |- context [(?a =? ?b)%Z] => destruct (a =? b)%Z
           end; simpl; split; intros; intuition discriminate.
Qed.

(** X2: the first evaluation after both fields are set asks for a
    redraw, forced or not and whatever the clocks say. *)
Theorem first_evaluation_redraws
    (force : bool) (w : World Runner) (t : list TrainArrival) (img : Sink.Image) :
  truthy (weather_data (state (self w))) = true ->
  train_data (state (self w)) = Some t ->
  PrimFloat.eqb (last_display_update (state (self w))) 0 = true ->
  Sink.getImage (weather_data (state (self w))) t (S (ticks w)) = Some img ->
  let w' := snd (_check_display_update force w) in
  redraw_requests w' = S (redraw_requests w)
  /\ Sink.next_frame (display (self w')) = Some (img, true, false)
  /\ last_display_update (state (self w')) = time_time (S (S (ticks w)))
  /\ _previous_top_trains (self w') = _get_top_two_trains t.
Proof.
  world w. simpl. intros Hwd Htd Hldu Himg. subst td.
  rewrite check_display_update_spec. rewrite Hwd, Hldu. simpl.
  rewrite update_display_spec, Himg. simpl.
  repeat split.
  unfold redraw_requests. simpl. rewrite filter_app, length_app. simpl. lia.
Qed.

(** X3: a non-forced evaluation that comes before [min_interval] has
    passed since the last redraw, and before 3500 seconds have passed
    since the last clear, reads the clock and does nothing else. *)
Theorem evaluation_inside_interval_is_absorbed
    (w : World Runner) (t : list TrainArrival) :
  truthy (weather_data (state (self w))) = true ->
  train_data (state (self w)) = Some t ->
  PrimFloat.eqb (last_display_update (state (self w))) 0 = false ->
  PrimFloat.leb 3500 (time_time (ticks w) - last_display_clear (state (self w)))
  = false ->
  PrimFloat.leb (min_interval (self w))
                (time_time (ticks w) - last_display_update (state (self w)))
  = false ->
  _check_display_update false w
  = (Returned tt, mkWorld (S (ticks w)) (logged w) (slept w) (self w)).
Proof.
  world w. simpl. intros Hwd Htd Hldu Hclear Hinterval. subst td.
  rewrite check_display_update_spec. rewrite Hwd, Hldu, Hclear, Hinterval.
  reflexivity.
Qed.

(** X4: a non-forced evaluation made in minute 0, 3500 seconds or more
    after the last clear, asks for a redraw with [clear=True] and moves
    [last_display_clear] to the time read after the request. *)
Theorem hourly_clear_redraws_with_clear
    (w : World Runner) (t : list TrainArrival) (img : Sink.Image) :
  truthy (weather_data (state (self w))) = true ->
  train_data (state (self w)) = Some t ->
  PrimFloat.eqb (last_display_update (state (self w))) 0 = false ->
  PrimFloat.leb 3500 (time_time (ticks w) - last_display_clear (state (self w)))
  = true ->
  now_minute (S (ticks w)) = 0 ->
  Sink.getImage (weather_data (state (self w))) t (S (S (ticks w))) = Some img ->
  let w' := snd (_check_display_update false w) in
  Sink.next_frame (display (self w')) = Some (img, true, true)
  /\ last_display_clear (state (self w')) = time_time (S (S (S (ticks w))))
  /\ last_display_update (state (self w')) = time_time (S (S (S (S (ticks w))))).
Proof.
  world w. simpl. intros Hwd Htd Hldu Hclear Hminute Himg. subst td.
  rewrite check_display_update_spec. rewrite Hwd, Hldu, Hclear, Hminute. simpl.
  rewrite update_display_spec, Himg. simpl. auto.
Qed.

(** [_update_display] never raises. *)
Lemma update_display_returns (clear : bool) (w : World Runner) :
  fst (_update_display clear w) = Returned tt.
Proof.
  unfold _update_display, try_except.
  match goal with
  | |- fst (match ?b with _ => _ end) = _ => destruct b as [[[]|e] w1]
  end; reflexivity.
Qed.

(** [_check_display_update] never raises. *)
Lemma check_display_update_returns (force : bool) (w : World Runner) :
  fst (_check_display_update force w) = Returned tt.
Proof.
  world w. rewrite check_display_update_spec.
  repeat match goal with
         | |- context [if ?b then _ else _] => destruct b
         end;
    first [ reflexivity | apply update_display_returns ].
Qed.

(** X5: whatever arrives, the handler returns normally: no weather
    update, train update, heartbeat or writer round ends in an
    exception. *)
Theorem handlers_never_raise (e : event) (w : World Runner) :
  fst (handle e w) = Returned tt.
Proof.
  world w. destruct e as [weather | trains | | ]; cbn [handle].
  - rewrite weather_update_spec. apply check_display_update_returns.
  - rewrite train_update_spec. unfold try_except.
    match goal with
    | |- context [_check_display_update ?f ?w1] =>
        pose proof (check_display_update_returns f w1) as H;
        destruct (_check_display_update f w1) as [[[]|err] w2]
    end; [reflexivity | discriminate].
  - rewrite heartbeat_spec. apply check_display_update_returns.
  - unfold writer_round, on_display, zoom.
    match goal with
    | |- context [Sink._process_queue_body ?w1] =>
        pose proof (process_queue_body_returns w1) as H;
        destruct (Sink._process_queue_body w1) as [o w2]
    end. exact H.
Qed.

(** X6: an evaluation either leaves the scheduler exactly as it was or
    has called [Display.update]: timestamps, pending frame and comparison
    baseline move only on a redraw request. *)
Theorem evaluation_changes_nothing_or_requests (force : bool) (w : World Runner) :
  self (snd (_check_display_update force w)) = self w
  \/ redraw_requests (snd (_check_display_update force w))
     = S (redraw_requests w).
Proof.
  world w. rewrite check_display_update_spec.
  assert (Hreq : forall c k,
            td <> None ->
            redraw_requests
              (snd (_update_display c
                      (mkWorld k lg sl
                         (mkRunner (Sink.mkDisplay be nf)
                                   (mkState wd td ldu lwc ldc) mi prev))))
            = S (redraw_requests
                   (mkWorld n lg sl
                      (mkRunner (Sink.mkDisplay be nf)
                                (mkState wd td ldu lwc ldc) mi prev)))).
  { intros c k Htd. destruct td as [t|]; [|congruence].
    rewrite update_display_spec.
    destruct (Sink.getImage wd t k); unfold redraw_requests; simpl;
      rewrite filter_app, length_app; simpl; lia. }
  destruct td as [t|]; [|left; rewrite orb_true_r; reflexivity].
  repeat match goal with
         | |- context [if ?b then _ else _] => destruct b
         end;
    first [ left; reflexivity | right; apply Hreq; discriminate ].
Qed.

(** X7: after the first redraw, a train update whose top two agree with
    the baseline, arriving inside [min_interval] and before a clear is
    due, is absorbed: the list is stored and nothing else moves. *)
Theorem unchanged_train_update_is_absorbed
    (trains : list TrainArrival) (w : World Runner) :
  truthy (weather_data (state (self w))) = true ->
  PrimFloat.eqb (last_display_update (state (self w))) 0 = false ->
  _has_significant_change (_previous_top_trains (self w))
                          (_get_top_two_trains trains) = false ->
  PrimFloat.leb 3500 (time_time (S (ticks w)) - last_display_clear (state (self w)))
  = false ->
  PrimFloat.leb (min_interval (self w))
                (time_time (S (ticks w)) - last_display_update (state (self w)))
  = false ->
  let w' := snd (handle_train_update trains w) in
  self w' = set_state (set_train_data trains) (self w)
  /\ redraw_requests w' = redraw_requests w.
Proof.
  world w. simpl. intros Hwd Hldu Hsame Hclear Hinterval.
  rewrite train_update_spec. rewrite Hsame. unfold try_except.
  rewrite check_display_update_spec. rewrite Hwd, Hldu, Hclear, Hinterval.
  cbv beta iota zeta delta [negb orb is_some snd fst].
  split; [reflexivity|].
  unfold redraw_requests. cbn [logged].
  rewrite !filter_app, train_lines_are_no_requests. simpl.
  now rewrite ?app_nil_r.
Qed.

(** X8: once the weather is set, a train update with an empty list asks
    for a redraw at once, whatever the baseline and the clocks are. *)
Theorem empty_train_list_redraws (w : World Runner) (img : Sink.Image) :
  truthy (weather_data (state (self w))) = true ->
  Sink.getImage (weather_data (state (self w))) [] (S (S (ticks w))) = Some img ->
  let w' := snd (handle_train_update [] w) in
  Sink.next_frame (display (self w')) = Some (img, true, false)
  /\ train_data (state (self w')) = Some []
  /\ _previous_top_trains (self w') = (None, None).
Proof.
  world w. simpl. intros Hwd Himg.
  rewrite train_update_spec. unfold try_except.
  assert (Hsig : _has_significant_change prev (_get_top_two_trains []) = true).
  { unfold _has_significant_change. simpl. destruct (fst prev); reflexivity. }
  rewrite Hsig. rewrite check_display_update_spec. rewrite Hwd. simpl.
  destruct (PrimFloat.eqb ldu 0);
    rewrite update_display_spec, Himg; simpl; auto.
Qed.

End SchedMore.

(* ================================================================== *)
(** * The further properties at work on concrete inputs                *)
(* ================================================================== *)

(** X2 at work: both fields set, nothing drawn yet: a plain evaluation
    queues the frame. *)
Lemma first_evaluation_redraws_witness :
  PrimFloat.eqb
    (Sched.last_display_update (Sched.state (self runner_never_drawn))) 0 = true
  /\ Sink.next_frame
       (Sched.display
          (self (snd (Sched._check_display_update (clock:=clock_seven_past)
                        (outside:=sink_ready) false runner_never_drawn))))
     = Some ([[2]], true, false).
Proof.
  split; [reflexivity|].
  destruct (first_evaluation_redraws (clock:=clock_seven_past) (outside:=sink_ready)
              false runner_never_drawn [train_a; train_b] [[2]]
              eq_refl eq_refl eq_refl eq_refl) as (_ & Hslot & _).
  exact Hslot.
Defined.

(** X3 at work: a quarter of a second after the last redraw and ten
    minutes after the last clear, an evaluation only reads the clock. *)
Lemma evaluation_inside_interval_is_absorbed_witness :
  Sched._check_display_update (clock:=clock_seven_past) (outside:=sink_ready)
    false runner_fresh
  = (Returned tt, mkWorld 1 [] [] (self runner_fresh)).
Proof.
  exact (evaluation_inside_interval_is_absorbed
           (clock:=clock_seven_past) (outside:=sink_ready)
           runner_fresh [train_a; train_b]
           eq_refl eq_refl eq_refl eq_refl eq_refl).
Defined.

(** X4 at work: on the hour, an hour after the last clear, the frame is
    queued with a clear. *)
Lemma hourly_clear_redraws_with_clear_witness :
  Sched.now_minute (Clock:=clock_on_the_hour) 1 = 0
  /\ Sink.next_frame
       (Sched.display
          (self (snd (Sched._check_display_update (clock:=clock_on_the_hour)
                        (outside:=sink_ready) false runner_stale_clear))))
     = Some ([[2]], true, true).
Proof.
  split; [reflexivity|].
  destruct (hourly_clear_redraws_with_clear
              (clock:=clock_on_the_hour) (outside:=sink_ready)
              runner_stale_clear [train_a; train_b] [[2]]
              eq_refl eq_refl eq_refl eq_refl eq_refl eq_refl) as (Hslot & _).
  exact Hslot.
Defined.

(** X7 at work: the same two trains again, a quarter of a second after
    the last redraw: no redraw is asked for. *)
Lemma unchanged_train_update_is_absorbed_witness :
  Sched._has_significant_change (Some train_a, Some train_b)
    (Sched._get_top_two_trains [train_a; train_b]) = false
  /\ Sched.redraw_requests
       (snd (Sched.handle_train_update (clock:=clock_seven_past)
               (outside:=sink_ready) [train_a; train_b] runner_fresh))
     = 0%nat.
Proof.
  split; [reflexivity|].
  destruct (unchanged_train_update_is_absorbed
              (clock:=clock_seven_past) (outside:=sink_ready)
              [train_a; train_b] runner_fresh
              eq_refl eq_refl eq_refl eq_refl eq_refl) as (_ & Hreq).
  exact Hreq.
Defined.

(** X8 at work: an empty train list ten seconds after the last redraw
    queues a frame all the same. *)
Lemma empty_train_list_redraws_witness :
  Sink.next_frame
    (Sched.display
       (self (snd (Sched.handle_train_update (clock:=clock_seven_past)
                     (outside:=sink_ready) [] runner_stale_clear))))
  = Some ([[0]], true, false).
Proof.
  destruct (empty_train_list_redraws (clock:=clock_seven_past) (outside:=sink_ready)
              runner_stale_clear [[0]] eq_refl eq_refl) as (Hslot & _).
  exact Hslot.
Defined.

(** X9 at work: the panel refuses the draw; the frame is still in the
    slot after the round, and the round has not slept. *)
Lemma failed_write_keeps_frame_pending_witness :
  fst (Sink.backend_update (outside:=sink_panel_down) dot3 true false sink_pending)
  = Raised "IT8951 error"
  /\ Sink.next_frame
       (self (snd (Sink._process_queue_body (outside:=sink_panel_down) sink_pending)))
     = Some (dot3, true, false)
  /\ slept (snd (Sink._process_queue_body (outside:=sink_panel_down) sink_pending))
     = [].
Proof.
  assert (H : fst (Sink.backend_update (outside:=sink_panel_down)
                     dot3 true false sink_pending) = Raised "IT8951 error")
    by (vm_compute; reflexivity).
  split; [exact H|].
  destruct (failed_write_keeps_frame_pending (outside:=sink_panel_down)
              dot3 true false sink_pending "IT8951 error" eq_refl H)
    as (_ & Hslot & Hslept & _).
  split; [exact Hslot | exact Hslept].
Defined.

(** X10 at work: the renderer raises and the sink is as before. *)
Lemma failed_render_keeps_slot_witness :
  fst (Sink.update (outside:=sink_broken_renderer) snapshot0 [train_a] true false
         sink_idle) = Raised "render error"
  /\ self (snd (Sink.update (outside:=sink_broken_renderer) snapshot0 [train_a]
                  true false sink_idle)) = self sink_idle.
Proof.
  exact (failed_render_keeps_slot (outside:=sink_broken_renderer)
           snapshot0 [train_a] true false sink_idle eq_refl).
Defined.

(** X13 at work: the bitmap on display is sent again with
    [partial=True]: it is written in full. *)
Lemma first_or_identical_frame_is_written_in_full_witness :
  Sink.eink_update (outside:=sink_ready) white3 true false (eink_showing white3)
  = eink_write (outside:=sink_ready)
      (Sink._update_display (outside:=sink_ready) white3 false) white3
      (eink_showing white3).
Proof.
  exact (first_or_identical_frame_is_written_in_full (outside:=sink_ready)
           white3 true false (eink_showing white3) (or_intror eq_refl)).
Defined.

(** X14 at work: a partial write of the centre pixel turns the centre
    black and leaves the corner white. *)
Lemma partial_write_touches_only_the_box_witness :
  pixel_after_partial_write 1 1 = 0 /\ pixel_after_partial_write 0 0 = 255.
Proof.
  assert (H1 : on_canvas (Sink.frame_buf (self (eink_showing white3))) 1 1)
    by (unfold on_canvas; simpl; lia).
  assert (H0 : on_canvas (Sink.frame_buf (self (eink_showing white3))) 0 0)
    by (unfold on_canvas; simpl; lia).
  split.
  - exact (partial_write_touches_only_the_box (outside:=sink_ready)
             dot3 (1, 1, 2, 2) (eink_showing white3) 1 1 H1).
  - exact (partial_write_touches_only_the_box (outside:=sink_ready)
             dot3 (1, 1, 2, 2) (eink_showing white3) 0 0 H0).
Defined.

(** X15 at work: after a full write of the bitmap with a black centre,
    the centre of the frame buffer is black. *)
Lemma full_write_shows_the_image_witness :
  fst (Sink._update_display (outside:=sink_ready) dot3 false (eink_showing white3))
  = Returned tt
  /\ Sink.pixel
       (Sink.frame_buf
          (self (snd (Sink._update_display (outside:=sink_ready) dot3 false
                        (eink_showing white3))))) 1 1
     = 0.
Proof.
  assert (H : fst (Sink._update_display (outside:=sink_ready) dot3 false
                     (eink_showing white3)) = Returned tt)
    by (vm_compute; reflexivity).
  assert (H1 : on_canvas (Sink.frame_buf (self (eink_showing white3))) 1 1)
    by (unfold on_canvas; simpl; lia).
  assert (H2 : on_canvas dot3 1 1) by (unfold on_canvas; simpl; lia).
  split; [exact H|].
  exact (full_write_shows_the_image (outside:=sink_ready)
           dot3 false (eink_showing white3) 1 1 H H1 H2).
Defined.

(** X17 at work: of two F trips and one G trip, the two that say when
    they reach the station are returned, the G train first. *)
Lemma upcoming_trains_are_complete_witness :
  exists l,
    fst (Subway.get_upcoming_trains (outside:=feed_up) subway_cold) = Returned l
    /\ Permutation (map Subway.train_id l) ["F-001"; "G-007"].
Proof.
  exact (upcoming_trains_are_complete (outside:=feed_up) subway_cold
           [trip_f1; trip_f2] [trip_g7] eq_refl eq_refl).
Defined.

(** X22 at work: the API is down: the snapshot stays in the cache and
    the subscriber is not called. *)
Lemma failed_poll_keeps_weather_cache_witness :
  fst (Weather.get_weather (outside:=weather_down) weather_warm)
  = Raised "RequestException"
  /\ self (snd (Weather._update_loop_body (outside:=weather_down) 300 weather_warm))
     = self weather_warm.
Proof.
  assert (H : fst (Weather.get_weather (outside:=weather_down) weather_warm)
              = Raised "RequestException")
    by (vm_compute; reflexivity).
  split; [exact H|].
  destruct (failed_poll_keeps_weather_cache (outside:=weather_down)
              300 weather_warm "RequestException" H) as (_ & Hself & _).
  exact Hself.
Defined.

(** X24 at work: a response with one date and twenty-four hours gives a
    forecast of one day. *)
Lemma forecast_has_a_day_per_date_witness :
  daily_times response_one_day = Some [JStr "2024-01-01"]
  /\ exists days,
      forecast_one_day = JList days
      /\ List.length days = 1%nat
      /\ Forall is_forecast_day days.
Proof.
  assert (H : Weather._get_forecast_days response_one_day weather_cold
              = (Returned forecast_one_day, weather_cold))
    by (vm_compute; reflexivity).
  split; [reflexivity|].
  exact (forecast_has_a_day_per_date response_one_day [JStr "2024-01-01"]
           weather_cold weather_cold forecast_one_day eq_refl H).
Defined.

(** X26 at work: of a forecast for today and one for tomorrow, the one
    for tomorrow is returned. *)
Lemma next_commutes_drop_today_witness :
  fst (WeatherQueries.get_next_commutes (outside:=steady_weather)
         (calendar:=new_year_midnight) false weather_with_commutes)
  = Returned (JList [commute_tomorrow]).
Proof.
  exact (next_commutes_drop_today (outside:=steady_weather)
           (calendar:=new_year_midnight) weather_with_commutes
           [("commute_forecasts", JList [commute_today; commute_tomorrow])]
           [commute_today; commute_tomorrow] eq_refl eq_refl).
Defined.

(** X27 at work: twelve hours are asked for and the cache holds one. *)
Lemma hours_forecast_is_bounded_witness :
  WeatherQueries.get_next_hours_forecast (calendar:=new_year_midnight) 12 weather_warm
  = (Returned [first_hour], mkWorld 1 [] [] (self weather_warm))
  /\ (List.length [first_hour] <= Z.to_nat 12)%nat
  /\ Forall is_hour_entry [first_hour].
Proof.
  assert (H : WeatherQueries.get_next_hours_forecast (calendar:=new_year_midnight)
                12 weather_warm
              = (Returned [first_hour], mkWorld 1 [] [] (self weather_warm)))
    by (vm_compute; reflexivity).
  split; [exact H|].
  destruct (hours_forecast_is_bounded (calendar:=new_year_midnight)
              12 weather_warm (mkWorld 1 [] [] (self weather_warm)) [first_hour] H)
    as (Hlen & Hall & _).
  split; [exact Hlen | exact Hall].
Defined.

(** X28 at work: WMO code 3 becomes condition code 1006, whose icons are
    in directory 119. *)
Lemma every_condition_code_has_an_icon_witness :
  Weather._map_condition_code (JNum 3) weather_cold
  = (Returned (JNum 1006), weather_cold)
  /\ exists dir,
      Utils.mapWeatherCodeToWeatherIconDir (JNum 1006) weather_cold
      = (Returned (Some dir), weather_cold).
Proof.
  assert (H : Weather._map_condition_code (JNum 3) weather_cold
              = (Returned (JNum 1006), weather_cold))
    by (vm_compute; reflexivity).
  split; [exact H|].
  exact (every_condition_code_has_an_icon (JNum 3) (JNum 1006)
           weather_cold weather_cold H).
Defined.

(** X29 at work: the train at the platform is dropped, the two others
    are listed. *)
Lemma filter_trains_is_a_window_witness :
  0 <= 6
  /\ Layout.filter_trains [train_now; train_a; train_b] 6 = [train_a; train_b].
Proof.
  assert (H : 0 <= 6) by lia.
  split; [exact H|].
  exact (filter_trains_is_a_window [train_now; train_a; train_b] 6 H).
Defined.

(** X30 at work: the 825 x 1200 panel of the project. *)
Lemma sections_tile_the_screen_witness :
  let d := Config.DisplayConfig_init 825 1200 in
  let s := Config.SubwayConfig_init d in
  Config.TRAIN_SECTION_Y d = 133
  /\ Config.WEATHER_SECTION_Y d = 933
  /\ Config.WEATHER_SECTION_Y d + Config.WEATHER_SECTION_HEIGHT d = 1200
  /\ Config.VERTICAL_LANE_X d + Config.VERTICAL_LANE_WIDTH d = 825
  /\ Config.SECTION_Y s <= Config.F_TRAIN_Y s
  /\ Config.G_TRAIN_Y s <= Config.SECTION_Y s + Config.SECTION_HEIGHT s.
Proof.
  intros d s.
  destruct (sections_tile_the_screen 825 1200 ltac:(lia) ltac:(lia))
    as (_ & _ & _ & _ & _ & _ & Hfill & _ & _ & Hwidth & Hf & _ & Hg).
  split; [reflexivity|]. split; [reflexivity|].
  split; [exact Hfill|]. split; [exact Hwidth|]. split; [exact Hf | exact Hg].
Defined.
